(** * Express project generator (pg.py): a shallow embedding

    The program is a small interactive generator.  It scaffolds an
    Express/TypeScript/Prisma project on disk ([ExpressProjectGenerator])
    and adds CRUD modules (service, controller, routes) to an existing
    project ([create_module]).  A menu loop ([main]) drives both.

    The embedding keeps the shape of the Python source:
    - Python [str] values are [string]s.  The model covers ASCII text:
      [str.lower], [str.capitalize] and [str.strip] are defined on the
      ASCII letters and the ASCII white space, other bytes are left as
      they are.  What is stated about the case mapping itself is stated
      for names of ASCII characters ([ascii_only]).
    - an f-string is a list of parts, literal text and replacement
      fields, whose value is the concatenation of the parts.
    - [os.path.join] and [os.path.dirname] are the POSIX string functions.
    - the file system is a finite map from resolved paths (lists of
      components from the root) to nodes; every effectful function is a
      state transformer on a [World] that also returns either a value or
      the exception that was raised.  What was written before an
      exception stays written.  A path string is resolved on its text
      ([.] and empty components dropped, [..] going one up); links,
      permissions and the room left on the disk are not modelled.  The
      text names the node the file system reaches when the path only
      goes down ([Path.descends]): what is stated about the directories
      a call creates, and about moving into a directory, is stated for
      such paths.
    - what lies outside the program is a parameter of it: the text that
      [json.dump] produces, the effect of the shell commands on the file
      system, the running script that [_copy_script] copies. *)

From stdpp Require Import gmap strings list fin_maps.
From Stdlib Require Import Ascii.

Set Warnings "-clear-no-such-hyp".

(** ** Characters and strings *)

Module Str.

Definition newline : ascii := "010"%char.
Definition slash : ascii := "/"%char.

(** [c] is one of the ASCII letters [A-Z]. *)
Definition is_upper (c : ascii) : bool :=
  let n := nat_of_ascii c in (65 <=? n) && (n <=? 90).

(** [c] is one of the ASCII letters [a-z]. *)
Definition is_lower (c : ascii) : bool :=
  let n := nat_of_ascii c in (97 <=? n) && (n <=? 122).

Definition ascii_lower (c : ascii) : ascii :=
  if is_upper c then ascii_of_nat (nat_of_ascii c + 32) else c.

Definition ascii_upper (c : ascii) : ascii :=
  if is_lower c then ascii_of_nat (nat_of_ascii c - 32) else c.

(** Python's [str.isspace] on the ASCII range: tab, line feed, vertical
    tab, form feed, carriage return, the four separators 28-31, space. *)
Definition is_space (c : ascii) : bool :=
  let n := nat_of_ascii c in
  ((9 <=? n) && (n <=? 13)) || ((28 <=? n) && (n <=? 31)) || (n =? 32).

Fixpoint map (f : ascii → ascii) (s : string) : string :=
  match s with
  | EmptyString => EmptyString
  | String c s' => String (f c) (map f s')
  end.

(** [str.lower()] *)
Definition lower (s : string) : string := map ascii_lower s.

(** [str.capitalize()]: the first character is upper-cased and the rest
    of the string is lower-cased. *)
Definition capitalize (s : string) : string :=
  match s with
  | EmptyString => EmptyString
  | String c s' => String (ascii_upper c) (lower s')
  end.

(** [s[1:]] *)
Definition tail (s : string) : string :=
  match s with
  | EmptyString => EmptyString
  | String _ s' => s'
  end.

(** [s.startswith(c)] and [s.endswith(c)] for a one-character [c]. *)
Definition startswith (c : ascii) (s : string) : bool :=
  match s with
  | String a _ => bool_decide (a = c)
  | EmptyString => false
  end.

Fixpoint endswith (c : ascii) (s : string) : bool :=
  match s with
  | EmptyString => false
  | String a EmptyString => bool_decide (a = c)
  | String _ s' => endswith c s'
  end.

(** No character of [s] is [c]. *)
Fixpoint free_of (c : ascii) (s : string) : bool :=
  match s with
  | EmptyString => true
  | String a s' => negb (bool_decide (a = c)) && free_of c s'
  end.

(** [s.lstrip()], [s.rstrip()] and [s.strip()] without argument. *)
Fixpoint lstrip (s : string) : string :=
  match s with
  | String c s' => if is_space c then lstrip s' else s
  | EmptyString => EmptyString
  end.

Fixpoint rstrip (s : string) : string :=
  match s with
  | EmptyString => EmptyString
  | String c s' =>
      match rstrip s' with
      | EmptyString => if is_space c then EmptyString else String c EmptyString
      | r => String c r
      end
  end.

Definition strip (s : string) : string := rstrip (lstrip s).

(** [s.rstrip(c)] for a one-character [c]. *)
Fixpoint rstrip_char (c : ascii) (s : string) : string :=
  match s with
  | EmptyString => EmptyString
  | String a s' =>
      match rstrip_char c s' with
      | EmptyString => if bool_decide (a = c) then EmptyString else String a EmptyString
      | r => String a r
      end
  end.

(** [s.split(c)] for a one-character separator: the pieces between the
    occurrences of [c], the empty ones included. *)
Fixpoint split (c : ascii) (s : string) : list string :=
  match s with
  | EmptyString => [EmptyString]
  | String a s' =>
      if bool_decide (a = c) then EmptyString :: split c s'
      else match split c s' with
           | x :: xs => String a x :: xs
           | [] => [String a EmptyString]
           end
  end.

(** The lines of a text. *)
Definition lines (s : string) : list string := split newline s.

(** [sep.join(l)] for the empty separator: the value of an f-string
    from the values of its parts. *)
Definition concat (l : list string) : string := foldr String.app EmptyString l.

(** [c.join(l)] for a one-character separator [c]. *)
Fixpoint join (c : ascii) (l : list string) : string :=
  match l with
  | [] => EmptyString
  | [x] => x
  | x :: xs => x +:+ String c (join c xs)
  end.

(** [s.startswith(p)] *)
Fixpoint has_prefix (p s : string) : bool :=
  match p with
  | EmptyString => true
  | String a p' =>
      match s with
      | String b s' => bool_decide (a = b) && has_prefix p' s'
      | EmptyString => false
      end
  end.

(** [s.endswith(suffix)] *)
Fixpoint has_suffix (suffix s : string) : bool :=
  bool_decide (s = suffix) ||
  match s with
  | EmptyString => false
  | String _ s' => has_suffix suffix s'
  end.

(** [c * n] *)
Fixpoint replicate (n : nat) (c : ascii) : string :=
  match n with
  | O => EmptyString
  | S n' => String c (replicate n' c)
  end.

End Str.

(** ** Paths

    [posixpath.join] and [posixpath.dirname], on strings as in the library,
    and the resolution of a path string to the node it names. *)

Module Path.

(** One step of [os.path.join]: an absolute component discards what came
    before it; a separator is added unless the path so far is empty or
    already ends with one. *)
Definition join2 (path b : string) : string :=
  if Str.startswith Str.slash b then b
  else if bool_decide (path = EmptyString) || Str.endswith Str.slash path
       then path +:+ b
       else path +:+ String Str.slash b.

(** [os.path.join(a, *p)] *)
Definition join (a : string) (p : list string) : string := fold_left join2 p a.

(** [p[:p.rfind('/') + 1]]: [p] up to and including its last separator. *)
Fixpoint head_part (p : string) : string :=
  match p with
  | EmptyString => EmptyString
  | String a p' => if Str.free_of Str.slash p then EmptyString else String a (head_part p')
  end.

(** [os.path.dirname(p)]: trailing separators are removed from the head
    unless the head consists of separators only. *)
Definition dirname (p : string) : string :=
  let head := head_part p in
  match Str.rstrip_char Str.slash head with
  | EmptyString => head
  | stripped => stripped
  end.

(** A resolved path: the components from the root directory down. *)
Abbreviation key := (list string).

(** Empty components and [.] name the directory itself, [..] its parent
    (resolved on the text, as [os.path.normpath] does). *)
Definition step (acc : key) (c : string) : key :=
  if bool_decide (c = EmptyString) || bool_decide (c = ".") then acc
  else if bool_decide (c = "..") then removelast acc
  else acc ++ [c].

(** The node a path string names when the working directory is [cwd]. *)
Definition resolve (cwd : key) (p : string) : key :=
  fold_left step (Str.split Str.slash p)
            (if Str.startswith Str.slash p then [] else cwd).

(** A plain component: not empty, without separator, neither [.] nor
    [..]. *)
Definition simple (c : string) : bool :=
  Str.free_of Str.slash c &&
  negb (bool_decide (c = EmptyString) || bool_decide (c = ".") || bool_decide (c = "..")).

(** No component of [p] is [..]: the path only goes down.  [resolve]
    works on the text of a path, as [os.path.normpath] does; the file
    system walks a path component by component, and for [a/x/../b] it
    needs the directory [a/x], which the text does not show.  On a path
    that only goes down the two name the same node. *)
Definition descends (p : string) : bool :=
  forallb (λ c, negb (bool_decide (c = ".."))) (Str.split Str.slash p).

(** [os.path.basename(p)]: what follows the last separator. *)
Definition basename (p : string) : string := List.last (Str.split Str.slash p) EmptyString.

(** The absolute path string of a resolved path. *)
Definition to_string (k : key) : string :=
  match k with
  | [] => String Str.slash EmptyString
  | _ => foldr (λ c acc, String Str.slash c +:+ acc) EmptyString k
  end.

(** The path string of [k] relative to its ancestor: components joined by
    separators. *)
Definition relative (k : key) : string := Str.join Str.slash k.

End Path.

(** ** The world: file system, working directory, console *)

(** A node of the file system: a directory, or a regular file with its
    text. *)
Inductive node : Type :=
| Dir
| File (content : string).

#[global] Instance node_eq_dec : EqDecision node.
Proof. solve_decision. Defined.

(** The exceptions the program can meet. *)
Inductive exn : Type :=
| FileNotFoundError
| NotADirectoryError
| IsADirectoryError
| FileExistsError
| EOFError.

#[global] Instance exn_eq_dec : EqDecision exn.
Proof. solve_decision. Defined.

(** [stdin] holds the lines still to be read by [input()], [stdout] what
    was printed so far (prompts included), oldest first. *)
Record World : Type := mkWorld {
  fs : gmap (list string) node;
  cwd : list string;
  stdin : list string;
  stdout : list string
}.

Definition set_fs (m : gmap (list string) node) (w : World) : World :=
  mkWorld m (cwd w) (stdin w) (stdout w).
Definition set_cwd (k : list string) (w : World) : World :=
  mkWorld (fs w) k (stdin w) (stdout w).

(** How a call ends: with a value, or with an exception on its way up. *)
Inductive outcome (A : Type) : Type :=
| Return (a : A)
| Raise (e : exn).
Arguments Return {A} a.
Arguments Raise {A} e.

#[global] Instance outcome_eq_dec {A} `{EqDecision A} : EqDecision (outcome A).
Proof. solve_decision. Defined.

#[global] Instance World_eq_dec : EqDecision World.
Proof. solve_decision. Defined.

(** A closed, decidable statement is settled by evaluating its decision
    procedure. *)
Ltac by_evaluation := apply (bool_decide_unpack _); vm_compute; exact I.

(** A Python statement or call: it changes the world and returns or
    raises.  The world at the time of a raise is kept. *)
Definition M (A : Type) : Type := World → outcome A * World.

Definition ret {A} (a : A) : M A := λ w, (Return a, w).
Definition raise {A} (e : exn) : M A := λ w, (Raise e, w).
Definition bind {A B} (m : M A) (k : A → M B) : M B :=
  λ w, match m w with
       | (Return a, w') => k a w'
       | (Raise e, w') => (Raise e, w')
       end.

Declare Scope py_scope.
Delimit Scope py_scope with py.
Notation "x <- m ;; k" := (bind m (λ x, k))
  (at level 20, m at level 99, k at level 200, only parsing) : py_scope.
Notation "m ;; k" := (bind m (λ _, k))
  (at level 100, k at level 200, right associativity, only parsing) : py_scope.
Open Scope py_scope.

(** [for x in l: body(x)] *)
Fixpoint for_each {A} (l : list A) (body : A → M unit) : M unit :=
  match l with
  | [] => ret tt
  | x :: l' => body x ;; for_each l' body
  end.

(** [print(s)] *)
Definition print (s : string) : M unit :=
  λ w, (Return tt, mkWorld (fs w) (cwd w) (stdin w) (stdout w ++ [s])).

(** [input(prompt)]: the prompt is printed, then one line is read;
    at the end of the input [EOFError] is raised. *)
Definition input (prompt : string) : M string :=
  λ w, match stdin w with
       | l :: rest => (Return l, mkWorld (fs w) (cwd w) rest (stdout w ++ [prompt]))
       | [] => (Raise EOFError, mkWorld (fs w) (cwd w) [] (stdout w ++ [prompt]))
       end.

(** [os.getcwd()] *)
Definition os_getcwd : M string := λ w, (Return (Path.to_string (cwd w)), w).

(** [os.makedirs(p, exist_ok=True)] below the prefix [pre]: every missing
    directory on the way is created, top down; a regular file on the way
    stops the call, [FileExistsError] when it is the target itself and
    [NotADirectoryError] when it is an ancestor. *)
Fixpoint makedirs_from (pre rest : list string) (m : gmap (list string) node)
  : option exn * gmap (list string) node :=
  match rest with
  | [] => (None, m)
  | c :: rest' =>
      let q := pre ++ [c] in
      match m !! q with
      | Some Dir => makedirs_from q rest' m
      | Some (File _) =>
          (Some (match rest' with [] => FileExistsError | _ => NotADirectoryError end), m)
      | None => makedirs_from q rest' (<[q := Dir]> m)
      end
  end.

(** The nodes [makedirs_from pre rest] goes through, top down: [pre]
    extended by one, two, ... components of [rest]. *)
Fixpoint steps_down (pre rest : list string) : list (list string) :=
  match rest with
  | [] => []
  | c :: rest' => (pre ++ [c]) :: steps_down (pre ++ [c]) rest'
  end.

Definition os_makedirs (p : string) : M unit :=
  λ w, if bool_decide (p = EmptyString) then (Raise FileNotFoundError, w)
       else match makedirs_from [] (Path.resolve (cwd w) p) (fs w) with
            | (None, m) => (Return tt, set_fs m w)
            | (Some e, m) => (Raise e, set_fs m w)
            end.

(** Is the resolved path [k] a directory?  The root always is. *)
Definition is_dir (m : gmap (list string) node) (k : list string) : bool :=
  match k with
  | [] => true
  | _ => bool_decide (m !! k = Some Dir)
  end.

(** [with open(p, 'w') as f: f.write(content)]: the parent directory must
    exist; the file is created or replaced as a whole. *)
Definition write_file (p content : string) : M unit :=
  λ w, let k := Path.resolve (cwd w) p in
       if bool_decide (p = EmptyString) then (Raise FileNotFoundError, w)
       else if is_dir (fs w) k then (Raise IsADirectoryError, w)
       else let parent := removelast k in
            if is_dir (fs w) parent then (Return tt, set_fs (<[k := File content]> (fs w)) w)
            else match fs w !! parent with
                 | Some _ => (Raise NotADirectoryError, w)
                 | None => (Raise FileNotFoundError, w)
                 end.

(** Is the resolved path [k] a regular file? *)
Definition is_file (m : gmap (list string) node) (k : list string) : bool :=
  match m !! k with
  | Some (File _) => true
  | _ => false
  end.

(** A file can be written at [k]: [k] is not a directory and its parent
    is one. *)
Definition writable (m : gmap (list string) node) (k : list string) : Prop :=
  is_dir m k = false ∧ is_dir m (removelast k) = true.

(** [os.chdir(p)] *)
Definition os_chdir (p : string) : M unit :=
  λ w, let k := Path.resolve (cwd w) p in
       if bool_decide (p = EmptyString) then (Raise FileNotFoundError, w)
       else if is_dir (fs w) k then (Return tt, set_cwd k w)
       else match fs w !! k with
            | Some _ => (Raise NotADirectoryError, w)
            | None => (Raise FileNotFoundError, w)
            end.

(** ** Texts

    A triple-quoted literal is kept as the list of its lines (the text is
    the lines joined by line feeds; it starts and ends with an empty
    line, since the literal starts and ends with a line feed).  In an
    f-string a line is a list of parts. *)

(** A part of an f-string of [create_module]: literal text, or one of the
    replacement fields [{module_name}], [{module_name.capitalize()}] and
    [{module_name.lower()}]. *)
Inductive part : Type :=
| Lit (text : string)
| Raw
| Cap
| Low.

Abbreviation line := (list part).

Definition part_value (module_name : string) (p : part) : string :=
  match p with
  | Lit text => text
  | Raw => module_name
  | Cap => Str.capitalize module_name
  | Low => Str.lower module_name
  end.

Definition fline (module_name : string) (l : line) : string :=
  Str.concat (part_value module_name <$> l).

(** The value of an f-string for a given [module_name]. *)
Definition fstring (module_name : string) (t : list line) : string :=
  Str.join Str.newline (fline module_name <$> t).

(** The value of a plain triple-quoted literal. *)
Definition text (ls : list string) : string := Str.join Str.newline ls.

Definition dquote : ascii := "034"%char.
Definition quoted (s : string) : string := String dquote (s +:+ String dquote EmptyString).

(** The f-string [service_content] (pg.py, lines 267-301). *)
Definition service_template : list line :=
  [ [];
    [Lit "import { prisma } from '../config/database';"];
    [];
    [Lit "export const get"; Cap; Lit "s = async () => {"];
    [Lit "  return prisma."; Low; Lit ".findMany();"];
    [Lit "};"];
    [];
    [Lit "export const get"; Cap; Lit "ById = async (id: number) => {"];
    [Lit "  const "; Low; Lit " = await prisma."; Low; Lit ".findUnique({ where: { id } });"];
    [Lit "  if (!"; Low; Lit ") {"];
    [Lit "    throw new Error('"; Cap; Lit " not found');"];
    [Lit "  }"];
    [Lit "  return "; Low; Lit ";"];
    [Lit "};"];
    [];
    [Lit "export const create"; Cap; Lit " = async (data: any) => {"];
    [Lit "  return prisma."; Low; Lit ".create({ data });"];
    [Lit "};"];
    [];
    [Lit "export const update"; Cap; Lit " = async (id: number, data: any) => {"];
    [Lit "  const updated"; Cap; Lit " = await prisma."; Low; Lit ".update({ where: { id }, data });"];
    [Lit "  if (!updated"; Cap; Lit ") {"];
    [Lit "    throw new Error('"; Cap; Lit " not found');"];
    [Lit "  }"];
    [Lit "  return updated"; Cap; Lit ";"];
    [Lit "};"];
    [];
    [Lit "export const delete"; Cap; Lit " = async (id: number) => {"];
    [Lit "  const deleted"; Cap; Lit " = await prisma."; Low; Lit ".delete({ where: { id } });"];
    [Lit "  if (!deleted"; Cap; Lit ") {"];
    [Lit "    throw new Error('"; Cap; Lit " not found');"];
    [Lit "  }"];
    [Lit "  return deleted"; Cap; Lit ";"];
    [Lit "};"];
    [] ].

(** The f-string [controller_content] (pg.py, lines 306-369). *)
Definition controller_template : list line :=
  [ [];
    [Lit "import { Request, Response } from 'express';"];
    [Lit "import * as "; Raw; Lit "Service from '../services/"; Low; Lit "-service';"];
    [];
    [Lit "export const get"; Cap; Lit "s = async (req: Request, res: Response) => {"];
    [Lit "  try {"];
    [Lit "    const "; Raw; Lit "s = await "; Raw; Lit "Service.get"; Cap; Lit "s();"];
    [Lit "    res.json({ success: true, data: "; Raw; Lit "s });"];
    [Lit "  } catch (error) {"];
    [Lit "    res.status(500).json({ success: false, message: 'Failed to retrieve "; Raw; Lit "s', error: error.message });"];
    [Lit "  }"];
    [Lit "};"];
    [];
    [Lit "export const get"; Cap; Lit " = async (req: Request, res: Response) => {"];
    [Lit "  try {"];
    [Lit "    const { id } = req.params;"];
    [Lit "    const "; Raw; Lit " = await "; Raw; Lit "Service.get"; Cap; Lit "ById(Number(id));"];
    [Lit "    res.json({ success: true, data: "; Raw; Lit " });"];
    [Lit "  } catch (error) {"];
    [Lit "    if (error.message === '"; Cap; Lit " not found') {"];
    [Lit "      res.status(404).json({ success: false, message: error.message });"];
    [Lit "    } else {"];
    [Lit "      res.status(500).json({ success: false, message: 'Failed to retrieve "; Raw; Lit "', error: error.message });"];
    [Lit "    }"];
    [Lit "  }"];
    [Lit "};"];
    [];
    [Lit "export const create"; Cap; Lit " = async (req: Request, res: Response) => {"];
    [Lit "  try {"];
    [Lit "    const new"; Cap; Lit " = await "; Raw; Lit "Service.create"; Cap; Lit "(req.body);"];
    [Lit "    res.status(201).json({ success: true, data: new"; Cap; Lit ", message: '"; Cap; Lit " created successfully' });"];
    [Lit "  } catch (error) {"];
    [Lit "    res.status(500).json({ success: false, message: 'Failed to create "; Raw; Lit "', error: error.message });"];
    [Lit "  }"];
    [Lit "};"];
    [];
    [Lit "export const update"; Cap; Lit " = async (req: Request, res: Response) => {"];
    [Lit "  try {"];
    [Lit "    const { id } = req.params;"];
    [Lit "    const updated"; Cap; Lit " = await "; Raw; Lit "Service.update"; Cap; Lit "(Number(id), req.body);"];
    [Lit "    res.json({ success: true, data: updated"; Cap; Lit ", message: '"; Cap; Lit " updated successfully' });"];
    [Lit "  } catch (error) {"];
    [Lit "    if (error.message === '"; Cap; Lit " not found') {"];
    [Lit "      res.status(404).json({ success: false, message: error.message });"];
    [Lit "    } else {"];
    [Lit "      res.status(500).json({ success: false, message: 'Failed to update "; Raw; Lit "', error: error.message });"];
    [Lit "    }"];
    [Lit "  }"];
    [Lit "};"];
    [];
    [Lit "export const delete"; Cap; Lit " = async (req: Request, res: Response) => {"];
    [Lit "  try {"];
    [Lit "    const { id } = req.params;"];
    [Lit "    await "; Raw; Lit "Service.delete"; Cap; Lit "(Number(id));"];
    [Lit "    res.json({ success: true, message: '"; Cap; Lit " deleted successfully' });"];
    [Lit "  } catch (error) {"];
    [Lit "    if (error.message === '"; Cap; Lit " not found') {"];
    [Lit "      res.status(404).json({ success: false, message: error.message });"];
    [Lit "    } else {"];
    [Lit "      res.status(500).json({ success: false, message: 'Failed to delete "; Raw; Lit "', error: error.message });"];
    [Lit "    }"];
    [Lit "  }"];
    [Lit "};"];
    [] ].

(** The f-string [route_content] (pg.py, lines 374-387). *)
Definition route_template : list line :=
  [ [];
    [Lit "import { Router } from 'express';"];
    [Lit "import * as "; Raw; Lit "Controller from '../controllers/"; Low; Lit "-controller';"];
    [];
    [Lit "const router = Router();"];
    [];
    [Lit "router.get('/', "; Raw; Lit "Controller.get"; Cap; Lit "s);"];
    [Lit "router.get('/:id', "; Raw; Lit "Controller.get"; Cap; Lit ");"];
    [Lit "router.post('/', "; Raw; Lit "Controller.create"; Cap; Lit ");"];
    [Lit "router.put('/:id', "; Raw; Lit "Controller.update"; Cap; Lit ");"];
    [Lit "router.delete('/:id', "; Raw; Lit "Controller.delete"; Cap; Lit ");"];
    [];
    [Lit "export default router;"];
    [] ].


Definition service_content (module_name : string) : string :=
  fstring module_name service_template.
Definition controller_content (module_name : string) : string :=
  fstring module_name controller_template.
Definition route_content (module_name : string) : string :=
  fstring module_name route_template.

(** The text returned by [_get_app_content], line by line. *)
Definition app_lines : list string :=
  [ EmptyString;
    "import express from 'express';";
    "import cors from 'cors';";
    "import helmet from 'helmet';";
    "import 'express-async-errors';";
    "import errorHandler from './middlewares/error-handler';";
    EmptyString;
    "const app = express();";
    EmptyString;
    "app.use(cors());";
    "app.use(helmet());";
    "app.use(express.json());";
    EmptyString;
    "// Add routes here";
    "// app.use('/api/users', userRoutes);";
    EmptyString;
    "app.use(errorHandler);";
    EmptyString;
    "export default app;";
    EmptyString ].

(** The text returned by [_get_server_content], line by line. *)
Definition server_lines : list string :=
  [ EmptyString;
    "import app from './app';";
    "import { PrismaClient } from '@prisma/client';";
    "import { connectDatabase } from './config/database';";
    EmptyString;
    "const prisma = new PrismaClient();";
    "const port = process.env.PORT || 3000;";
    EmptyString;
    "async function startServer() {";
    "  try {";
    "    await connectDatabase();";
    "    app.listen(port, () => {";
    "      console.log(`Server running on http://localhost:${port}`);";
    "    });";
    "  } catch (error) {";
    "    console.error('Failed to start server:', error);";
    "    process.exit(1);";
    "  }";
    "}";
    EmptyString;
    "startServer();";
    EmptyString;
    "process.on('SIGINT', async () => {";
    "  await prisma.$disconnect();";
    "  process.exit(0);";
    "});";
    EmptyString ].

(** The text returned by [_get_database_config_content], line by line. *)
Definition database_config_lines : list string :=
  [ EmptyString;
    "import { PrismaClient } from '@prisma/client';";
    EmptyString;
    "const prisma = new PrismaClient();";
    EmptyString;
    "export async function connectDatabase() {";
    "  try {";
    "    await prisma.$connect();";
    "    console.log('Database connected successfully');";
    "  } catch (error) {";
    "    console.error('Database connection failed:', error);";
    "    process.exit(1);";
    "  }";
    "}";
    EmptyString;
    "export { prisma };";
    EmptyString ].

(** The text returned by [_get_error_handler_content], line by line. *)
Definition error_handler_lines : list string :=
  [ EmptyString;
    "import { Request, Response, NextFunction } from 'express';";
    EmptyString;
    "const errorHandler = (err: Error, req: Request, res: Response, next: NextFunction) => {";
    "  console.error(err.stack);";
    EmptyString;
    "  res.status(500).json({";
    "    message: 'Internal Server Error',";
    "    ...(process.env.NODE_ENV === 'development' && { error: err.message })";
    "  });";
    "};";
    EmptyString;
    "export default errorHandler;";
    EmptyString ].

(** The text returned by [_get_gitignore_content], line by line. *)
Definition gitignore_lines : list string :=
  [ EmptyString;
    "node_modules";
    "dist";
    ".env";
    "*.log";
    EmptyString ].

(** The f-string [schema_content] of [_setup_prisma]; it has no
    replacement field. *)
Definition schema_lines : list string :=
  [ EmptyString;
    "generator client {";
    "  provider = " +:+ quoted "prisma-client-js";
    "}";
    EmptyString;
    "datasource db {";
    "  provider = " +:+ quoted "postgresql";
    "  url      = env(" +:+ quoted "DATABASE_URL" +:+ ")";
    "}";
    EmptyString;
    "model User {";
    "  id        Int      @id @default(autoincrement())";
    "  email     String   @unique";
    "  name      String?";
    "  createdAt DateTime @default(now())";
    "  updatedAt DateTime @updatedAt";
    "}";
    EmptyString ].

(** ** The program *)

(** A JSON value as [json.dump] receives it: the dict literals of
    [_initialize_npm_project] and [_setup_typescript]. *)
#[warnings="-register-all"]
Inductive json : Type :=
| JString (s : string)
| JBool (b : bool)
| JArray (items : list json)
| JObject (members : list (string * json)).

(** The instance attributes of [ExpressProjectGenerator]. *)
Record ExpressProjectGenerator : Type := mkGenerator {
  project_name : string;
  project_path : string;
  src_path : string;
  database_url : string
}.

#[global] Instance ExpressProjectGenerator_eq_dec : EqDecision ExpressProjectGenerator.
Proof. solve_decision. Defined.

(** The three files of a module: [os.path.join(base_path, folder,
    f'{module_name.lower()}-{kind}.ts')] with
    [base_path = os.path.join(project_path, 'src')]. *)
Definition module_file (folder kind : string) (project_path module_name : string) : string :=
  Path.join (Path.join project_path ["src"])
            [folder; Str.lower module_name +:+ "-" +:+ kind +:+ ".ts"].

Definition service_file : string → string → string := module_file "services" "service".
Definition controller_file : string → string → string := module_file "controllers" "controller".
Definition route_file : string → string → string := module_file "routes" "routes".

(** [create_module(project_path, module_name)] *)
Definition create_module (project_path module_name : string) : M unit :=
  write_file (service_file project_path module_name) (service_content module_name) ;;
  write_file (controller_file project_path module_name) (controller_content module_name) ;;
  write_file (route_file project_path module_name) (route_content module_name) ;;
  print (Str.capitalize module_name +:+ " module created successfully!").

(** The nodes that the three paths of a module name, seen from the working
    directory of the world [w]. *)
Definition service_key (w : World) (project_path module_name : string) : list string :=
  Path.resolve (cwd w) (service_file project_path module_name).
Definition controller_key (w : World) (project_path module_name : string) : list string :=
  Path.resolve (cwd w) (controller_file project_path module_name).
Definition route_key (w : World) (project_path module_name : string) : list string :=
  Path.resolve (cwd w) (route_file project_path module_name).

(** The file system after the three writes of [create_module]. *)
Definition with_module (w : World) (project_path module_name : string)
  : gmap (list string) node :=
  <[route_key w project_path module_name := File (route_content module_name)]>
    (<[controller_key w project_path module_name := File (controller_content module_name)]>
       (<[service_key w project_path module_name := File (service_content module_name)]> (fs w))).

(** The regular files that [os.walk(top)] reaches: those below [top] with
    only directories on the way, [top] included.  They come in the order
    in which the map lists them ([os.walk] follows the order of the
    directory listings). *)
Definition walk_reaches (m : gmap (list string) node) (top k : list string) : bool :=
  bool_decide (top `prefix_of` k) && bool_decide (top ≠ k) &&
  forallb (λ n, is_dir m (take n k)) (seq (length top) (length k - length top)).

Definition walk_files (m : gmap (list string) node) (top : list string)
  : list (list string * string) :=
  omap (λ kn, match kn.2 with
              | File content => if walk_reaches m top kn.1 then Some (kn.1, content) else None
              | Dir => None
              end) (map_to_list m).

(** [save_ts_files_to_file(project_path)] *)
Definition save_ts_files_to_file (project_path : string) : M unit :=
  let src_path := Path.join project_path ["src"] in
  λ w,
    let root := Path.resolve (cwd w) project_path in
    let all_content :=
      omap (λ kc : list string * string,
              if Str.has_suffix ".ts" (List.last kc.1 EmptyString)
              then Some ("// " +:+ Path.relative (drop (length root) kc.1)
                         +:+ String Str.newline (String Str.newline kc.2)
                         +:+ String Str.newline (String Str.newline (Str.replicate 80 "="%char))
                         +:+ String Str.newline EmptyString)
              else None)
           (walk_files (fs w) (Path.resolve (cwd w) src_path)) in
    let output_file := Path.join project_path ["allcodebase.txt"] in
    (write_file output_file (Str.join Str.newline all_content) ;;
     print ("All TypeScript files from " +:+ src_path +:+ " have been saved to "
            +:+ output_file +:+ ".")) w.

Section Program.

(** What the program takes from outside: the text [json.dump(obj, f,
    indent=2)] writes for [obj]; what a shell command does to the file
    system when it is run in a working directory (its exit status is
    dropped by the program); the name and the text of the running
    script, which [_copy_script] copies. *)
Variable json_dumps : json → string.
Variable shell : string → list string → gmap (list string) node → gmap (list string) node.
Variable script_name : string.
Variable script_text : string.

(** [os.system(cmd)] *)
Definition os_system (cmd : string) : M unit :=
  λ w, (Return tt, set_fs (shell cmd (cwd w) (fs w)) w).

(** [shutil.copy2(__file__, dst)]: into [dst] when it is a directory.  The
    running script is taken to be readable and not to be the target. *)
Definition copy_script_to (dst : string) : M unit :=
  λ w, if is_dir (fs w) (Path.resolve (cwd w) dst) && negb (bool_decide (dst = EmptyString))
       then write_file (Path.join dst [script_name]) script_text w
       else write_file dst script_text w.

(** [ExpressProjectGenerator.__init__] *)
Definition __init__ (name : string) : M ExpressProjectGenerator :=
  here <- os_getcwd ;;
  let path := Path.join here [name] in
  ret (mkGenerator name path (Path.join path ["src"]) EmptyString).

Section Methods.

Variable self : ExpressProjectGenerator.

Definition directories : list string :=
  [ src_path self;
    Path.join (src_path self) ["controllers"];
    Path.join (src_path self) ["routes"];
    Path.join (src_path self) ["services"];
    Path.join (src_path self) ["middlewares"];
    Path.join (src_path self) ["models"];
    Path.join (src_path self) ["config"];
    Path.join (src_path self) ["utils"] ].

Definition _create_directory_structure : M unit :=
  for_each directories os_makedirs.

Definition package_json : json :=
  JObject
    [ ("name", JString (project_name self));
      ("version", JString "1.0.0");
      ("description", JString "Express TypeScript project with Prisma");
      ("main", JString "dist/server.js");
      ("scripts", JObject
         [ ("start", JString "node dist/server.js");
           ("dev", JString "ts-node-dev --respawn --transpile-only src/server.ts");
           ("build", JString "tsc");
           ("prisma:generate", JString "prisma generate");
           ("prisma:migrate", JString "prisma migrate dev") ]);
      ("keywords", JArray [JString "express"; JString "typescript"; JString "prisma"]);
      ("author", JString EmptyString);
      ("license", JString "ISC");
      ("dependencies", JObject
         [ ("express", JString "^4.17.1");
           ("@prisma/client", JString "^3.15.2");
           ("dotenv", JString "^10.0.0");
           ("cors", JString "^2.8.5");
           ("helmet", JString "^4.6.0");
           ("express-async-errors", JString "^3.1.1") ]);
      ("devDependencies", JObject
         [ ("typescript", JString "^4.5.4");
           ("@types/node", JString "^16.11.12");
           ("@types/express", JString "^4.17.13");
           ("@types/cors", JString "^2.8.12");
           ("ts-node-dev", JString "^1.1.8");
           ("prisma", JString "^3.15.2") ]) ].

Definition _initialize_npm_project : M unit :=
  os_chdir (project_path self) ;;
  write_file "package.json" (json_dumps package_json).

Definition tsconfig : json :=
  JObject
    [ ("compilerOptions", JObject
         [ ("target", JString "es2017");
           ("module", JString "commonjs");
           ("outDir", JString "./dist");
           ("rootDir", JString "./src");
           ("strict", JBool true);
           ("esModuleInterop", JBool true) ]);
      ("include", JArray [JString "src/**/*"]);
      ("exclude", JArray [JString "node_modules"]) ].

Definition _setup_typescript : M unit :=
  write_file (Path.join (project_path self) ["tsconfig.json"]) (json_dumps tsconfig).

(** [_setup_prisma] assigns [self.database_url]: the updated object is
    returned. *)
Definition _setup_prisma : M ExpressProjectGenerator :=
  url <- input "database URL for Prisma: " ;;
  let schema_path := Path.join (project_path self) ["prisma"; "schema.prisma"] in
  os_makedirs (Path.dirname schema_path) ;;
  write_file schema_path (Str.strip (text schema_lines)) ;;
  ret (mkGenerator (project_name self) (project_path self) (src_path self) url).

Definition _create_file (path content : string) : M unit :=
  let full_path := Path.join (project_path self) [path] in
  os_makedirs (Path.dirname full_path) ;;
  write_file full_path (Str.strip content +:+ String Str.newline EmptyString).

Definition _get_app_content : string := text app_lines.
Definition _get_server_content : string := text server_lines.
Definition _get_database_config_content : string := text database_config_lines.

(** The class defines [_get_error_handler_content] twice; the second
    definition (pg.py, line 233) is the one in force. *)
Definition _get_error_handler_content : string := text error_handler_lines.

Definition _get_env_content : string :=
  text [ EmptyString;
         "PORT=3000";
         "DATABASE_URL=" +:+ quoted (database_url self);
         "NODE_ENV=development";
         EmptyString ].

Definition _get_gitignore_content : string := text gitignore_lines.

Definition _create_base_files : M unit :=
  _create_file "src/app.ts" _get_app_content ;;
  _create_file "src/server.ts" _get_server_content ;;
  _create_file "src/config/database.ts" _get_database_config_content ;;
  _create_file "src/middlewares/errorHandler.ts" _get_error_handler_content ;;
  _create_file ".env" _get_env_content ;;
  _create_file ".gitignore" _get_gitignore_content.

Definition _install_dependencies : M unit :=
  os_chdir (project_path self) ;;
  os_system "pnpm install" ;;
  print "Dependencies installed successfully!".

Definition _generate_prisma_client : M unit :=
  os_chdir (project_path self) ;;
  os_system "pnpm prisma generate" ;;
  print "Prisma client generated successfully!".

Definition _copy_script : M unit :=
  copy_script_to (Path.join (project_path self) ["express_project_generator.py"]).

End Methods.

Definition create_project (self : ExpressProjectGenerator) : M unit :=
  _create_directory_structure self ;;
  _initialize_npm_project self ;;
  _setup_typescript self ;;
  self' <- _setup_prisma self ;;
  _create_base_files self' ;;
  _install_dependencies self' ;;
  _generate_prisma_client self' ;;
  _copy_script self' ;;
  print ("Project '" +:+ project_name self' +:+ "' created successfully!").

(** What a turn of the loop does once the choice is read: the chain of
    [if]/[elif] of [main].  The value says whether the loop goes on
    ([false] after [break]). *)
Definition after_choice (choice : string) : M bool :=
  if bool_decide (choice = "1") then
    name <- input "Enter project name: " ;;
    generator <- __init__ name ;;
    create_project generator ;;
    ret true
  else if bool_decide (choice = "2") then
    path <- input "Enter the path to your existing project: " ;;
    module_name <- input "Enter the name of the new module: " ;;
    create_module path module_name ;;
    ret true
  else if bool_decide (choice = "3") then
    path <- input "Enter the path to your existing project: " ;;
    save_ts_files_to_file path ;;
    ret true
  else if bool_decide (choice = "4") then
    print "Exiting..." ;;
    ret false
  else
    print "Invalid choice. Please try again." ;;
    ret true.

(** One turn of the [while True] loop of [main]. *)
Definition menu_turn : M bool :=
  print (String Str.newline "--- Express Project Generator ---") ;;
  print "1. Create New Project" ;;
  print "2. Add New Module to Existing Project" ;;
  print "3. Save All TypeScript Files to allcodebase.txt" ;;
  print "4. Exit" ;;
  choice <- input "Enter your choice: " ;;
  after_choice choice.

(** The loop of [main], with a bound on the number of turns; [None] when
    the bound is reached. *)
Fixpoint main_loop (turns : nat) (w : World) : option (outcome unit * World) :=
  match turns with
  | O => None
  | S turns' =>
      match menu_turn w with
      | (Return true, w') => main_loop turns' w'
      | (Return false, w') => Some (Return tt, w')
      | (Raise e, w') => Some (Raise e, w')
      end
  end.

(** [main()]: every turn reads at least one line, so one turn more than
    there are lines of input is enough (see [main_loop_enough]). *)
Definition main (w : World) : option (outcome unit * World) :=
  main_loop (S (length (stdin w))) w.

End Program.

(** ** Statements under test

    Readings of the specification that the program is checked against. *)

(** The specification of the capitalized variant of a name [n]: its first
    character is the upper-cased first character of [n] and the rest is
    the rest of [n], unchanged. *)
Definition capitalized_keeps_tail (n : string) : Prop :=
  String.get 0 (Str.capitalize n) = Str.ascii_upper <$> String.get 0 n ∧
  Str.tail (Str.capitalize n) = Str.tail n.

(** The names on which [Str.lower] and [Str.capitalize] are Python's
    [str.lower] and [str.capitalize]: every character is in the ASCII
    range, where the case mapping is that of the letters A-Z and a-z and
    keeps the length. *)
Definition ascii_char (c : ascii) : bool := nat_of_ascii c <? 128.

Fixpoint ascii_only (n : string) : bool :=
  match n with
  | EmptyString => true
  | String c n' => ascii_char c && ascii_only n'
  end.

(** The specification of module generation for the empty name: the call
    fails, and before any file is written. *)
Definition empty_name_rejected (project_path : string) (w : World) : Prop :=
  ∃ e, create_module project_path EmptyString w = (Raise e, w).

(** The specification of the files of a module: whatever
    [create_module] changes is one of [src/services/L-service.ts],
    [src/controllers/L-controller.ts] and [src/routes/L-routes.ts] below
    the project root, [L] being the lower-cased name. *)
Definition module_files_under_root (project_path module_name : string) (w : World) : Prop :=
  let w' := (create_module project_path module_name w).2 in
  let root := Path.resolve (cwd w) project_path in
  let L := Str.lower module_name in
  ∀ k, fs w' !! k ≠ fs w !! k →
       k = root ++ ["src"; "services"; L +:+ "-service.ts"] ∨
       k = root ++ ["src"; "controllers"; L +:+ "-controller.ts"] ∨
       k = root ++ ["src"; "routes"; L +:+ "-routes.ts"].

(** The text of the environment file for the database URL [d]: three
    lines, each ended by a line feed, with [d] between double quotes. *)
Definition env_file_text (d : string) : string :=
  text [ "PORT=3000"; "DATABASE_URL=" +:+ quoted d; "NODE_ENV=development"; EmptyString ].

(** Reading a generated TypeScript text line by line. *)

(** The lines of [content] that start with [p]. *)
Definition lines_with (p content : string) : list string :=
  List.filter (Str.has_prefix p) (Str.lines content).

(** The exported functions of a text.  The text is cut at the lines that
    start with [export const]; every such line comes with the statements
    that raise between it and the next one: the lines that, indentation
    apart, start with [if (!] or with [throw].  The first component is
    the list of such statements met before any export. *)
Fixpoint exports_from (ls : list string) : list string * list (string * list string) :=
  match ls with
  | [] => ([], [])
  | l :: ls' =>
      let '(raising, found) := exports_from ls' in
      if Str.has_prefix "export const " l then ([], (l, raising) :: found)
      else if Str.has_prefix "if (!" (Str.lstrip l) || Str.has_prefix "throw " (Str.lstrip l)
           then (l :: raising, found)
           else (raising, found)
  end.

Definition exports (content : string) : list (string * list string) :=
  (exports_from (Str.lines content)).2.

(** The line that opens the exported function [ident] with parameters
    [params]; the test for a missing row held in the variable [row]; the
    statement that raises the "not found" error for the entity [cap]; the
    test of a handler for that error; the line that registers a route. *)
Definition export_line (ident params : string) : string :=
  "export const " +:+ ident +:+ " = async (" +:+ params +:+ ") => {".
Definition missing_row_test (row : string) : string :=
  "  if (!" +:+ row +:+ ") {".
Definition not_found_throw (cap : string) : string :=
  "    throw new Error('" +:+ cap +:+ " not found');".
Definition not_found_test (cap : string) : string :=
  "    if (error.message === '" +:+ cap +:+ " not found') {".
Definition route_line (method path handler : string) : string :=
  "router." +:+ method +:+ "('" +:+ path +:+ "', " +:+ handler +:+ ");".

(** The value of a part, given the three values the replacement fields
    can take. *)
Definition part_text (raw cap low : string) (p : part) : string :=
  match p with
  | Lit s => s
  | Raw => raw
  | Cap => cap
  | Low => low
  end.

(** No literal part of a template holds a line feed. *)
Definition template_one_line_parts (t : list line) : bool :=
  forallb (forallb (λ p, match p with Lit s => Str.free_of Str.newline s | _ => true end)) t.

(** The seven folders of a project below [src]. *)
Definition src_folders : list string :=
  ["controllers"; "routes"; "services"; "middlewares"; "models"; "config"; "utils"].

(** The directory tree of a project whose [src] is the node [src]: [src]
    with the directories above it, and the seven folders. *)
Definition project_tree (src : list string) : list (list string) :=
  steps_down [] src ++ ((λ d, src ++ [d]) <$> src_folders).

(** A computation that reads no more input than there is: the input left
    after it is not longer than before. *)
Definition no_more_input {A} (m : M A) : Prop :=
  ∀ w, length (stdin (m w).2) ≤ length (stdin w).

(** The specification of failures in the menu loop: an exception other
    than the end of the input, raised during one turn, ends the turn only,
    and the loop goes on from the world the failure left. *)
Definition failure_is_contained
    (json_dumps : json → string)
    (shell : string → list string → gmap (list string) node → gmap (list string) node)
    (script_name script_text : string) (w : World) : Prop :=
  ∀ e w', menu_turn json_dumps shell script_name script_text w = (Raise e, w') →
          e ≠ EOFError →
          main json_dumps shell script_name script_text w
          = main json_dumps shell script_name script_text w'.

(** A computation that stays where it is, reads nothing, and keeps every
    node that exists, except those it is allowed to replace: the nodes
    [T c] when the working directory is [c]. *)
Definition keeps_except {A} (T : list string → list (list string)) (m : M A) : Prop :=
  ∀ w, cwd (m w).2 = cwd w ∧ stdin (m w).2 = stdin w ∧
       ∀ k n, fs w !! k = Some n → k ∉ T (cwd w) → fs (m w).2 !! k = Some n.

(** The files of [_create_base_files], relative to the project path, and
    the nodes they name for a generator when the working directory is
    [c]. *)
Definition base_file_paths : list string :=
  [ "src/app.ts"; "src/server.ts"; "src/config/database.ts";
    "src/middlewares/errorHandler.ts"; ".env"; ".gitignore" ].

Definition base_file_keys (self : ExpressProjectGenerator) (c : list string)
  : list (list string) :=
  (λ p, Path.resolve c (Path.join (project_path self) [p])) <$> base_file_paths.

(** The section of [allcodebase.txt] for one file: the f-string that
    [save_ts_files_to_file] appends for it (pg.py, line 404), given the
    components of the path relative to the project and the text read. *)
Definition ts_section (relative_path : list string) (content : string) : string :=
  "// " +:+ Path.relative relative_path
  +:+ String Str.newline (String Str.newline content)
  +:+ String Str.newline (String Str.newline (Str.replicate 80 "="%char))
  +:+ String Str.newline EmptyString.

(** A computation that stays where it is and neither reads nor prints. *)
Definition silent {A} (m : M A) : Prop :=
  ∀ w, cwd (m w).2 = cwd w ∧ stdin (m w).2 = stdin w ∧ stdout (m w).2 = stdout w.

(** The lines of input up to the first choice to exit, and the lines after
    it. *)
Fixpoint until_exit (l : list string) : list string :=
  match l with
  | [] => []
  | c :: l' => if bool_decide (c = "4") then [] else c :: until_exit l'
  end.

Fixpoint after_exit (l : list string) : list string :=
  match l with
  | [] => []
  | c :: l' => if bool_decide (c = "4") then l' else after_exit l'
  end.

(** ** Sample worlds *)

(** An environment in which the shell commands do nothing and the
    manifests are written as empty texts. *)
Definition no_json (_ : json) : string := EmptyString.
Definition idle_shell (_ : string) (_ : list string) (m : gmap (list string) node)
  : gmap (list string) node := m.

(** The directory tree of a project [demo] below [/home/user], as
    [_create_directory_structure] leaves it, seen from [/home/user]. *)
Definition scaffolded_fs : gmap (list string) node :=
  list_to_map
    ((λ k, (k, Dir)) <$>
     [ ["home"]; ["home"; "user"]; ["home"; "user"; "demo"];
       ["home"; "user"; "demo"; "src"];
       ["home"; "user"; "demo"; "src"; "controllers"];
       ["home"; "user"; "demo"; "src"; "routes"];
       ["home"; "user"; "demo"; "src"; "services"];
       ["home"; "user"; "demo"; "src"; "middlewares"];
       ["home"; "user"; "demo"; "src"; "models"];
       ["home"; "user"; "demo"; "src"; "config"];
       ["home"; "user"; "demo"; "src"; "utils"] ]).

Definition scaffolded : World := mkWorld scaffolded_fs ["home"; "user"] [] [].

(** A directory [demo] below [/home/user] that holds no project. *)
Definition unscaffolded : World :=
  mkWorld (list_to_map [ (["home"], Dir); (["home"; "user"], Dir);
                         (["home"; "user"; "demo"], Dir) ])
          ["home"; "user"] [] [].

(** The same directory with a service file that was put there before any
    project was scaffolded. *)
Definition half_made : World :=
  mkWorld (list_to_map [ (["home"], Dir); (["home"; "user"], Dir);
                         (["home"; "user"; "demo"], Dir);
                         (["home"; "user"; "demo"; "src"], Dir);
                         (["home"; "user"; "demo"; "src"; "services"], Dir);
                         (["home"; "user"; "demo"; "src"; "services"; "user-service.ts"],
                          File "export {};") ])
          ["home"; "user"] [] [].

(** The scaffolded project at the moment [_setup_prisma] asks for the
    database URL, with the user's answer waiting. *)
Definition url_given : World :=
  mkWorld scaffolded_fs ["home"; "user"] ["postgresql://u:p@db:5432/shop?schema=public"] [].

Definition demo_generator : ExpressProjectGenerator :=
  mkGenerator "demo" "/home/user/demo" "/home/user/demo/src" "postgresql://localhost/demo".

(** A user who asks for a module in a directory that holds no project and
    then wants to leave. *)
Definition module_then_exit : World :=
  mkWorld (fs unscaffolded) (cwd unscaffolded) ["2"; "demo"; "user"; "4"] [].


(** An empty home directory, with the answer to the question for the
    database URL waiting. *)
Definition empty_home : World :=
  mkWorld (list_to_map [ (["home"], Dir); (["home"; "user"], Dir) ])
          ["home"; "user"] ["postgresql://localhost/demo"] [].

(** A directory [demo] in which [src] is a regular file. *)
Definition src_taken : World :=
  mkWorld (list_to_map [ (["home"], Dir); (["home"; "user"], Dir);
                         (["home"; "user"; "demo"], Dir);
                         (["home"; "user"; "demo"; "src"], File "notes") ])
          ["home"; "user"] ["postgresql://localhost/demo"] [].

(** A user who mistypes twice and then leaves, with a line typed ahead. *)
Definition mistyped_then_exit : World :=
  mkWorld scaffolded_fs ["home"; "user"] ["5"; "new project"; "4"; "1"] [].

(** * Properties *)

(** ** Strings *)

Module StrFacts.
Import Str.

Lemma sapp_cons (a : ascii) (s t : string) : String a s +:+ t = String a (s +:+ t).
Proof. done. Qed.

Lemma sapp_nil_l (s : string) : EmptyString +:+ s = s.
Proof. done. Qed.

Lemma sapp_assoc (s t u : string) : (s +:+ t) +:+ u = s +:+ (t +:+ u).
Proof. induction s as [|a s IH]; [done|]. by rewrite !sapp_cons, IH. Qed.

Lemma sapp_empty (s t : string) : s +:+ t = EmptyString → s = EmptyString ∧ t = EmptyString.
Proof. destruct s; [done|]. by rewrite sapp_cons. Qed.

Lemma length_map f (s : string) : String.length (map f s) = String.length s.
Proof. induction s as [|a s IH]; [done|]. cbn. by rewrite IH. Qed.

Lemma get_map f (s : string) (i : nat) : String.get i (map f s) = f <$> String.get i s.
Proof.
  revert i. induction s as [|a s IH]; intros i; [done|].
  destruct i as [|i]; cbn; [done|]. apply IH.
Qed.

(** Case mapping touches letters only. *)
Lemma ascii_lower_id (c : ascii) : is_upper c = false → ascii_lower c = c.
Proof. unfold ascii_lower. by intros ->. Qed.

Lemma ascii_lower_eq_id (c : ascii) : ascii_lower c = c → is_upper c = false.
Proof. by destruct c as [[] [] [] [] [] [] [] []]. Qed.

Lemma ascii_lower_newline (c : ascii) : ascii_lower c = newline ↔ c = newline.
Proof. by destruct c as [[] [] [] [] [] [] [] []]. Qed.

Lemma ascii_upper_newline (c : ascii) : ascii_upper c = newline ↔ c = newline.
Proof. by destruct c as [[] [] [] [] [] [] [] []]. Qed.

Lemma ascii_lower_slash (c : ascii) : ascii_lower c = slash ↔ c = slash.
Proof. by destruct c as [[] [] [] [] [] [] [] []]. Qed.

Lemma map_id_iff f (s : string) : map f s = s ↔ ∀ i c, String.get i s = Some c → f c = c.
Proof.
  induction s as [|a s IH]; cbn.
  - split; [|done]. by intros _ [|?] ?.
  - split.
    + intros [= Ha Hs] [|i] c.
      * by intros [= <-].
      * by apply IH.
    + intros H. f_equal.
      * by apply (H 0).
      * apply IH. intros i c. apply (H (S i)).
Qed.

Lemma free_of_app c (s t : string) : free_of c (s +:+ t) = free_of c s && free_of c t.
Proof. induction s as [|a s IH]; [done|]. rewrite sapp_cons. cbn. rewrite IH. by rewrite andb_assoc. Qed.

Lemma free_of_lower_newline (s : string) : free_of newline (lower s) = free_of newline s.
Proof.
  unfold lower. induction s as [|a s IH]; [done|]. cbn. rewrite IH. f_equal. f_equal.
  apply bool_decide_ext, ascii_lower_newline.
Qed.

Lemma free_of_capitalize_newline (s : string) :
  free_of newline (capitalize s) = free_of newline s.
Proof.
  destruct s as [|a s]; [done|]. unfold capitalize. cbn [free_of].
  rewrite free_of_lower_newline. f_equal. f_equal.
  apply bool_decide_ext, ascii_upper_newline.
Qed.

Lemma startswith_lower_slash (s : string) : startswith slash (lower s) = startswith slash s.
Proof. destruct s as [|a s]; [done|]. cbn. apply bool_decide_ext, ascii_lower_slash. Qed.

(** Splitting. *)
Lemma split_nonempty c (s : string) : split c s ≠ [].
Proof. induction s as [|a s IH]; [done|]. cbn. case_bool_decide; [done|]. by destruct (split c s). Qed.

Lemma split_free c (s : string) : free_of c s = true → split c s = [s].
Proof.
  induction s as [|a s IH]; [done|]. cbn. case_bool_decide; [done|]. cbn.
  intros Hf. by rewrite (IH Hf).
Qed.

Lemma split_app_sep c (s t : string) :
  split c (s +:+ String c t) = split c s ++ split c t.
Proof.
  induction s as [|a s IH]; rewrite ?sapp_cons, ?sapp_nil_l; cbn.
  - by rewrite bool_decide_eq_true_2.
  - rewrite IH. case_bool_decide; [done|].
    pose proof (split_nonempty c s). by destruct (split c s).
Qed.

Lemma split_free_sep c (s t : string) :
  free_of c s = true → split c (s +:+ String c t) = s :: split c t.
Proof. intros H. by rewrite split_app_sep, (split_free _ _ H). Qed.

(** The lines of a text given by its lines. *)
Lemma lines_join (ls : list string) :
  ls ≠ [] → Forall (λ l, free_of newline l = true) ls → lines (join newline ls) = ls.
Proof.
  unfold lines. induction ls as [|l ls IH]; [done|]. intros _ Hf.
  apply Forall_cons in Hf as [Hl Hls]. destruct ls as [|l' ls].
  - cbn. by apply split_free.
  - change (join newline (l :: l' :: ls)) with (l +:+ String newline (join newline (l' :: ls))).
    rewrite (split_free_sep _ _ _ Hl). f_equal. by apply IH.
Qed.

(** Stripping. *)
Lemma lstrip_nonspace (a : ascii) (s : string) :
  is_space a = false → lstrip (String a s) = String a s.
Proof. cbn. by intros ->. Qed.

Lemma rstrip_app_nonempty (s t : string) :
  rstrip t ≠ EmptyString → rstrip (s +:+ t) = s +:+ rstrip t.
Proof.
  intros Ht. induction s as [|a s IH]; [done|].
  rewrite !sapp_cons. cbn [rstrip]. rewrite IH.
  destruct (s +:+ rstrip t) eqn:E; [|done]. by apply sapp_empty in E as [_ ?].
Qed.

Lemma rstrip_app_blank (s t : string) :
  rstrip t = EmptyString → rstrip (s +:+ t) = rstrip s.
Proof.
  intros Ht. induction s as [|a s IH]; [done|].
  rewrite !sapp_cons. cbn [rstrip]. by rewrite IH.
Qed.

Lemma join_cons c (x y : string) (l : list string) :
  join c (x :: y :: l) = x +:+ String c (join c (y :: l)).
Proof. done. Qed.

Lemma join_snoc c (l : list string) (y : string) :
  l ≠ [] → join c (l ++ [y]) = join c l +:+ String c y.
Proof.
  induction l as [|x l IH]; [done|]. intros _. destruct l as [|x' l].
  - done.
  - change ((x :: x' :: l) ++ [y]) with (x :: (x' :: l) ++ [y]).
    change ((x' :: l) ++ [y]) with (x' :: l ++ [y]) at 1.
    rewrite join_cons. change (x' :: l ++ [y]) with ((x' :: l) ++ [y]).
    rewrite IH by done. by rewrite join_cons, sapp_assoc, sapp_cons.
Qed.

(** What [_create_file] writes for a triple-quoted text whose first and
    last text lines begin and end with something else than white space:
    the text without its leading line feed. *)
Lemma strip_framed_text (first last : string) (middle : list string) :
  lstrip first = first → first ≠ EmptyString →
  rstrip last = last → last ≠ EmptyString →
  strip (join newline (EmptyString :: first :: middle ++ [last; EmptyString]))
    +:+ String newline EmptyString
  = join newline (first :: middle ++ [last; EmptyString]).
Proof.
  intros Hf Hfne Hl Hlne. unfold strip.
  rewrite join_cons, sapp_nil_l. cbn [lstrip]. change (is_space newline) with true. cbn match.
  change (first :: middle ++ [last; EmptyString])
    with ((first :: middle) ++ [last; EmptyString]).
  replace ((first :: middle) ++ [last; EmptyString])
    with (((first :: middle) ++ [last]) ++ [EmptyString]) by (by rewrite <- List.app_assoc).
  rewrite join_snoc by done.
  assert (lstrip (join newline ((first :: middle) ++ [last]) +:+ String newline EmptyString)
          = join newline ((first :: middle) ++ [last]) +:+ String newline EmptyString) as ->.
  { destruct first as [|a first]; [done|].
    assert (is_space a = false) as Ha.
    { cbn in Hf. destruct (is_space a) eqn:E; [|done].
      exfalso. clear -Hf. assert (String.length (lstrip first) ≤ String.length first) as Hle.
      { clear. induction first as [|b s IH]; cbn; [done|]. destruct (is_space b); cbn; lia. }
      rewrite Hf in Hle. cbn in Hle. lia. }
    change ((String a first :: middle) ++ [last]) with (String a first :: middle ++ [last]).
    destruct (middle ++ [last]) as [|y l] eqn:E; [by destruct middle|].
    rewrite join_cons, !sapp_cons. by apply lstrip_nonspace. }
  rewrite rstrip_app_blank by done.
  rewrite join_snoc by done. rewrite sapp_assoc, sapp_cons.
  change (String newline last) with (String newline EmptyString +:+ last).
  assert (rstrip (String newline EmptyString +:+ last) = String newline last) as Hr.
  { rewrite rstrip_app_nonempty by (by rewrite Hl). by rewrite Hl. }
  rewrite rstrip_app_nonempty by (by rewrite Hr). rewrite Hr.
  by rewrite sapp_assoc, sapp_cons.
Qed.

End StrFacts.

(** ** Name derivation *)

(** C1, as specified, fails: [capitalize] lower-cases what follows the
    first character, so the tail of a camel-case name is changed
    ("userProfile" becomes "Userprofile"). *)
Lemma C1_capitalize_changes_tail : ¬ capitalized_keeps_tail "userProfile".
Proof. intros [_ H]. vm_compute in H. discriminate H. Qed.

(** C1, amended: for a name of ASCII characters made of a first
    character [c] and a rest [r], the capitalized variant starts with the
    upper-cased [c] and goes on with [r] lower-cased, position by
    position; on ASCII characters lower-casing changes the letters A-Z
    only (separators stay), so the rest is unchanged exactly when [r]
    holds no upper-case letter. *)
Theorem C1_capitalize_upper_then_lower (c : ascii) (r : string) :
  ascii_only (String c r) = true →
  String.get 0 (Str.capitalize (String c r)) = Some (Str.ascii_upper c) ∧
  Str.tail (Str.capitalize (String c r)) = Str.lower r ∧
  String.length (Str.capitalize (String c r)) = String.length (String c r) ∧
  (∀ i, String.get (S i) (Str.capitalize (String c r)) = Str.ascii_lower <$> String.get i r) ∧
  (∀ a, ascii_char a = true → Str.is_upper a = false → Str.ascii_lower a = a) ∧
  (Str.tail (Str.capitalize (String c r)) = r ↔
   ∀ i a, String.get i r = Some a → Str.is_upper a = false).
Proof.
  intros _. unfold Str.capitalize, Str.lower, Str.tail.
  split; [done|]. split; [done|]. split; [|split; [|split; [|split]]].
  - cbn. by rewrite StrFacts.length_map.
  - intros i. cbn. apply StrFacts.get_map.
  - intros a _. apply StrFacts.ascii_lower_id.
  - intros H i a Hia. apply StrFacts.ascii_lower_eq_id.
    by apply (proj1 (StrFacts.map_id_iff _ _) H i).
  - intros H. apply StrFacts.map_id_iff. intros i a Hia.
    apply StrFacts.ascii_lower_id. by apply (H i).
Qed.

Lemma C1_capitalize_upper_then_lower_witness :
  Str.tail (Str.capitalize "user_Profile-X") = "ser_profile-x" ∧
  String.length (Str.capitalize "user_Profile-X") = 14.
Proof.
  destruct (C1_capitalize_upper_then_lower "u" "ser_Profile-X") as (_ & Htail & Hlen & _).
  - reflexivity.
  - split; [exact Htail|exact Hlen].
Defined.

(** ** Paths *)

Module PathFacts.
Import Str StrFacts Path.

Lemma startswith_app c (s t : string) :
  s ≠ EmptyString → startswith c (s +:+ t) = startswith c s.
Proof. by destruct s. Qed.

Lemma endswith_inv c (s : string) :
  endswith c s = true → ∃ s', s = s' +:+ String c EmptyString.
Proof.
  induction s as [|a s IH]; [done|]. cbn. destruct s as [|b s].
  - intros ->%bool_decide_eq_true. by exists EmptyString.
  - intros [s' ->]%IH. by exists (String a s').
Qed.

Lemma simple_inv (d : string) :
  simple d = true →
  free_of slash d = true ∧ d ≠ EmptyString ∧ d ≠ "." ∧ d ≠ "..".
Proof.
  unfold simple. intros [? H]%andb_true_iff. apply negb_true_iff in H.
  apply orb_false_iff in H as [[? ?]%orb_false_iff ?].
  split; [done|]. by repeat split; apply (bool_decide_eq_false_1 _).
Qed.

Lemma simple_not_absolute (d : string) : simple d = true → startswith slash d = false.
Proof.
  intros (Hf & Hne & _)%simple_inv. destruct d as [|a d]; [done|]. cbn in *.
  apply andb_true_iff in Hf as [Ha _]. apply negb_true_iff in Ha. done.
Qed.

Lemma step_simple (acc : list string) (d : string) : simple d = true → step acc d = acc ++ [d].
Proof.
  intros (_ & H1 & H2 & H3)%simple_inv. unfold step.
  by rewrite !bool_decide_eq_false_2.
Qed.

Lemma join2_nonempty (path b : string) : b ≠ EmptyString → join2 path b ≠ EmptyString.
Proof.
  intros Hb. unfold join2. repeat case_match; [done|..]; by intros [? ?]%sapp_empty.
Qed.

(** Joining a plain component goes one step down. *)
Lemma resolve_join2 (cwd : list string) (path d : string) :
  simple d = true → resolve cwd (join2 path d) = resolve cwd path ++ [d].
Proof.
  intros Hd. pose proof (simple_inv _ Hd) as (Hf & Hne & _).
  unfold join2. rewrite (simple_not_absolute _ Hd).
  destruct (decide (path = EmptyString)) as [->|Hp].
  { rewrite bool_decide_eq_true_2 by done. cbn [orb]. rewrite sapp_nil_l.
    unfold resolve. rewrite (simple_not_absolute _ Hd), (split_free _ _ Hf).
    cbn. by rewrite step_simple. }
  rewrite bool_decide_eq_false_2 by done. cbn [orb].
  destruct (endswith slash path) eqn:He.
  - apply endswith_inv in He as [p' ->]. unfold resolve.
    rewrite sapp_assoc, sapp_cons, sapp_nil_l.
    assert (startswith slash (p' +:+ String slash d)
            = startswith slash (p' +:+ String slash EmptyString)) as -> by (by destruct p').
    rewrite !split_app_sep, !fold_left_app, (split_free _ _ Hf). cbn.
    by rewrite step_simple.
  - unfold resolve. rewrite !startswith_app by done.
    rewrite split_app_sep, fold_left_app, (split_free _ _ Hf). cbn.
    by rewrite step_simple.
Qed.

Lemma endswith_app c (s t : string) :
  t ≠ EmptyString → endswith c (s +:+ t) = endswith c t.
Proof.
  intros Ht. induction s as [|a s IH]; [done|]. rewrite sapp_cons. cbn [endswith].
  destruct (s +:+ t) eqn:E; [|done]. by apply sapp_empty in E as [_ ?].
Qed.

(** Joining component by component or all at once. *)
Lemma join2_join2 (a b c : string) :
  b ≠ EmptyString → startswith slash b = false → endswith slash b = false →
  startswith slash c = false →
  join2 (join2 a b) c = join2 a (b +:+ String slash c).
Proof.
  intros Hb Hsb Heb Hc. unfold join2. rewrite Hsb, Hc.
  rewrite (startswith_app _ b) by done. rewrite Hsb.
  destruct (bool_decide (a = EmptyString) || endswith slash a).
  - rewrite endswith_app, Heb, orb_false_r by done.
    rewrite bool_decide_eq_false_2; [by rewrite sapp_assoc|].
    by intros [_ ?]%sapp_empty.
  - rewrite (endswith_app _ a (String slash b)) by done.
    assert (endswith slash (String slash b) = false) as ->.
    { destruct b; [done|]. exact Heb. }
    rewrite orb_false_r.
    rewrite bool_decide_eq_false_2; [by rewrite sapp_assoc|].
    by intros [_ ?]%sapp_empty.
Qed.

(** The pieces of a split hold no separator. *)
Lemma split_pieces_free c (s : string) : Forall (λ x, free_of c x = true) (split c s).
Proof.
  induction s as [|a s IH]; cbn; [by repeat constructor|].
  case_bool_decide as Ha.
  - by constructor.
  - pose proof (split_nonempty c s). destruct (split c s) as [|x xs]; [done|].
    apply Forall_cons in IH as [Hx Hxs]. constructor; [|done].
    cbn. by rewrite bool_decide_eq_false_2.
Qed.

Lemma basename_free (p : string) : free_of slash (basename p) = true.
Proof.
  unfold basename. pose proof (split_pieces_free slash p) as H.
  pose proof (split_nonempty slash p) as Hne.
  induction H as [|x l Hx Hl IH]; [done|].
  destruct l as [|y l]; [done|]. by apply IH.
Qed.

Lemma list_last_app {A} (l1 l2 : list A) (d : A) :
  l2 ≠ [] → List.last (l1 ++ l2) d = List.last l2 d.
Proof.
  intros Hne. rewrite (app_removelast_last d Hne), List.app_assoc. by rewrite !last_last.
Qed.

Lemma basename_app_sep (s t : string) : basename (s +:+ String slash t) = basename t.
Proof.
  unfold basename. rewrite split_app_sep.
  apply list_last_app, split_nonempty.
Qed.

Lemma split_app_free_r c (s t : string) :
  free_of c t = true →
  split c (s +:+ t) = removelast (split c s) ++ [List.last (split c s) EmptyString +:+ t].
Proof.
  intros Ht. induction s as [|a s IH].
  - by rewrite sapp_nil_l, (split_free _ _ Ht).
  - rewrite sapp_cons. cbn [split]. rewrite IH.
    pose proof (split_nonempty c s) as Hne.
    destruct (split c s) as [|x [|y l]]; [done|..]; by case_bool_decide.
Qed.

Lemma basename_app_free (s t : string) :
  free_of slash t = true → basename (s +:+ t) = basename s +:+ t.
Proof. intros Ht. unfold basename. by rewrite (split_app_free_r _ _ _ Ht), last_last. Qed.

Lemma basename_join2 (a b : string) : basename (join2 a b) = basename b.
Proof.
  unfold join2. destruct (startswith slash b); [done|].
  destruct (decide (a = EmptyString)) as [->|Ha].
  { by rewrite bool_decide_eq_true_2. }
  rewrite bool_decide_eq_false_2 by done. cbn [orb].
  destruct (endswith slash a) eqn:He.
  - apply endswith_inv in He as [a' ->].
    by rewrite sapp_assoc, sapp_cons, sapp_nil_l, basename_app_sep.
  - apply basename_app_sep.
Qed.

(** A path ends at its base name when that is a plain component. *)
Lemma resolve_basename (cwd : list string) (p : string) :
  simple (basename p) = true → ∃ q, resolve cwd p = q ++ [basename p].
Proof.
  intros Hb. unfold resolve, basename in *.
  pose proof (split_nonempty slash p) as Hne.
  destruct (exists_last Hne) as (init & b & Heq). rewrite Heq in *.
  rewrite last_last in *. rewrite fold_left_app. cbn.
  rewrite (step_simple _ _ Hb). eauto.
Qed.

End PathFacts.

(** ** File system primitives *)

Module FsFacts.
Import Str StrFacts Path PathFacts.

Lemma fs_set_fs m (w : World) : fs (set_fs m w) = m.
Proof. done. Qed.
Lemma cwd_set_fs m (w : World) : cwd (set_fs m w) = cwd w.
Proof. done. Qed.
Lemma stdin_set_fs m (w : World) : stdin (set_fs m w) = stdin w.
Proof. done. Qed.
Lemma is_dir_insert_file m (k k' : list string) (c : string) :
  is_dir m k = false → is_dir (<[k := File c]> m) k' = is_dir m k'.
Proof.
  intros Hk. destruct k' as [|a k']; [done|]. cbn.
  destruct (decide (k = a :: k')) as [->|Hne].
  - rewrite lookup_insert_eq. cbn in Hk. rewrite Hk. by apply bool_decide_eq_false_2.
  - by rewrite lookup_insert_ne.
Qed.

Lemma writable_insert_file m (k k' : list string) (c : string) :
  writable m k → writable m k' → writable (<[k := File c]> m) k'.
Proof. intros [Hk _] [H1 H2]. split; by rewrite is_dir_insert_file. Qed.

(** [write_file] either stores the file or raises and leaves the world
    alone. *)
Lemma write_file_ok (p c : string) (w : World) :
  p ≠ EmptyString → writable (fs w) (resolve (cwd w) p) →
  write_file p c w = (Return tt, set_fs (<[resolve (cwd w) p := File c]> (fs w)) w).
Proof.
  intros Hp [H1 H2]. unfold write_file.
  by rewrite bool_decide_eq_false_2, H1, H2.
Qed.

Lemma write_file_inv (p c : string) (w : World) o w' :
  write_file p c w = (o, w') →
  (o = Return tt ∧ p ≠ EmptyString ∧ writable (fs w) (resolve (cwd w) p) ∧
   w' = set_fs (<[resolve (cwd w) p := File c]> (fs w)) w)
  ∨ (∃ e, o = Raise e ∧ w' = w).
Proof.
  unfold write_file. case_bool_decide as Hp; [naive_solver|].
  destruct (is_dir (fs w) (resolve (cwd w) p)) eqn:H1; [naive_solver|].
  destruct (is_dir (fs w) (removelast (resolve (cwd w) p))) eqn:H2.
  - intros [= <- <-]. left. by repeat split.
  - destruct (fs w !! _); naive_solver.
Qed.

Lemma set_fs_id (w : World) : set_fs (fs w) w = w.
Proof. by destruct w. Qed.

(** [steps_down] lists the proper extensions of [pre] up to [pre ++ rest]. *)
Lemma steps_down_app (pre a b : list string) :
  steps_down pre (a ++ b) = steps_down pre a ++ steps_down (pre ++ a) b.
Proof.
  revert pre. induction a as [|c a IH]; intros pre; cbn.
  - by rewrite List.app_nil_r.
  - rewrite IH. by rewrite <- List.app_assoc.
Qed.

Lemma steps_down_prefix (pre rest q : list string) :
  q ∈ steps_down pre rest → pre `prefix_of` q ∧ q `prefix_of` pre ++ rest ∧ q ≠ pre.
Proof.
  revert pre. induction rest as [|c rest IH]; intros pre; cbn.
  - by intros ?%elem_of_nil.
  - intros [->|Hq]%elem_of_cons.
    + split; [by apply prefix_app_r|]. split.
      * rewrite (cons_middle c pre rest), List.app_assoc. by apply prefix_app_r.
      * intros E. apply (f_equal length) in E. rewrite length_app in E. cbn in E. lia.
    + apply IH in Hq as (H1 & H2 & H3). split; [|split].
      * etrans; [|exact H1]. by apply prefix_app_r.
      * by rewrite (cons_middle c pre rest), List.app_assoc.
      * intros ->. apply prefix_length in H1. rewrite length_app in H1. cbn in H1. lia.
Qed.

(** [os.makedirs] never changes a node that exists. *)
Lemma makedirs_from_preserves (pre rest : list string) m (k : list string) n :
  m !! k = Some n → (makedirs_from pre rest m).2 !! k = Some n.
Proof.
  revert pre m. induction rest as [|c rest IH]; intros pre m Hk; cbn; [done|].
  destruct (m !! (pre ++ [c])) as [[|content]|] eqn:E; [by apply IH|done|].
  apply IH. rewrite lookup_insert_ne; [done|]. intros <-. by rewrite E in Hk.
Qed.

(** With no regular file on the way, [os.makedirs] succeeds and turns
    exactly the nodes on the way into directories. *)
Lemma makedirs_from_ok (pre rest : list string) m :
  (∀ q c, q ∈ steps_down pre rest → m !! q ≠ Some (File c)) →
  ∃ m', makedirs_from pre rest m = (None, m') ∧
        ∀ k, m' !! k = if bool_decide (k ∈ steps_down pre rest) then Some Dir else m !! k.
Proof.
  revert pre m. induction rest as [|c rest IH]; intros pre m Hfree; cbn.
  - exists m. split; [done|]. intros k. rewrite bool_decide_eq_false_2; [done|].
    by intros ?%elem_of_nil.
  - destruct (m !! (pre ++ [c])) as [[|content]|] eqn:E.
    + destruct (IH (pre ++ [c]) m) as (m' & Hrun & Hm').
      { intros q c' Hq. apply Hfree. by right. }
      exists m'. split; [done|]. intros k. rewrite Hm'.
      destruct (decide (k = pre ++ [c])) as [->|Hne].
      * rewrite (bool_decide_eq_true_2 (_ ∈ _ :: _)) by left. rewrite E. by case_bool_decide.
      * do 2 case_bool_decide; try done; exfalso; set_solver.
    + exfalso. apply (Hfree (pre ++ [c]) content); [by left|done].
    + destruct (IH (pre ++ [c]) (<[pre ++ [c] := Dir]> m)) as (m' & Hrun & Hm').
      { intros q c' Hq. rewrite lookup_insert. case_decide; [done|]. apply Hfree. by right. }
      exists m'. split; [done|]. intros k. rewrite Hm'.
      destruct (decide (k = pre ++ [c])) as [->|Hne].
      * rewrite (bool_decide_eq_true_2 (_ ∈ _ :: _)) by left. rewrite lookup_insert_eq.
        by case_bool_decide.
      * rewrite lookup_insert_ne by done.
        do 2 case_bool_decide; try done; exfalso; set_solver.
Qed.

Lemma os_makedirs_ok (p : string) (w : World) :
  p ≠ EmptyString →
  (∀ q c, q ∈ steps_down [] (resolve (cwd w) p) → fs w !! q ≠ Some (File c)) →
  ∃ m', os_makedirs p w = (Return tt, set_fs m' w) ∧
        ∀ k, m' !! k = if bool_decide (k ∈ steps_down [] (resolve (cwd w) p))
                       then Some Dir else fs w !! k.
Proof.
  intros Hp Hfree. destruct (makedirs_from_ok [] _ _ Hfree) as (m' & Hrun & Hm').
  exists m'. split; [|done]. unfold os_makedirs.
  by rewrite bool_decide_eq_false_2, Hrun.
Qed.

(** Whatever its outcome, [os.makedirs] keeps the nodes that exist, and it
    neither moves nor reads. *)
Lemma os_makedirs_frame (p : string) (w : World) :
  let w' := (os_makedirs p w).2 in
  cwd w' = cwd w ∧ stdin w' = stdin w ∧ ∀ k n, fs w !! k = Some n → fs w' !! k = Some n.
Proof.
  unfold os_makedirs. case_bool_decide; [done|].
  pose proof (makedirs_from_preserves [] (resolve (cwd w) p) (fs w)) as Hpres.
  destruct (makedirs_from [] (resolve (cwd w) p) (fs w)) as [[e|] m']; cbn in *; auto.
Qed.

(** A run of [os.makedirs] calls. *)
Lemma makedirs_all_ok (ps : list string) (w : World) :
  Forall (λ p, p ≠ EmptyString) ps →
  (∀ q c, q ∈ List.concat ((λ p, steps_down [] (resolve (cwd w) p)) <$> ps) →
          fs w !! q ≠ Some (File c)) →
  ∃ m', for_each ps os_makedirs w = (Return tt, set_fs m' w) ∧
        ∀ k, m' !! k = if bool_decide (k ∈ List.concat ((λ p, steps_down [] (resolve (cwd w) p)) <$> ps))
                       then Some Dir else fs w !! k.
Proof.
  revert w. induction ps as [|p ps IH]; intros w Hne Hfree.
  - exists (fs w). cbn. split; [by rewrite set_fs_id|]. intros k.
    rewrite bool_decide_eq_false_2; [done|]. by intros ?%elem_of_nil.
  - apply Forall_cons in Hne as [Hp Hps]. cbn [for_each fmap list_fmap List.concat] in *.
    destruct (os_makedirs_ok p w Hp) as (m1 & Hrun1 & Hm1).
    { intros q c Hq. apply Hfree, elem_of_app. by left. }
    destruct (IH (set_fs m1 w) Hps) as (m' & Hrun & Hm').
    { intros q c Hq. cbn [fs cwd set_fs] in *. rewrite Hm1. case_bool_decide; [done|].
      apply Hfree, elem_of_app. by right. }
    exists m'. split.
    + unfold bind. rewrite Hrun1. exact Hrun.
    + intros k. rewrite Hm'. cbn [fs cwd set_fs]. rewrite Hm1.
      repeat case_bool_decide; try done; exfalso; set_solver.
Qed.

End FsFacts.

(** ** Module generation *)

Module ModuleFacts.
Import Str StrFacts Path PathFacts FsFacts.

Lemma file_name_nonempty (stem tail : string) :
  stem +:+ String "-" tail ≠ EmptyString.
Proof. by intros [_ ?]%sapp_empty. Qed.

Lemma module_file_nonempty (folder kind root name : string) :
  module_file folder kind root name ≠ EmptyString.
Proof. unfold module_file, join. cbn. apply join2_nonempty, file_name_nonempty. Qed.

(** [create_module] goes through when the three files can be written. *)
Lemma create_module_ok (root name : string) (w : World) :
  writable (fs w) (service_key w root name) →
  writable (fs w) (controller_key w root name) →
  writable (fs w) (route_key w root name) →
  create_module root name w =
    (Return tt,
     mkWorld (with_module w root name) (cwd w) (stdin w)
             (stdout w ++ [capitalize name +:+ " module created successfully!"])).
Proof.
  intros H1 H2 H3. unfold create_module, bind.
  rewrite write_file_ok by (apply module_file_nonempty || done).
  rewrite write_file_ok; [|apply module_file_nonempty|by apply writable_insert_file].
  rewrite write_file_ok; [done|apply module_file_nonempty|].
  rewrite !fs_set_fs, !cwd_set_fs. by repeat apply writable_insert_file.
Qed.

(** When [create_module] returns, the three files could be written and
    have been. *)
Lemma create_module_return (root name : string) (w w' : World) :
  create_module root name w = (Return tt, w') →
  writable (fs w) (service_key w root name) ∧
  writable (fs w) (controller_key w root name) ∧
  writable (fs w) (route_key w root name) ∧
  w' = mkWorld (with_module w root name) (cwd w) (stdin w)
               (stdout w ++ [capitalize name +:+ " module created successfully!"]).
Proof.
  unfold create_module, bind.
  destruct (write_file (service_file root name) _ w) as [o1 w1] eqn:E1.
  apply write_file_inv in E1 as [(-> & _ & H1 & ->)|(e & -> & ->)]; [|done].
  destruct (write_file (controller_file root name) _ _) as [o2 w2] eqn:E2.
  apply write_file_inv in E2 as [(-> & _ & H2 & ->)|(e & -> & ->)]; [|done].
  destruct (write_file (route_file root name) _ _) as [o3 w3] eqn:E3.
  apply write_file_inv in E3 as [(-> & _ & H3 & ->)|(e & -> & ->)]; [|done].
  unfold print. intros [= <-].
  cbn [fs cwd set_fs] in H2, H3.
  destruct H1 as [H1a H1b], H2 as [H2a H2b], H3 as [H3a H3b].
  rewrite is_dir_insert_file in H2a, H2b by done.
  rewrite !is_dir_insert_file in H3a, H3b by (by rewrite ?is_dir_insert_file).
  done.
Qed.

(** Whatever the outcome, [create_module] leaves every node other than its
    three files as it was, and it neither moves nor reads. *)
Lemma create_module_frame (root name : string) (w : World) :
  let w' := (create_module root name w).2 in
  cwd w' = cwd w ∧ stdin w' = stdin w ∧
  ∀ k, k ≠ service_key w root name → k ≠ controller_key w root name →
       k ≠ route_key w root name → fs w' !! k = fs w !! k.
Proof.
  unfold create_module, bind.
  destruct (write_file (service_file root name) _ w) as [o1 w1] eqn:E1.
  apply write_file_inv in E1 as [(-> & _ & H1 & ->)|(e & -> & ->)]; [|done].
  destruct (write_file (controller_file root name) _ _) as [o2 w2] eqn:E2.
  apply write_file_inv in E2 as [(-> & _ & H2 & ->)|(e & -> & ->)].
  2:{ cbv zeta. cbn [snd]. rewrite fs_set_fs. repeat split.
      intros k ? ? ?. by rewrite lookup_insert_ne. }
  destruct (write_file (route_file root name) _ _) as [o3 w3] eqn:E3.
  apply write_file_inv in E3 as [(-> & _ & H3 & ->)|(e & -> & ->)];
    cbv zeta; unfold print; cbn [snd fs cwd stdin];
    rewrite ?fs_set_fs, ?cwd_set_fs; repeat split;
    intros k ? ? ?; by rewrite !lookup_insert_ne.
Qed.

(** The path of a module file is the relative path
    [src/<folder>/<lower>-<kind>.ts] joined to the project path, unless
    the name starts with a separator. *)
Lemma module_file_relative (folder kind root name : string) :
  folder ≠ EmptyString → startswith slash folder = false → endswith slash folder = false →
  startswith slash name = false →
  module_file folder kind root name =
    join root ["src/" +:+ folder +:+ String slash (lower name +:+ "-" +:+ kind +:+ ".ts")].
Proof.
  intros Hf1 Hf2 Hf3 Hn. unfold module_file, join. cbn [fold_left].
  assert (startswith slash (lower name +:+ "-" +:+ kind +:+ ".ts") = false) as Hfile.
  { destruct name as [|a name]; [done|]. by rewrite <- startswith_lower_slash in Hn. }
  rewrite join2_join2 by done.
  rewrite join2_join2; [done..|]. by rewrite startswith_app.
Qed.

(** An absolute name takes the file out of the project. *)
Lemma module_file_absolute (folder kind root name : string) :
  startswith slash name = true →
  module_file folder kind root name = lower name +:+ "-" +:+ kind +:+ ".ts".
Proof.
  intros Hn. unfold module_file, join. cbn [fold_left]. unfold join2 at 1.
  destruct name as [|a name]; [done|].
  rewrite <- startswith_lower_slash in Hn.
  assert (startswith slash (lower (String a name) +:+ "-" +:+ kind +:+ ".ts") = true) as ->; [|done].
  exact Hn.
Qed.

Lemma has_dash (stem tail : string) : free_of "-" (stem +:+ String "-" tail) = false.
Proof. rewrite free_of_app. cbn. by rewrite andb_false_r. Qed.

Lemma file_name_simple (stem tail : string) :
  free_of slash stem = true → free_of slash tail = true →
  simple (stem +:+ String "-" tail) = true.
Proof.
  intros Hs Ht. unfold simple. rewrite free_of_app, Hs. cbn [andb free_of].
  rewrite Ht. cbn. apply negb_true_iff.
  pose proof (has_dash stem tail) as Hd.
  rewrite !bool_decide_eq_false_2; [done|by intros E; rewrite E in Hd..].
Qed.

(** The node of a module file ends with the file name. *)
Lemma module_key_last (cwd : list string) (folder kind root name : string) :
  free_of slash kind = true →
  ∃ q, resolve cwd (module_file folder kind root name)
       = q ++ [basename (lower name) +:+ "-" +:+ kind +:+ ".ts"].
Proof.
  intros Hk.
  assert (free_of slash (kind +:+ ".ts") = true) as Hk'.
  { by rewrite free_of_app, Hk. }
  assert (basename (module_file folder kind root name)
          = basename (lower name) +:+ "-" +:+ kind +:+ ".ts") as Hb.
  { unfold module_file, join. cbn [fold_left]. rewrite basename_join2.
    apply basename_app_free. by rewrite free_of_app, Hk'. }
  rewrite <- Hb. apply resolve_basename. rewrite Hb.
  apply file_name_simple; [apply basename_free|done].
Qed.

Lemma module_keys_distinct (w : World) (root name : string) :
  NoDup [service_key w root name; controller_key w root name; route_key w root name].
Proof.
  unfold service_key, controller_key, route_key, service_file, controller_file, route_file.
  destruct (module_key_last (cwd w) "services" "service" root name eq_refl) as [q1 ->].
  destruct (module_key_last (cwd w) "controllers" "controller" root name eq_refl) as [q2 ->].
  destruct (module_key_last (cwd w) "routes" "routes" root name eq_refl) as [q3 ->].
  repeat constructor; rewrite ?elem_of_cons, ?elem_of_nil;
    intros H; repeat destruct H as [H|H]; try done;
    apply app_inj_tail in H as [_ H]; by apply String.app_inj in H.
Qed.

Lemma module_keys_ne (w : World) (root name : string) :
  service_key w root name ≠ controller_key w root name ∧
  service_key w root name ≠ route_key w root name ∧
  controller_key w root name ≠ route_key w root name.
Proof.
  pose proof (module_keys_distinct w root name) as H.
  apply NoDup_cons in H as [H1 H]. apply NoDup_cons in H as [H2 _].
  apply not_elem_of_cons in H1 as [? H1]. apply not_elem_of_cons in H1 as [? _].
  apply not_elem_of_cons in H2 as [? _]. done.
Qed.

(** What the three nodes hold after the writes. *)
Lemma with_module_lookup (w : World) (root name : string) :
  with_module w root name !! service_key w root name = Some (File (service_content name)) ∧
  with_module w root name !! controller_key w root name = Some (File (controller_content name)) ∧
  with_module w root name !! route_key w root name = Some (File (route_content name)).
Proof.
  destruct (module_keys_ne w root name) as (? & ? & ?). unfold with_module.
  repeat split.
  - do 2 rewrite lookup_insert_ne by done. by rewrite lookup_insert_eq.
  - rewrite lookup_insert_ne by done. by rewrite lookup_insert_eq.
  - by rewrite lookup_insert_eq.
Qed.

(** Names with the same lower-cased form have the same three paths. *)
Lemma module_file_lower (folder kind root m1 m2 : string) :
  lower m1 = lower m2 → module_file folder kind root m1 = module_file folder kind root m2.
Proof. unfold module_file. by intros ->. Qed.

(** A second generation on the same paths replaces the first. *)
Lemma with_module_twice (w w1 : World) (root m1 m2 : string) :
  lower m1 = lower m2 → cwd w1 = cwd w → fs w1 = with_module w root m1 →
  with_module w1 root m2 = with_module w root m2.
Proof.
  intros Hl Hc Hfs. unfold with_module, service_key, controller_key, route_key,
    service_file, controller_file, route_file.
  rewrite Hc, Hfs. unfold with_module, service_key, controller_key, route_key,
    service_file, controller_file, route_file.
  rewrite !(module_file_lower _ _ root m1 m2 Hl).
  apply map_eq. intros k. rewrite !lookup_insert. by repeat case_decide.
Qed.

Lemma writable_with_module (w : World) (root name : string) (k : list string) :
  writable (fs w) (service_key w root name) →
  writable (fs w) (controller_key w root name) →
  writable (fs w) (route_key w root name) →
  writable (fs w) k → writable (with_module w root name) k.
Proof.
  intros H1 H2 H3 Hk. unfold with_module. by repeat apply writable_insert_file.
Qed.

(** After [create_module root m1] has returned, [create_module root m2]
    returns too when [m2] has the lower-cased form of [m1], and the file
    system is the one that generating [m2] alone gives. *)
Lemma create_module_again (root m1 m2 : string) (w w1 : World) :
  lower m1 = lower m2 →
  create_module root m1 w = (Return tt, w1) →
  ∃ w2, create_module root m2 w1 = (Return tt, w2) ∧ fs w2 = with_module w root m2.
Proof.
  intros Hl (H1 & H2 & H3 & ->)%create_module_return.
  eexists. split.
  - apply create_module_ok; cbn [fs cwd];
      unfold service_key, controller_key, route_key, service_file, controller_file,
        route_file in *; cbn [cwd];
      rewrite <- (module_file_lower _ _ root m1 m2 Hl);
      by apply writable_with_module.
  - cbn [fs]. by apply (with_module_twice _ _ _ m1).
Qed.

End ModuleFacts.

(** ** The empty module name *)

(** C2, as specified, fails: in a scaffolded project the call with the
    empty name is not rejected. *)
Lemma C2_empty_name_not_rejected : ¬ empty_name_rejected "demo" scaffolded.
Proof.
  intros [e H]. rewrite ModuleFacts.create_module_ok in H by (split; reflexivity).
  discriminate H.
Qed.

(** C2, amended: the empty name is accepted.  Both derived forms of the
    empty name are empty, no exception is raised for it, and wherever the
    three files can be written [create_module] returns after writing
    [-service.ts], [-controller.ts] and [-routes.ts] in the three
    folders. *)
Theorem C2_empty_name_accepted (root : string) (w : World) :
  writable (fs w) (service_key w root EmptyString) →
  writable (fs w) (controller_key w root EmptyString) →
  writable (fs w) (route_key w root EmptyString) →
  Str.capitalize EmptyString = EmptyString ∧
  Str.lower EmptyString = EmptyString ∧
  service_file root EmptyString = Path.join root ["src"; "services"; "-service.ts"] ∧
  controller_file root EmptyString = Path.join root ["src"; "controllers"; "-controller.ts"] ∧
  route_file root EmptyString = Path.join root ["src"; "routes"; "-routes.ts"] ∧
  ∃ w', create_module root EmptyString w = (Return tt, w') ∧
        fs w' !! service_key w root EmptyString = Some (File (service_content EmptyString)) ∧
        fs w' !! controller_key w root EmptyString = Some (File (controller_content EmptyString)) ∧
        fs w' !! route_key w root EmptyString = Some (File (route_content EmptyString)).
Proof.
  intros H1 H2 H3. do 5 (split; [done|]).
  eexists. split; [by apply ModuleFacts.create_module_ok|].
  cbn [fs]. apply ModuleFacts.with_module_lookup.
Qed.

Lemma C2_empty_name_accepted_witness :
  ∃ w', create_module "demo" EmptyString scaffolded = (Return tt, w') ∧
        fs w' !! ["home"; "user"; "demo"; "src"; "services"; "-service.ts"]
          = Some (File (service_content EmptyString)).
Proof.
  destruct (C2_empty_name_accepted "demo" scaffolded) as (_ & _ & _ & _ & _ & w' & Hrun & Hs & _).
  - split; reflexivity.
  - split; reflexivity.
  - split; reflexivity.
  - exists w'. split; [exact Hrun|exact Hs].
Defined.

(** ** Parent directories *)

(** C3: [create_module] opens its files without creating their folders.
    In a directory that holds no project the call raises
    [FileNotFoundError] at the first file and writes nothing, whereas
    [_create_file], given the same target, creates [src/services] and
    writes it. *)
Theorem C3_create_module_needs_the_folders :
  create_module "demo" "user" unscaffolded = (Raise FileNotFoundError, unscaffolded) ∧
  fs unscaffolded !! ["home"; "user"; "demo"; "src"; "services"] = None ∧
  let created :=
    _create_file demo_generator "src/services/user-service.ts" (service_content "user")
                 unscaffolded in
  created.1 = Return tt ∧
  fs created.2 !! ["home"; "user"; "demo"; "src"; "services"] = Some Dir ∧
  fs created.2 !! ["home"; "user"; "demo"; "src"; "services"; "user-service.ts"]
    = Some (File (Str.strip (service_content "user") +:+ String Str.newline EmptyString)).
Proof.
  split; [vm_compute; reflexivity|]. split; [vm_compute; reflexivity|].
  split; [vm_compute; reflexivity|]. split; vm_compute; reflexivity.
Qed.

(** ** The files of a module *)

(** C5, as specified, fails: a name that starts with a separator makes
    [os.path.join] drop the project path, and the files land in the root
    directory of the file system. *)
Lemma C5_absolute_name_leaves_the_project : ¬ module_files_under_root "demo" "/x" scaffolded.
Proof.
  intros H. destruct (H ["x-service.ts"]) as [E|[E|E]].
  - vm_compute. discriminate.
  - vm_compute in E. discriminate E.
  - vm_compute in E. discriminate E.
  - vm_compute in E. discriminate E.
Qed.

(** C5, amended: for every module name that does not start with a
    separator, the three targets are [src/services/L-service.ts],
    [src/controllers/L-controller.ts] and [src/routes/L-routes.ts] joined
    to the project path ([L] the lower-cased name); they name three
    different nodes; whatever the outcome of [create_module], every other
    node of the file system is left as it was; and when the call returns
    the three files hold the three rendered texts. *)
Theorem C5_module_files (root name : string) (w : World) :
  Str.startswith Str.slash name = false →
  (service_file root name
     = Path.join root ["src/services/" +:+ Str.lower name +:+ "-service.ts"] ∧
   controller_file root name
     = Path.join root ["src/controllers/" +:+ Str.lower name +:+ "-controller.ts"] ∧
   route_file root name
     = Path.join root ["src/routes/" +:+ Str.lower name +:+ "-routes.ts"]) ∧
  NoDup [service_key w root name; controller_key w root name; route_key w root name] ∧
  (∀ k, k ≠ service_key w root name → k ≠ controller_key w root name →
        k ≠ route_key w root name →
        fs (create_module root name w).2 !! k = fs w !! k) ∧
  (∀ w', create_module root name w = (Return tt, w') →
         fs w' !! service_key w root name = Some (File (service_content name)) ∧
         fs w' !! controller_key w root name = Some (File (controller_content name)) ∧
         fs w' !! route_key w root name = Some (File (route_content name))).
Proof.
  intros Hname. split; [|split; [|split]].
  - repeat split; by apply ModuleFacts.module_file_relative.
  - apply ModuleFacts.module_keys_distinct.
  - apply ModuleFacts.create_module_frame.
  - intros w' (_ & _ & _ & ->)%ModuleFacts.create_module_return.
    cbn [fs]. apply ModuleFacts.with_module_lookup.
Qed.

Lemma C5_module_files_witness :
  service_file "demo" "User" = "demo/src/services/user-service.ts" ∧
  fs (create_module "demo" "User" scaffolded).2 !! ["home"; "user"; "demo"; "src"] = Some Dir.
Proof.
  destruct (C5_module_files "demo" "User" scaffolded eq_refl) as ((Hs & _) & _ & Hframe & _).
  split; [exact Hs|]. by rewrite Hframe.
Defined.

(** ** Same lower-cased name, same paths *)

(** C10: the three paths depend on the module name through its
    lower-cased form only.  Two names with the same lower-cased form have
    the same three paths, and once the first has been generated,
    generating the second returns and leaves at those paths the texts of
    the second: the file system is the one that generating the second
    alone gives. *)
Theorem C10_paths_by_lower_name (root m1 m2 : string) (w w1 : World) :
  Str.lower m1 = Str.lower m2 →
  create_module root m1 w = (Return tt, w1) →
  service_file root m1 = service_file root m2 ∧
  controller_file root m1 = controller_file root m2 ∧
  route_file root m1 = route_file root m2 ∧
  ∃ w2, create_module root m2 w1 = (Return tt, w2) ∧
        fs w2 = with_module w root m2 ∧
        fs w2 !! service_key w root m1 = Some (File (service_content m2)) ∧
        fs w2 !! controller_key w root m1 = Some (File (controller_content m2)) ∧
        fs w2 !! route_key w root m1 = Some (File (route_content m2)).
Proof.
  intros Hl Hrun.
  pose proof (ModuleFacts.module_file_lower "services" "service" root m1 m2 Hl) as Hs.
  pose proof (ModuleFacts.module_file_lower "controllers" "controller" root m1 m2 Hl) as Hc.
  pose proof (ModuleFacts.module_file_lower "routes" "routes" root m1 m2 Hl) as Hr.
  do 3 (split; [done|]).
  destruct (ModuleFacts.create_module_again root m1 m2 w w1 Hl Hrun) as (w2 & Hrun2 & Hfs).
  exists w2. split; [done|]. split; [done|]. rewrite Hfs.
  unfold service_key, controller_key, route_key, service_file, controller_file, route_file.
  rewrite Hs, Hc, Hr. apply ModuleFacts.with_module_lookup.
Qed.

Lemma C10_paths_by_lower_name_witness :
  service_file "demo" "User" = service_file "demo" "user" ∧
  controller_file "demo" "User" = controller_file "demo" "user" ∧
  route_file "demo" "User" = route_file "demo" "user".
Proof.
  destruct (C10_paths_by_lower_name "demo" "User" "user" scaffolded
              (create_module "demo" "User" scaffolded).2) as (Hs & Hc & Hr & _).
  - reflexivity.
  - by_evaluation.
  - exact (conj Hs (conj Hc Hr)).
Defined.

(** ** Rendering *)

(** C8: what is rendered depends on the inputs of the rendering alone.
    Two generations of a module name, from any two worlds and for any two
    project paths, write the same three texts; generating the same module
    once more returns and leaves the file system as it is; and the text of
    the environment file is the same for two generators with the same
    database URL (the other project texts take no input at all). *)
Theorem C8_rendering_is_deterministic
    (root1 root2 name : string) (wa wb wa' wb' : World) (g1 g2 : ExpressProjectGenerator) :
  create_module root1 name wa = (Return tt, wa') →
  create_module root2 name wb = (Return tt, wb') →
  database_url g1 = database_url g2 →
  fs wa' !! service_key wa root1 name = fs wb' !! service_key wb root2 name ∧
  fs wa' !! controller_key wa root1 name = fs wb' !! controller_key wb root2 name ∧
  fs wa' !! route_key wa root1 name = fs wb' !! route_key wb root2 name ∧
  (∃ wa'', create_module root1 name wa' = (Return tt, wa'') ∧ fs wa'' = fs wa') ∧
  _get_env_content g1 = _get_env_content g2.
Proof.
  intros Ha Hb Hurl.
  pose proof Ha as (_ & _ & _ & Ea)%ModuleFacts.create_module_return.
  pose proof Hb as (_ & _ & _ & Eb)%ModuleFacts.create_module_return.
  destruct (ModuleFacts.with_module_lookup wa root1 name) as (Ea1 & Ea2 & Ea3).
  destruct (ModuleFacts.with_module_lookup wb root2 name) as (Eb1 & Eb2 & Eb3).
  split; [|split; [|split; [|split]]].
  - rewrite Ea, Eb. cbn [fs]. by rewrite Ea1, Eb1.
  - rewrite Ea, Eb. cbn [fs]. by rewrite Ea2, Eb2.
  - rewrite Ea, Eb. cbn [fs]. by rewrite Ea3, Eb3.
  - destruct (ModuleFacts.create_module_again root1 name name wa wa' eq_refl Ha)
      as (w2 & Hrun & Hfs).
    exists w2. split; [done|]. rewrite Hfs, Ea. done.
  - unfold _get_env_content. by rewrite Hurl.
Qed.

Lemma C8_rendering_is_deterministic_witness :
  fs (create_module "demo" "post" scaffolded).2
     !! ["home"; "user"; "demo"; "src"; "routes"; "post-routes.ts"]
  = fs (create_module "/home/user/demo" "post"
          (mkWorld scaffolded_fs [] ["4"] ["--- Express Project Generator ---"])).2
       !! ["home"; "user"; "demo"; "src"; "routes"; "post-routes.ts"].
Proof.
  refine (proj1 (proj2 (proj2
    (C8_rendering_is_deterministic "demo" "/home/user/demo" "post"
       scaffolded (mkWorld scaffolded_fs [] ["4"] ["--- Express Project Generator ---"])
       (create_module "demo" "post" scaffolded).2
       (create_module "/home/user/demo" "post"
          (mkWorld scaffolded_fs [] ["4"] ["--- Express Project Generator ---"])).2
       demo_generator demo_generator _ _ _)))).
  - by_evaluation.
  - by_evaluation.
  - reflexivity.
Defined.

(** ** The directory tree of a project *)

Module TreeFacts.
Import Str StrFacts Path PathFacts FsFacts.

Section Tree.
Variable self : ExpressProjectGenerator.
Variable w : World.

Abbreviation src := (resolve (cwd w) (src_path self)).

Lemma directories_nonempty :
  src_path self ≠ EmptyString → Forall (λ p, p ≠ EmptyString) (directories self).
Proof.
  intros Hsrc. unfold directories, join. cbn [fold_left].
  repeat constructor; try done; by apply join2_nonempty.
Qed.

(** The nodes that the eight calls go through are those of the tree. *)
Lemma directories_steps (k : list string) :
  k ∈ List.concat ((λ p, steps_down [] (resolve (cwd w) p)) <$> directories self)
  ↔ k ∈ project_tree src.
Proof.
  unfold directories, join, project_tree, src_folders. cbn [fold_left fmap list_fmap List.concat].
  rewrite !resolve_join2 by done.
  rewrite !steps_down_app. cbn [steps_down app]. set_solver.
Qed.

End Tree.

End TreeFacts.

(** C7: [_create_directory_structure] makes the tree of a project: [src],
    the directories above it, and below [src] exactly the seven folders
    controllers, routes, services, middlewares, models, config and utils.
    When the project path only goes down (no component is [..]) and no
    regular file sits where a directory of the tree belongs, the call
    returns; afterwards every node of the tree is a directory and
    every other node is what it was, so that directories and files that
    existed before are untouched and the only new children of [src] are
    among the seven; running the call once more returns and changes
    nothing. *)
Theorem C7_directory_structure (name path url : string) (w : World) :
  let self := mkGenerator name path (Path.join path ["src"]) url in
  let src := Path.resolve (cwd w) (src_path self) in
  Path.descends path = true →
  Forall (λ k, is_file (fs w) k = false) (project_tree src) →
  ∃ w', _create_directory_structure self w = (Return tt, w') ∧
        (∀ k, fs w' !! k = if bool_decide (k ∈ project_tree src) then Some Dir else fs w !! k) ∧
        (∀ d, d ∈ src_folders → fs w' !! (src ++ [d]) = Some Dir) ∧
        (∀ k n, fs w !! k = Some n → fs w' !! k = Some n) ∧
        (∀ x, fs w !! (src ++ [x]) = None → is_Some (fs w' !! (src ++ [x])) → x ∈ src_folders) ∧
        _create_directory_structure self w' = (Return tt, w').
Proof.
  intros self src _ Hfree.
  assert (src_path self ≠ EmptyString) as Hsrc.
  { cbn. by apply PathFacts.join2_nonempty. }
  assert (∀ k c, k ∈ project_tree src → fs w !! k ≠ Some (File c)) as Hfree'.
  { intros k c Hk E. rewrite Forall_forall in Hfree. specialize (Hfree k Hk).
    unfold is_file in Hfree. by rewrite E in Hfree. }
  destruct (FsFacts.makedirs_all_ok (directories self) w) as (m' & Hrun & Hm').
  { by apply TreeFacts.directories_nonempty. }
  { intros q c Hq%TreeFacts.directories_steps. by apply Hfree'. }
  assert (∀ k, m' !! k = if bool_decide (k ∈ project_tree src) then Some Dir else fs w !! k)
    as Hchar.
  { intros k. rewrite Hm'.
    by rewrite (bool_decide_ext _ _ (TreeFacts.directories_steps self w k)). }
  exists (set_fs m' w). split; [exact Hrun|]. cbn [fs set_fs].
  split; [exact Hchar|]. split; [|split; [|split]].
  - intros d Hd. rewrite Hchar, bool_decide_eq_true_2; [done|].
    apply elem_of_app. right. by apply (list_elem_of_fmap_2 (λ d, src ++ [d])).
  - intros k n Hk. rewrite Hchar. case_bool_decide as Hin; [|done].
    destruct n as [|c]; [done|]. by destruct (Hfree' k c Hin).
  - intros x Hnone [n Hn]. rewrite Hchar, Hnone in Hn. case_bool_decide as Hin; [|done].
    apply elem_of_app in Hin as [Hin|Hin].
    + apply FsFacts.steps_down_prefix in Hin as (_ & Hp & _).
      apply prefix_length in Hp. rewrite length_app in Hp. cbn in Hp. lia.
    + apply list_elem_of_fmap in Hin as (d & E & Hd). by apply app_inj_tail in E as [_ ->].
  - destruct (FsFacts.makedirs_all_ok (directories self) (set_fs m' w)) as (m'' & Hrun2 & Hm'').
    { by apply TreeFacts.directories_nonempty. }
    { intros q c Hq%TreeFacts.directories_steps. cbn [fs cwd set_fs] in *.
      rewrite Hchar. by case_bool_decide. }
    unfold _create_directory_structure. rewrite Hrun2. f_equal.
    unfold set_fs. cbn [fs cwd stdin stdout]. f_equal.
    apply map_eq. intros k. rewrite Hm''. cbn [fs cwd set_fs].
    case_bool_decide as Hin; [|done].
    apply TreeFacts.directories_steps in Hin. by rewrite Hchar, bool_decide_eq_true_2.
Qed.

Lemma C7_directory_structure_witness :
  ∃ w', _create_directory_structure demo_generator half_made = (Return tt, w') ∧
        fs w' !! ["home"; "user"; "demo"; "src"; "utils"] = Some Dir ∧
        fs w' !! ["home"; "user"; "demo"; "src"; "services"; "user-service.ts"]
          = Some (File "export {};").
Proof.
  destruct (C7_directory_structure "demo" "/home/user/demo"
              "postgresql://localhost/demo" half_made) as (w' & Hrun & _ & Hdirs & Hkeep & _).
  - reflexivity.
  - by_evaluation.
  - exists w'. split; [exact Hrun|]. split.
    + apply (Hdirs "utils"). by_evaluation.
    + apply Hkeep. reflexivity.
Defined.

(** ** The environment file *)

Module BaseFacts.
Import Str StrFacts Path PathFacts FsFacts.

Lemma bind_return {A B} (m : M A) (k : A → M B) (w w' : World) (b : B) :
  bind m k w = (Return b, w') → ∃ a w1, m w = (Return a, w1) ∧ k a w1 = (Return b, w').
Proof. unfold bind. destruct (m w) as [[a|e] w1]; [eauto|done]. Qed.

(** [_create_file] writes one node and keeps the files elsewhere; it
    neither moves nor reads. *)
Lemma create_file_spec (self : ExpressProjectGenerator) (path content : string) (w : World) :
  let target := resolve (cwd w) (join (project_path self) [path]) in
  let r := _create_file self path content w in
  cwd r.2 = cwd w ∧ stdin r.2 = stdin w ∧
  (∀ k c, k ≠ target → fs w !! k = Some (File c) → fs r.2 !! k = Some (File c)) ∧
  (r.1 = Return tt →
   fs r.2 !! target = Some (File (strip content +:+ String newline EmptyString))).
Proof.
  unfold _create_file, bind.
  pose proof (os_makedirs_frame (dirname (join (project_path self) [path])) w) as Hmk.
  destruct (os_makedirs _ w) as [[[]|e] w1]; cbn [snd] in Hmk;
    destruct Hmk as (Hc & Hi & Hkeep).
  2:{ cbn. repeat split; [done..|by intros; apply Hkeep|done]. }
  destruct (write_file _ _ w1) as [o w2] eqn:Hw.
  apply write_file_inv in Hw as [(-> & _ & _ & ->)|(e & -> & ->)]; cbn [fst snd].
  - rewrite cwd_set_fs, stdin_set_fs, fs_set_fs, Hc. repeat split; [done..| |].
    + intros k c Hk Hf. rewrite lookup_insert_ne by done. by apply Hkeep.
    + intros _. by rewrite lookup_insert_eq.
  - repeat split; [done..|by intros; apply Hkeep|done].
Qed.

(** The step of [_create_file] in a sequence of statements. *)
Lemma create_file_then (self : ExpressProjectGenerator) (path content : string)
    (rest : M unit) (w w' : World) :
  (_create_file self path content ;; rest) w = (Return tt, w') →
  ∃ w1, rest w1 = (Return tt, w') ∧ cwd w1 = cwd w ∧ stdin w1 = stdin w ∧
        fs w1 !! resolve (cwd w) (join (project_path self) [path])
          = Some (File (strip content +:+ String newline EmptyString)).
Proof.
  intros ([] & w1 & Hrun & Hrest)%bind_return.
  pose proof (create_file_spec self path content w) as (Hc & Hi & _ & Hw).
  rewrite Hrun in Hc, Hi, Hw. cbn [fst snd] in *.
  exists w1. repeat split; [done..|by apply Hw].
Qed.

(** [_setup_prisma] takes the database URL from the next line of input. *)
Lemma setup_prisma_return (self self' : ExpressProjectGenerator) (w w' : World) :
  _setup_prisma self w = (Return self', w') →
  ∃ d rest, stdin w = d :: rest ∧ cwd w' = cwd w ∧
            self' = mkGenerator (project_name self) (project_path self) (src_path self) d.
Proof.
  unfold _setup_prisma. intros (d & w1 & Hin & Hrest)%bind_return.
  unfold input in Hin. destruct (stdin w) as [|l rest] eqn:Hstdin; [done|].
  injection Hin as -> <-.
  apply bind_return in Hrest as ([] & w2 & Hmk & Hrest).
  apply bind_return in Hrest as ([] & w3 & Hwr & Hret).
  injection Hret as <- <-. exists d, rest. split; [done|]. split; [|done].
  pose proof (os_makedirs_frame (dirname (join (project_path self) ["prisma"; "schema.prisma"]))
                (mkWorld (fs w) (cwd w) rest (stdout w ++ ["database URL for Prisma: "])))
    as (Hc & _).
  rewrite Hmk in Hc. cbn [snd cwd] in Hc.
  apply write_file_inv in Hwr as [(_ & _ & _ & ->)|(e & ? & _)]; [|done].
  by rewrite cwd_set_fs.
Qed.

(** The text of the environment file. *)
Lemma env_content_stripped (self : ExpressProjectGenerator) :
  strip (_get_env_content self) +:+ String newline EmptyString
  = env_file_text (database_url self).
Proof.
  unfold _get_env_content, env_file_text, text.
  apply (strip_framed_text "PORT=3000" "NODE_ENV=development"
           ["DATABASE_URL=" +:+ quoted (database_url self)]); done.
Qed.

End BaseFacts.

(** C9: the database URL read by [_setup_prisma] goes into the
    environment file as it is.  When [_setup_prisma] and then
    [_create_base_files] return, the URL [d] is the line of input that
    was read, and the file [.env] of the project holds exactly the three
    lines [PORT=3000], [DATABASE_URL="d"] and [NODE_ENV=development], each
    ended by a line feed. *)
Theorem C9_env_file (self self' : ExpressProjectGenerator) (w w1 w2 : World) :
  _setup_prisma self w = (Return self', w1) →
  _create_base_files self' w1 = (Return tt, w2) →
  ∃ d rest,
    stdin w = d :: rest ∧ database_url self' = d ∧
    fs w2 !! Path.resolve (cwd w) (Path.join (project_path self) [".env"])
      = Some (File (text [ "PORT=3000"; "DATABASE_URL=" +:+ quoted d;
                           "NODE_ENV=development"; EmptyString ])).
Proof.
  intros Hsetup Hbase.
  apply BaseFacts.setup_prisma_return in Hsetup as (d & rest & Hin & Hcwd & Hself).
  exists d, rest. split; [done|]. split; [by rewrite Hself|].
  unfold _create_base_files in Hbase.
  apply BaseFacts.create_file_then in Hbase as (wa & Hbase & Hca & _).
  apply BaseFacts.create_file_then in Hbase as (wb & Hbase & Hcb & _).
  apply BaseFacts.create_file_then in Hbase as (wc & Hbase & Hcc & _).
  apply BaseFacts.create_file_then in Hbase as (wd & Hbase & Hcd & _).
  apply BaseFacts.create_file_then in Hbase as (we & Hbase & Hce & _ & Henv).
  pose proof (BaseFacts.create_file_spec self' ".gitignore" _get_gitignore_content we)
    as (_ & _ & Hkeep & _).
  rewrite Hbase in Hkeep. cbn [snd] in Hkeep.
  rewrite Hce, Hcd, Hcc, Hcb, Hca, Hcwd in *.
  rewrite BaseFacts.env_content_stripped in Henv.
  assert (project_path self' = project_path self) as Hpath by (by rewrite Hself).
  assert (database_url self' = d) as Hurl by (by rewrite Hself).
  rewrite Hpath, Hurl in *.
  apply Hkeep; [|exact Henv].
  unfold Path.join. cbn [fold_left]. rewrite !PathFacts.resolve_join2 by done.
  intros E. by apply app_inj_tail in E as [_ ?].
Qed.

Lemma C9_env_file_witness :
  fs (_create_base_files
        (mkGenerator "demo" "/home/user/demo" "/home/user/demo/src"
                     "postgresql://u:p@db:5432/shop?schema=public")
        (_setup_prisma demo_generator url_given).2).2
    !! ["home"; "user"; "demo"; ".env"]
  = Some (File (text [ "PORT=3000";
                       "DATABASE_URL=" +:+ quoted "postgresql://u:p@db:5432/shop?schema=public";
                       "NODE_ENV=development"; EmptyString ])).
Proof.
  destruct (C9_env_file demo_generator
              (mkGenerator "demo" "/home/user/demo" "/home/user/demo/src"
                           "postgresql://u:p@db:5432/shop?schema=public")
              url_given (_setup_prisma demo_generator url_given).2
              (_create_base_files
                 (mkGenerator "demo" "/home/user/demo" "/home/user/demo/src"
                              "postgresql://u:p@db:5432/shop?schema=public")
                 (_setup_prisma demo_generator url_given).2).2)
    as (d & rest & Hin & _ & Hfile).
  - by_evaluation.
  - by_evaluation.
  - injection Hin as <- _. exact Hfile.
Defined.

(** ** The menu loop *)

Module LoopFacts.
Import FsFacts.

Create HintDb input_db.

Lemma nmi_ret {A} (a : A) : no_more_input (ret a).
Proof. by intros w. Qed.

Lemma nmi_raise {A} (e : exn) : no_more_input (raise (A:=A) e).
Proof. by intros w. Qed.

Lemma nmi_bind {A B} (m : M A) (k : A → M B) :
  no_more_input m → (∀ a, no_more_input (k a)) → no_more_input (bind m k).
Proof.
  intros Hm Hk w. unfold bind. specialize (Hm w).
  destruct (m w) as [[a|e] w1]; cbn [snd] in *; [|done].
  specialize (Hk a w1). lia.
Qed.

Lemma nmi_print (s : string) : no_more_input (print s).
Proof. by intros w. Qed.

Lemma nmi_input (prompt : string) : no_more_input (input prompt).
Proof. intros w. unfold input. destruct (stdin w); cbn; lia. Qed.

Lemma nmi_getcwd : no_more_input os_getcwd.
Proof. by intros w. Qed.

Lemma nmi_makedirs (p : string) : no_more_input (os_makedirs p).
Proof. intros w. by destruct (os_makedirs_frame p w) as (_ & -> & _). Qed.

Lemma nmi_write_file (p c : string) : no_more_input (write_file p c).
Proof.
  intros w. destruct (write_file p c w) as [o w'] eqn:E.
  by apply write_file_inv in E as [(_ & _ & _ & ->)|(e & _ & ->)].
Qed.

Lemma nmi_chdir (p : string) : no_more_input (os_chdir p).
Proof. intros w. unfold os_chdir. by repeat case_match. Qed.

Lemma nmi_for_each {A} (l : list A) (body : A → M unit) :
  (∀ x, no_more_input (body x)) → no_more_input (for_each l body).
Proof.
  intros Hbody. induction l as [|x l IH]; cbn [for_each].
  - apply nmi_ret.
  - apply nmi_bind; [apply Hbody|by intros _].
Qed.

Lemma nmi_if {A} (b : bool) (m1 m2 : M A) :
  no_more_input m1 → no_more_input m2 → no_more_input (if b then m1 else m2).
Proof. by destruct b. Qed.

#[export] Hint Resolve nmi_ret nmi_raise nmi_print nmi_input nmi_getcwd nmi_makedirs
  nmi_write_file nmi_chdir nmi_for_each nmi_if : input_db.
#[export] Hint Extern 2 (no_more_input (bind _ _)) => apply nmi_bind; [|intros ?] : input_db.

Lemma nmi_create_module (root name : string) : no_more_input (create_module root name).
Proof. unfold create_module. auto 10 with input_db. Qed.

Lemma nmi_save_ts_files (root : string) : no_more_input (save_ts_files_to_file root).
Proof.
  intros w. unfold save_ts_files_to_file.
  match goal with |- context [bind ?m ?k w] => assert (no_more_input (bind m k)) as H end.
  { auto 10 with input_db. }
  apply H.
Qed.

Section Loop.
Variable json_dumps : json → string.
Variable shell : string → list string → gmap (list string) node → gmap (list string) node.
Variable script_name script_text : string.

Abbreviation turn := (menu_turn json_dumps shell script_name script_text).
Abbreviation loop := (main_loop json_dumps shell script_name script_text).
Abbreviation program := (main json_dumps shell script_name script_text).
Abbreviation branch := (after_choice json_dumps shell script_name script_text).

Lemma nmi_system (cmd : string) : no_more_input (os_system shell cmd).
Proof. by intros w. Qed.

Lemma nmi_copy_script (dst : string) : no_more_input (copy_script_to script_name script_text dst).
Proof. intros w. unfold copy_script_to. case_match; apply nmi_write_file. Qed.

Lemma nmi_create_project (self : ExpressProjectGenerator) :
  no_more_input (create_project json_dumps shell script_name script_text self).
Proof.
  pose proof nmi_system. pose proof nmi_copy_script.
  unfold create_project, _create_directory_structure, _initialize_npm_project,
    _setup_typescript, _setup_prisma, _create_base_files, _create_file,
    _install_dependencies, _generate_prisma_client, _copy_script.
  auto 20 with input_db.
Qed.

Lemma nmi_after_choice (choice : string) : no_more_input (branch choice).
Proof.
  pose proof nmi_create_project. pose proof nmi_create_module. pose proof nmi_save_ts_files.
  unfold after_choice, __init__. auto 20 with input_db.
Qed.

(** A turn that does not raise has read at least one line. *)
Lemma menu_turn_reads (w w' : World) (b : bool) :
  turn w = (Return b, w') → length (stdin w') < length (stdin w).
Proof.
  unfold menu_turn.
  intros ([] & w1 & Hp1 & H)%BaseFacts.bind_return.
  apply BaseFacts.bind_return in H as ([] & w2 & Hp2 & H).
  apply BaseFacts.bind_return in H as ([] & w3 & Hp3 & H).
  apply BaseFacts.bind_return in H as ([] & w4 & Hp4 & H).
  apply BaseFacts.bind_return in H as ([] & w5 & Hp5 & H).
  apply BaseFacts.bind_return in H as (choice & w6 & Hin & H).
  unfold print in *. simplify_eq. cbn [stdin] in *.
  unfold input in Hin. cbn [stdin] in Hin.
  destruct (stdin w) as [|l rest] eqn:E; [done|]. simplify_eq.
  pose proof (nmi_after_choice choice) as Hb.
  match type of H with ?m ?w0 = _ => specialize (Hb w0) end.
  rewrite H in Hb. cbn [snd stdin length] in *. lia.
Qed.

(** More turns than needed change nothing. *)
Lemma main_loop_mono (n n' : nat) (w : World) r :
  loop n w = Some r → n ≤ n' → loop n' w = Some r.
Proof.
  revert n' w. induction n as [|n IH]; intros n' w; [done|].
  destruct n' as [|n']; [lia|]. cbn [main_loop].
  destruct (turn w) as [[[]|e] w1]; [|done..].
  intros H ?. apply IH; [done|lia].
Qed.

(** One turn more than there are lines of input is enough. *)
Lemma main_loop_enough (n : nat) (w : World) :
  length (stdin w) < n → is_Some (loop n w).
Proof.
  revert w. induction n as [|n IH]; intros w Hn; [lia|].
  cbn [main_loop].
  destruct (turn w) as [[[]|e] w1] eqn:E; [|by eexists..].
  apply IH. apply menu_turn_reads in E. lia.
Qed.

(** The equation of the [while True] loop. *)
Lemma main_unfold (w : World) :
  program w = match turn w with
              | (Return true, w') => program w'
              | (Return false, w') => Some (Return tt, w')
              | (Raise e, w') => Some (Raise e, w')
              end.
Proof.
  unfold main at 1. cbn [main_loop].
  destruct (turn w) as [[[]|e] w1] eqn:E; [|done..].
  apply menu_turn_reads in E.
  destruct (main_loop_enough (S (length (stdin w1))) w1) as [r Hr]; [lia|].
  unfold main. rewrite Hr. apply (main_loop_mono _ _ _ _ Hr). lia.
Qed.

End Loop.

End LoopFacts.

(** C4, as specified, fails: nothing in [main] catches an exception.  The
    request for a module in a directory without project raises
    [FileNotFoundError], and the program ends there although the user's
    next request, to leave, is still unread. *)
Lemma C4_failure_ends_the_program :
  ¬ failure_is_contained no_json idle_shell "pg.py" EmptyString module_then_exit.
Proof.
  intros H.
  specialize (H FileNotFoundError
                (menu_turn no_json idle_shell "pg.py" EmptyString module_then_exit).2).
  assert (main no_json idle_shell "pg.py" EmptyString module_then_exit
          = main no_json idle_shell "pg.py" EmptyString
              (menu_turn no_json idle_shell "pg.py" EmptyString module_then_exit).2) as E.
  { apply H; [by_evaluation|done]. }
  apply (f_equal (λ r, match r with Some (Raise _, _) => true | _ => false end)) in E.
  vm_compute in E. discriminate E.
Qed.

(** C4, amended: a failure raised during a menu action is not caught.
    [main] is the loop of its turns: when a turn raises, the exception
    leaves [main] and the program ends, with the world as the failure left
    it; the loop goes on to the next request only after a turn that
    returned, and it ends normally after the choice to exit.  The program
    always comes to one of these ends on a finite input.  A shell command
    never raises, whatever it did: a failing external process is not
    noticed and stops nothing. *)
Theorem C4_failures_leave_main
    (json_dumps : json → string)
    (shell : string → list string → gmap (list string) node → gmap (list string) node)
    (script_name script_text : string) (w : World) :
  main json_dumps shell script_name script_text w
  = match menu_turn json_dumps shell script_name script_text w with
    | (Return true, w') => main json_dumps shell script_name script_text w'
    | (Return false, w') => Some (Return tt, w')
    | (Raise e, w') => Some (Raise e, w')
    end ∧
  is_Some (main json_dumps shell script_name script_text w) ∧
  ∀ cmd, (os_system shell cmd w).1 = Return tt.
Proof.
  split; [apply LoopFacts.main_unfold|]. split; [|done].
  apply LoopFacts.main_loop_enough. lia.
Qed.

(** ** The generated module *)

Module TemplateFacts.
Import Str StrFacts.

Lemma free_of_concat c (l : list string) :
  Forall (λ s, free_of c s = true) l → free_of c (concat l) = true.
Proof.
  unfold concat. induction 1 as [|s l Hs Hl IH]; [done|].
  cbn [foldr]. by rewrite free_of_app, Hs, IH.
Qed.

Lemma part_value_one_line (name : string) (p : part) :
  free_of newline name = true →
  match p with Lit s => free_of newline s | _ => true end = true →
  free_of newline (part_value name p) = true.
Proof.
  intros Hname Hp. destruct p; cbn [part_value]; [done|done|..].
  - by rewrite free_of_capitalize_newline.
  - by rewrite free_of_lower_newline.
Qed.

(** The lines of a rendered f-string are its rendered lines, for a name
    that holds no line feed. *)
Lemma lines_fstring (name : string) (t : list line) :
  t ≠ [] → template_one_line_parts t = true → free_of newline name = true →
  lines (fstring name t) = fline name <$> t.
Proof.
  intros Hne Hok Hname. unfold fstring. apply lines_join.
  - by destruct t.
  - apply Forall_fmap, Forall_forall. intros l Hl. cbn.
    unfold template_one_line_parts in Hok. rewrite forallb_forall in Hok.
    apply list_elem_of_In in Hl. specialize (Hok l Hl). rewrite forallb_forall in Hok.
    unfold fline. apply free_of_concat, Forall_fmap, Forall_forall.
    intros p Hp%list_elem_of_In. cbn. apply part_value_one_line; [done|]. by apply Hok.
Qed.

(** A rendered line, from the values of the three replacement fields. *)
Lemma fline_context (name : string) (l : line) :
  fline name l = concat (part_text name (capitalize name) (lower name) <$> l).
Proof.
  unfold fline. induction l as [|p l IH]; [done|].
  cbn [fmap list_fmap] in *. unfold concat in *. cbn [foldr]. rewrite IH. by destruct p.
Qed.

Lemma lines_fstring_context (name : string) (t : list line) :
  t ≠ [] → template_one_line_parts t = true → free_of newline name = true →
  lines (fstring name t)
  = (λ l, concat (part_text name (capitalize name) (lower name) <$> l)) <$> t.
Proof.
  intros Hne Hok Hname. rewrite lines_fstring by done.
  apply list_fmap_ext. intros i l _. apply fline_context.
Qed.

End TemplateFacts.

(** C6: what a generated module holds, for a module name of one line (as
    [input] returns it), [cap] being its capitalized form.  The service
    exports five functions, to list, to get by id, to create, to update
    and to delete; get, update and delete test the row they got and hold
    the same statement [throw new Error('cap not found')], list and create
    hold none.  The
    controller exports five handlers, named as the routes name them, and
    the three of get, update and delete test for that same message.  The
    route file imports the controller of the module and registers exactly
    five routes: GET /, GET /:id, POST /, PUT /:id and DELETE /:id, each
    bound to the handler of its operation. *)
Theorem C6_generated_module (name : string) :
  Str.free_of Str.newline name = true →
  let cap := Str.capitalize name in
  exports (service_content name)
  = [ (export_line ("get" +:+ cap +:+ "s") EmptyString, []);
      (export_line ("get" +:+ cap +:+ "ById") "id: number",
       [missing_row_test (Str.lower name); not_found_throw cap]);
      (export_line ("create" +:+ cap) "data: any", []);
      (export_line ("update" +:+ cap) "id: number, data: any",
       [missing_row_test ("updated" +:+ cap); not_found_throw cap]);
      (export_line ("delete" +:+ cap) "id: number",
       [missing_row_test ("deleted" +:+ cap); not_found_throw cap]) ] ∧
  exports (controller_content name)
  = [ (export_line ("get" +:+ cap +:+ "s") "req: Request, res: Response", []);
      (export_line ("get" +:+ cap) "req: Request, res: Response", []);
      (export_line ("create" +:+ cap) "req: Request, res: Response", []);
      (export_line ("update" +:+ cap) "req: Request, res: Response", []);
      (export_line ("delete" +:+ cap) "req: Request, res: Response", []) ] ∧
  lines_with "    if (error.message" (controller_content name)
  = [ not_found_test cap; not_found_test cap; not_found_test cap ] ∧
  lines_with "import * as " (route_content name)
  = [ "import * as " +:+ name +:+ "Controller from '../controllers/"
      +:+ Str.lower name +:+ "-controller';" ] ∧
  lines_with "router." (route_content name)
  = [ route_line "get" "/" (name +:+ "Controller.get" +:+ cap +:+ "s");
      route_line "get" "/:id" (name +:+ "Controller.get" +:+ cap);
      route_line "post" "/" (name +:+ "Controller.create" +:+ cap);
      route_line "put" "/:id" (name +:+ "Controller.update" +:+ cap);
      route_line "delete" "/:id" (name +:+ "Controller.delete" +:+ cap) ].
Proof.
  intros Hname cap. subst cap.
  assert (service_template ≠ []) as Hs by discriminate.
  assert (controller_template ≠ []) as Hc by discriminate.
  assert (route_template ≠ []) as Hr by discriminate.
  apply (λ H, TemplateFacts.lines_fstring_context name service_template H eq_refl Hname) in Hs.
  apply (λ H, TemplateFacts.lines_fstring_context name controller_template H eq_refl Hname) in Hc.
  apply (λ H, TemplateFacts.lines_fstring_context name route_template H eq_refl Hname) in Hr.
  unfold exports, lines_with.
  change (Str.lines (service_content name)) with (Str.lines (fstring name service_template)).
  change (Str.lines (controller_content name)) with (Str.lines (fstring name controller_template)).
  change (Str.lines (route_content name)) with (Str.lines (fstring name route_template)).
  rewrite Hs, Hc, Hr. clear Hs Hc Hr Hname.
  unfold export_line, missing_row_test, not_found_throw, not_found_test, route_line.
  rewrite !StrFacts.sapp_assoc.
  generalize (Str.capitalize name) (Str.lower name). intros cap low.
  split; [vm_compute; reflexivity|]. split; [vm_compute; reflexivity|].
  split; [vm_compute; reflexivity|]. split; vm_compute; reflexivity.
Qed.

Lemma C6_generated_module_witness :
  lines_with "router." (route_content "post")
  = [ "router.get('/', postController.getPosts);";
      "router.get('/:id', postController.getPost);";
      "router.post('/', postController.createPost);";
      "router.put('/:id', postController.updatePost);";
      "router.delete('/:id', postController.deletePost);" ].
Proof.
  destruct (C6_generated_module "post") as (_ & _ & _ & _ & Hroutes).
  - reflexivity.
  - exact Hroutes.
Defined.

(** * Further properties of the program *)

(** ** Directory names *)

Module DirnameFacts.
Import Str StrFacts Path PathFacts FsFacts.

Lemma head_part_free (p : string) : free_of slash p = true → head_part p = EmptyString.
Proof. destruct p as [|a p]; [done|]. cbn [head_part]. by intros ->. Qed.

(** A path with a separator is its head, which ends with a separator,
    followed by its base name. *)
Lemma head_part_inv (p : string) :
  free_of slash p = false →
  ∃ h b, p = h +:+ String slash b ∧ free_of slash b = true ∧
         head_part p = h +:+ String slash EmptyString.
Proof.
  induction p as [|a p IH]; [done|]. intros Hp. cbn [head_part]. rewrite Hp.
  destruct (free_of slash p) eqn:Hfree.
  - exists EmptyString, p. cbn in Hp. rewrite Hfree, andb_true_r in Hp.
    apply negb_false_iff, bool_decide_eq_true in Hp as ->.
    by rewrite (head_part_free _ Hfree).
  - destruct (IH eq_refl) as (h & b & -> & Hb & ->). by exists (String a h), b.
Qed.

Lemma rstrip_char_inv c (s : string) :
  ∃ n, s = rstrip_char c s +:+ replicate n c ∧ endswith c (rstrip_char c s) = false.
Proof.
  induction s as [|a s (n & Hs & He)]; [by exists 0|]. cbn [rstrip_char].
  destruct (rstrip_char c s) as [|b r] eqn:Hr.
  - case_bool_decide as Ha.
    + subst a. exists (S n). split; [|done]. rewrite sapp_nil_l in *. cbn. by rewrite <- Hs.
    + exists n. split; [by rewrite sapp_cons, <- Hs|]. cbn. by rewrite bool_decide_eq_false_2.
  - exists n. split; [by rewrite sapp_cons, <- Hs|]. exact He.
Qed.

Lemma split_separators c (n : nat) : split c (replicate n c) = list.replicate (S n) EmptyString.
Proof. induction n as [|n IH]; [done|]. cbn. by rewrite bool_decide_eq_true_2, IH. Qed.

Lemma fold_step_empties (n : nat) (acc : list string) :
  fold_left step (list.replicate n EmptyString) acc = acc.
Proof. induction n as [|n IH]; [done|]. cbn. apply IH. Qed.

(** Separators at the end of a path do not change the node it names. *)
Lemma resolve_trailing (cwd : list string) (s : string) (n : nat) :
  s ≠ EmptyString → resolve cwd (s +:+ replicate n slash) = resolve cwd s.
Proof.
  intros Hs. unfold resolve. rewrite startswith_app by done.
  destruct n as [|n].
  - cbn [replicate]. replace (s +:+ EmptyString) with s; [done|].
    clear. induction s as [|a s IH]; [done|]. by rewrite sapp_cons, <- IH.
  - cbn [replicate]. by rewrite split_app_sep, split_separators, fold_left_app, fold_step_empties.
Qed.

(** The directory name of a path names the parent of the node that the
    path names, when the path has a separator and ends with a plain
    component. *)
Lemma resolve_dirname (cwd : list string) (p : string) :
  free_of slash p = false → simple (basename p) = true →
  dirname p ≠ EmptyString ∧ resolve cwd p = resolve cwd (dirname p) ++ [basename p].
Proof.
  intros Hp Hb. destruct (head_part_inv p Hp) as (h & b & -> & Hfree & Hhead).
  rewrite basename_app_sep in *. unfold basename in *. rewrite (split_free _ _ Hfree) in *.
  cbn [List.last] in *.
  assert (resolve cwd (h +:+ String slash b)
          = resolve cwd (h +:+ String slash EmptyString) ++ [b]) as Hres.
  { unfold resolve.
    assert (startswith slash (h +:+ String slash b)
            = startswith slash (h +:+ String slash EmptyString)) as -> by (by destruct h).
    rewrite !split_app_sep, !fold_left_app, (split_free _ _ Hfree). cbn.
    by rewrite step_simple. }
  unfold dirname. rewrite Hhead.
  destruct (rstrip_char_inv slash (h +:+ String slash EmptyString)) as (n & Hn & _).
  destruct (rstrip_char slash (h +:+ String slash EmptyString)) as [|a r] eqn:Hr.
  - split; [by intros [_ ?]%sapp_empty|]. exact Hres.
  - split; [done|]. rewrite Hres. f_equal. rewrite Hn at 1. by apply resolve_trailing.
Qed.

(** The last of the nodes on the way to a directory is the directory. *)
Lemma steps_down_last (k : list string) : k ≠ [] → k ∈ steps_down [] k.
Proof.
  intros Hk. destruct (exists_last Hk) as (init & x & ->).
  rewrite steps_down_app. cbn. apply elem_of_app. right. by left.
Qed.

Lemma steps_down_shorter (pre rest q : list string) :
  q ∈ steps_down pre rest → length q ≤ length pre + length rest.
Proof.
  intros (_ & H & _)%steps_down_prefix. apply prefix_length in H.
  by rewrite length_app in H.
Qed.

End DirnameFacts.

(** ** Writing a file with its parent directories *)

Module WriteFacts.
Import Str StrFacts Path PathFacts FsFacts DirnameFacts.

Lemma is_dir_lookup m (k : list string) :
  k ≠ [] → is_dir m k = bool_decide (m !! k = Some Dir).
Proof. by destruct k. Qed.

(** [os.makedirs(os.path.dirname(p), exist_ok=True)] followed by the write
    of [p]: with no regular file on the way and no directory at [p], the
    directories on the way exist afterwards, the file holds the text, and
    every other node is what it was. *)
Lemma write_with_parents_ok (p content : string) (w : World) :
  free_of slash p = false → simple (basename p) = true →
  Forall (λ q, is_file (fs w) q = false) (steps_down [] (removelast (resolve (cwd w) p))) →
  is_dir (fs w) (resolve (cwd w) p) = false →
  ∃ m', (os_makedirs (dirname p) ;; write_file p content) w = (Return tt, set_fs m' w) ∧
        ∀ q, m' !! q =
             if bool_decide (q = resolve (cwd w) p) then Some (File content)
             else if bool_decide (q ∈ steps_down [] (removelast (resolve (cwd w) p)))
                  then Some Dir else fs w !! q.
Proof.
  intros Hp Hb Hway Htarget.
  destruct (resolve_dirname (cwd w) p Hp Hb) as (Hdir & Hres).
  set (k := resolve (cwd w) p) in *. set (parent := resolve (cwd w) (dirname p)) in *.
  assert (removelast k = parent) as Hparent by (by rewrite Hres, removelast_last).
  rewrite Hparent in *.
  destruct (os_makedirs_ok (dirname p) w Hdir) as (m1 & Hrun & Hm1).
  { intros q c Hq E. rewrite Forall_forall in Hway. specialize (Hway q Hq).
    unfold is_file in Hway. by rewrite E in Hway. }
  fold parent in Hm1.
  assert (k ∉ steps_down [] parent) as Hk.
  { intros Hin%steps_down_shorter. rewrite Hres, length_app in Hin. cbn in Hin. lia. }
  assert (p ≠ EmptyString) as Hne by (by intros ->).
  exists (<[k := File content]> m1). split.
  - unfold bind. rewrite Hrun. rewrite write_file_ok; [done|done|].
    rewrite fs_set_fs, cwd_set_fs. unfold writable. fold k. rewrite Hparent.
    assert (k ≠ []) as Hknil by (rewrite Hres; by destruct parent).
    split.
    + rewrite is_dir_lookup in * by done. rewrite Hm1.
      by rewrite (bool_decide_eq_false_2 (k ∈ _)).
    + destruct (decide (parent = [])) as [->|Hpnil]; [done|].
      rewrite is_dir_lookup by done. rewrite Hm1.
      rewrite (bool_decide_eq_true_2 (parent ∈ _)); [by apply bool_decide_eq_true_2|].
      by apply steps_down_last.
  - intros q. rewrite lookup_insert. case_decide as Hq.
    + by rewrite bool_decide_eq_true_2.
    + rewrite bool_decide_eq_false_2 by done. apply Hm1.
Qed.

End WriteFacts.

(** ** What a computation leaves alone *)

Module KeepFacts.
Import Str StrFacts Path PathFacts FsFacts.

Lemma keeps_weaken {A} (T T' : list string → list (list string)) (m : M A) :
  (∀ c k, k ∈ T c → k ∈ T' c) → keeps_except T m → keeps_except T' m.
Proof.
  intros Hsub Hm w. destruct (Hm w) as (Hc & Hi & Hk). repeat split; [done..|].
  intros k n Hkn Hout. apply Hk; [done|]. intros Hin. by apply Hout, Hsub.
Qed.

Lemma keeps_ret {A} T (a : A) : keeps_except T (ret a).
Proof. by intros w. Qed.

Lemma keeps_print T (s : string) : keeps_except T (print s).
Proof. by intros w. Qed.

Lemma keeps_bind {A B} T (m : M A) (k : A → M B) :
  keeps_except T m → (∀ a, keeps_except T (k a)) → keeps_except T (bind m k).
Proof.
  intros Hm Hk w. unfold bind. destruct (Hm w) as (Hc & Hi & Hkeep).
  destruct (m w) as [[a|e] w1]; cbn [snd] in *; [|done].
  destruct (Hk a w1) as (Hc1 & Hi1 & Hkeep1). rewrite Hc1, Hi1. repeat split; [done..|].
  intros q n Hq Hout. apply Hkeep1; [by apply Hkeep|]. by rewrite Hc.
Qed.

Lemma keeps_makedirs T (p : string) : keeps_except T (os_makedirs p).
Proof.
  intros w. destruct (os_makedirs_frame p w) as (Hc & Hi & Hk). repeat split; [done..|].
  intros k n Hkn _. by apply Hk.
Qed.

Lemma keeps_write_file (p content : string) :
  keeps_except (λ c, [resolve c p]) (write_file p content).
Proof.
  intros w. destruct (write_file p content w) as [o w'] eqn:E.
  apply write_file_inv in E as [(_ & _ & _ & ->)|(e & _ & ->)]; [|done].
  cbn [snd]. rewrite cwd_set_fs, stdin_set_fs, fs_set_fs. repeat split; [done..|].
  intros k n Hkn Hout. rewrite lookup_insert_ne; [done|]. intros <-. apply Hout. by left.
Qed.

Lemma keeps_create_file (self : ExpressProjectGenerator) (path content : string) :
  keeps_except (λ c, [resolve c (join (project_path self) [path])])
               (_create_file self path content).
Proof.
  unfold _create_file. apply keeps_bind; [apply keeps_makedirs|].
  intros _. apply keeps_write_file.
Qed.

Lemma keeps_create_base_files (self : ExpressProjectGenerator) :
  keeps_except (base_file_keys self) (_create_base_files self).
Proof.
  assert (∀ path content, path ∈ base_file_paths →
            keeps_except (base_file_keys self) (_create_file self path content)) as Hone.
  { intros path content Hin. eapply keeps_weaken; [|apply keeps_create_file].
    intros c k ->%list_elem_of_singleton.
    by apply (list_elem_of_fmap_2 (λ p, resolve c (join (project_path self) [p]))). }
  unfold _create_base_files.
  do 5 (apply keeps_bind; [apply Hone; unfold base_file_paths; set_solver|intros _]).
  apply Hone. unfold base_file_paths. set_solver.
Qed.

Lemma keeps_save_ts_files (root : string) :
  keeps_except (λ c, [resolve c (join root ["allcodebase.txt"])]) (save_ts_files_to_file root).
Proof.
  intros w. unfold save_ts_files_to_file.
  match goal with |- context [bind ?m ?k w] => assert (keeps_except
      (λ c, [resolve c (join root ["allcodebase.txt"])]) (bind m k)) as H end.
  { apply keeps_bind; [apply keeps_write_file|]. intros _. apply keeps_print. }
  apply H.
Qed.

End KeepFacts.

(** X1: [_create_file] makes the directories its file needs.  When the
    full path only goes down (no component is [..]), has a separator and
    ends with a plain file name, no regular file sits on the way to its
    parent and no directory sits at the path itself, the call returns; afterwards the file holds the text stripped
    of the white space around it and ended by one line feed, every
    directory on the way exists, and every other node is what it was.  The
    call stays in the working directory and neither reads nor prints. *)
Theorem X1_create_file_makes_parents
    (self : ExpressProjectGenerator) (path content : string) (w : World) :
  let full := Path.join (project_path self) [path] in
  let k := Path.resolve (cwd w) full in
  Path.descends full = true →
  Str.free_of Str.slash full = false →
  Path.simple (Path.basename full) = true →
  Forall (λ q, is_file (fs w) q = false) (steps_down [] (removelast k)) →
  is_dir (fs w) k = false →
  ∃ w', _create_file self path content w = (Return tt, w') ∧
        cwd w' = cwd w ∧ stdin w' = stdin w ∧ stdout w' = stdout w ∧
        ∀ q, fs w' !! q =
             if bool_decide (q = k)
             then Some (File (Str.strip content +:+ String Str.newline EmptyString))
             else if bool_decide (q ∈ steps_down [] (removelast k))
                  then Some Dir else fs w !! q.
Proof.
  intros full k _ Hfull Hbase Hway Htarget.
  destruct (WriteFacts.write_with_parents_ok full
              (Str.strip content +:+ String Str.newline EmptyString) w Hfull Hbase Hway Htarget)
    as (m' & Hrun & Hm').
  exists (set_fs m' w). by repeat split.
Qed.

Lemma X1_create_file_makes_parents_witness :
  ∃ w', _create_file demo_generator "src/config/database.ts" _get_database_config_content
          unscaffolded = (Return tt, w') ∧
        fs w' !! ["home"; "user"; "demo"; "src"; "config"] = Some Dir.
Proof.
  destruct (X1_create_file_makes_parents demo_generator "src/config/database.ts"
              _get_database_config_content unscaffolded)
    as (w' & Hrun & _ & _ & _ & Hfs).
  - reflexivity.
  - reflexivity.
  - reflexivity.
  - by_evaluation.
  - reflexivity.
  - exists w'. split; [exact Hrun|]. rewrite Hfs. reflexivity.
Defined.

(** X2: [_create_base_files] replaces nothing but its six files.  Whatever
    its outcome, every node that existed before and is not one of
    [src/app.ts], [src/server.ts], [src/config/database.ts],
    [src/middlewares/errorHandler.ts], [.env] and [.gitignore] of the
    project is still there, unchanged; the call stays in the working
    directory and reads no input. *)
Theorem X2_base_files_replace_only_their_own (self : ExpressProjectGenerator) (w : World) :
  cwd (_create_base_files self w).2 = cwd w ∧
  stdin (_create_base_files self w).2 = stdin w ∧
  ∀ k n, fs w !! k = Some n → k ∉ base_file_keys self (cwd w) →
         fs (_create_base_files self w).2 !! k = Some n.
Proof. apply KeepFacts.keeps_create_base_files. Qed.

(** ** More on module generation *)

Module ModuleMoreFacts.
Import Str StrFacts Path PathFacts FsFacts ModuleFacts.

(** A write that raises found its target not writable, and changed
    nothing. *)
Lemma write_file_raise (p c : string) (w w' : World) (e : exn) :
  p ≠ EmptyString → write_file p c w = (Raise e, w') →
  ¬ writable (fs w) (resolve (cwd w) p) ∧ w' = w.
Proof.
  intros Hp Hrun. split.
  - intros Hw. by rewrite (write_file_ok p c w Hp Hw) in Hrun.
  - by apply write_file_inv in Hrun as [(? & _)|(e' & _ & ->)].
Qed.

Lemma ascii_lower_slash_free (s : string) : free_of slash (lower s) = free_of slash s.
Proof.
  unfold lower. induction s as [|a s IH]; [done|]. cbn. rewrite IH. f_equal. f_equal.
  apply bool_decide_ext, ascii_lower_slash.
Qed.

(** For a name without separator, the node of a module file is the file
    name in its folder below [src] of the project. *)
Lemma module_key_plain (cwd : list string) (folder kind root name : string) :
  simple folder = true → free_of slash kind = true → free_of slash name = true →
  resolve cwd (module_file folder kind root name)
  = resolve cwd root ++ ["src"; folder; lower name +:+ "-" +:+ kind +:+ ".ts"].
Proof.
  intros Hfolder Hkind Hname. unfold module_file, join. cbn [fold_left].
  rewrite !resolve_join2; [by rewrite <- !List.app_assoc|done|done|].
  apply file_name_simple; [by rewrite ascii_lower_slash_free|].
  by rewrite free_of_app, Hkind.
Qed.

End ModuleMoreFacts.

(** X3: [create_module] has no rollback and reports success last.  When
    the call raises, it has printed nothing, stayed in the working
    directory and read nothing, and the files written before the failing
    write are kept: the file system is the one before the call when the
    service file could not be written, that one with the service file
    when the controller file could not, and with both when the route file
    could not. *)
Theorem X3_create_module_keeps_what_it_wrote (root name : string) (w w' : World) (e : exn) :
  create_module root name w = (Raise e, w') →
  cwd w' = cwd w ∧ stdin w' = stdin w ∧ stdout w' = stdout w ∧
  ((¬ writable (fs w) (service_key w root name) ∧ fs w' = fs w) ∨
   (writable (fs w) (service_key w root name) ∧
    ¬ writable (fs w) (controller_key w root name) ∧
    fs w' = <[service_key w root name := File (service_content name)]> (fs w)) ∨
   (writable (fs w) (service_key w root name) ∧
    writable (fs w) (controller_key w root name) ∧
    ¬ writable (fs w) (route_key w root name) ∧
    fs w' = <[controller_key w root name := File (controller_content name)]>
              (<[service_key w root name := File (service_content name)]> (fs w)))).
Proof.
  unfold create_module, bind, service_key, controller_key, route_key.
  destruct (write_file (service_file root name) _ w) as [[[]|e1] w1] eqn:E1.
  2:{ intros [= <- <-].
      apply ModuleMoreFacts.write_file_raise in E1 as [Hnw ->];
        [|apply ModuleFacts.module_file_nonempty].
      repeat split; [done..|]. by left. }
  apply FsFacts.write_file_inv in E1 as [(_ & _ & H1 & ->)|(? & ? & _)]; [|done].
  destruct (write_file (controller_file root name) _ _) as [[[]|e2] w2] eqn:E2.
  2:{ intros [= <- <-].
      apply ModuleMoreFacts.write_file_raise in E2 as [Hnw ->];
        [|apply ModuleFacts.module_file_nonempty].
      cbn [fs cwd stdin stdout set_fs] in *. repeat split; [done..|]. right. left.
      split; [done|]. split; [|done]. intros H2. apply Hnw.
      by apply FsFacts.writable_insert_file. }
  apply FsFacts.write_file_inv in E2 as [(_ & _ & H2 & ->)|(? & ? & _)]; [|done].
  cbn [fs cwd set_fs] in H2.
  assert (writable (fs w) (Path.resolve (cwd w) (controller_file root name))) as H2'.
  { destruct H1 as [H1a H1b], H2 as [H2a H2b].
    rewrite FsFacts.is_dir_insert_file in H2a, H2b by done. by split. }
  destruct (write_file (route_file root name) _ _) as [[[]|e3] w3] eqn:E3.
  { unfold print. intros [= ]. }
  intros [= <- <-].
  apply ModuleMoreFacts.write_file_raise in E3 as [Hnw ->];
    [|apply ModuleFacts.module_file_nonempty].
  cbn [fs cwd stdin stdout set_fs] in *. repeat split; [done..|]. right. right.
  split; [done|]. split; [done|]. split; [|done]. intros H3. apply Hnw.
  by repeat apply FsFacts.writable_insert_file.
Qed.

Lemma X3_create_module_keeps_what_it_wrote_witness :
  fs (create_module "demo" "post" half_made).2
    !! ["home"; "user"; "demo"; "src"; "services"; "post-service.ts"]
  = Some (File (service_content "post")).
Proof.
  destruct (X3_create_module_keeps_what_it_wrote "demo" "post" half_made
              (create_module "demo" "post" half_made).2 FileNotFoundError)
    as (_ & _ & _ & [(Hno & _)|[(_ & _ & ->)|(_ & Hyes & _)]]).
  - by_evaluation.
  - exfalso. apply Hno. split; reflexivity.
  - reflexivity.
  - exfalso. destruct Hyes as [_ Hparent]. vm_compute in Hparent. discriminate Hparent.
Defined.

(** X4: a module name without path separator keeps the three files in the
    project.  Their nodes are [L-service.ts] in [src/services],
    [L-controller.ts] in [src/controllers] and [L-routes.ts] in
    [src/routes] of the project, [L] being the lower-cased name, and
    whatever [create_module] changes is one of them. *)
Theorem X4_plain_name_stays_in_the_project (root name : string) (w : World) :
  Str.free_of Str.slash name = true →
  service_key w root name
  = Path.resolve (cwd w) root ++ ["src"; "services"; Str.lower name +:+ "-service.ts"] ∧
  controller_key w root name
  = Path.resolve (cwd w) root ++ ["src"; "controllers"; Str.lower name +:+ "-controller.ts"] ∧
  route_key w root name
  = Path.resolve (cwd w) root ++ ["src"; "routes"; Str.lower name +:+ "-routes.ts"] ∧
  module_files_under_root root name w.
Proof.
  intros Hname.
  pose proof (ModuleMoreFacts.module_key_plain (cwd w) "services" "service" root name
                eq_refl eq_refl Hname) as Hs.
  pose proof (ModuleMoreFacts.module_key_plain (cwd w) "controllers" "controller" root name
                eq_refl eq_refl Hname) as Hc.
  pose proof (ModuleMoreFacts.module_key_plain (cwd w) "routes" "routes" root name
                eq_refl eq_refl Hname) as Hr.
  do 3 (split; [done|]).
  intros k Hk.
  destruct (decide (k = service_key w root name)) as [->|H1]; [by left|].
  destruct (decide (k = controller_key w root name)) as [->|H2]; [by right; left|].
  destruct (decide (k = route_key w root name)) as [->|H3]; [by right; right|].
  destruct (ModuleFacts.create_module_frame root name w) as (_ & _ & Hframe).
  by destruct Hk; apply Hframe.
Qed.

Lemma X4_plain_name_stays_in_the_project_witness :
  route_key scaffolded "demo" "User" = ["home"; "user"; "demo"; "src"; "routes"; "user-routes.ts"].
Proof.
  destruct (X4_plain_name_stays_in_the_project "demo" "User" scaffolded) as (_ & _ & Hr & _).
  - reflexivity.
  - exact Hr.
Defined.

(** X5: the files of a module import each other under the names they are
    written with.  For a module name of one line without path separator,
    the service file is named [L-service.ts] and the controller file
    [L-controller.ts]; the only module import of the controller is that
    of [../services/L-service], and the only one of the routes is that of
    [../controllers/L-controller]. *)
Theorem X5_imports_match_file_names (root name : string) :
  Str.free_of Str.newline name = true →
  Str.free_of Str.slash name = true →
  Path.basename (service_file root name) = (Str.lower name +:+ "-service") +:+ ".ts" ∧
  Path.basename (controller_file root name) = (Str.lower name +:+ "-controller") +:+ ".ts" ∧
  lines_with "import * as" (controller_content name)
  = [ "import * as " +:+ name +:+ "Service from '../services/"
      +:+ (Str.lower name +:+ "-service") +:+ "';" ] ∧
  lines_with "import * as" (route_content name)
  = [ "import * as " +:+ name +:+ "Controller from '../controllers/"
      +:+ (Str.lower name +:+ "-controller") +:+ "';" ].
Proof.
  intros Hline Hname.
  assert (∀ folder kind,
            Str.free_of Str.slash kind = true →
            Path.basename (module_file folder kind root name)
            = (Str.lower name +:+ "-" +:+ kind) +:+ ".ts") as Hbase.
  { intros folder kind Hkind. unfold module_file, Path.join. cbn [fold_left].
    rewrite PathFacts.basename_join2. unfold Path.basename.
    rewrite StrFacts.split_free; [by rewrite !StrFacts.sapp_assoc|].
    rewrite StrFacts.free_of_app, ModuleMoreFacts.ascii_lower_slash_free, Hname.
    by rewrite !StrFacts.free_of_app, Hkind. }
  split; [by apply (Hbase "services" "service")|].
  split; [by apply (Hbase "controllers" "controller")|].
  assert (controller_template ≠ []) as Hc by discriminate.
  assert (route_template ≠ []) as Hr by discriminate.
  apply (λ H, TemplateFacts.lines_fstring_context name controller_template H eq_refl Hline) in Hc.
  apply (λ H, TemplateFacts.lines_fstring_context name route_template H eq_refl Hline) in Hr.
  unfold lines_with.
  change (Str.lines (controller_content name)) with (Str.lines (fstring name controller_template)).
  change (Str.lines (route_content name)) with (Str.lines (fstring name route_template)).
  rewrite Hc, Hr. clear Hc Hr Hline Hname Hbase.
  rewrite !StrFacts.sapp_assoc.
  generalize (Str.capitalize name) (Str.lower name). intros cap low.
  split; vm_compute; reflexivity.
Qed.

Lemma X5_imports_match_file_names_witness :
  lines_with "import * as" (controller_content "Post")
  = [ "import * as PostService from '../services/post-service';" ].
Proof.
  destruct (X5_imports_match_file_names "demo" "Post") as (_ & _ & Himport & _).
  - reflexivity.
  - reflexivity.
  - exact Himport.
Defined.

(** ** The menu without an action *)

Module MenuFacts.

Section Menu.
Variable json_dumps : json → string.
Variable shell : string → list string → gmap (list string) node → gmap (list string) node.
Variable script_name script_text : string.

Abbreviation turn' := (menu_turn json_dumps shell script_name script_text).
Abbreviation program' := (main json_dumps shell script_name script_text).

(** A turn at the end of the input. *)
Lemma menu_turn_eof (w : World) :
  stdin w = [] → ∃ w', turn' w = (Raise EOFError, w') ∧ fs w' = fs w ∧ cwd w' = cwd w.
Proof.
  intros Hin. unfold menu_turn, bind, print, input. cbn. rewrite Hin. eauto.
Qed.

(** A turn on a choice that is none of 1, 2 and 3. *)
Lemma menu_turn_no_action (w : World) (c : string) (rest : list string) :
  stdin w = c :: rest → c ≠ "1" → c ≠ "2" → c ≠ "3" →
  ∃ w', turn' w = (Return (negb (bool_decide (c = "4"))), w') ∧
        fs w' = fs w ∧ cwd w' = cwd w ∧ stdin w' = rest.
Proof.
  intros Hin H1 H2 H3. unfold menu_turn, bind, print, input. cbn. rewrite Hin.
  unfold after_choice. rewrite !bool_decide_eq_false_2 by done.
  case_bool_decide; unfold bind, print, ret; cbn; eauto.
Qed.

Lemma main_no_action (l : list string) (w : World) :
  stdin w = l →
  Forall (λ c, c ≠ "1" ∧ c ≠ "2" ∧ c ≠ "3") (until_exit l) →
  ∃ w', program' w
        = Some (if bool_decide ("4" ∈ l) then Return tt else Raise EOFError, w') ∧
        fs w' = fs w ∧ cwd w' = cwd w ∧ stdin w' = after_exit l.
Proof.
  revert w. induction l as [|c l IH]; intros w Hin Hall.
  - destruct (menu_turn_eof w Hin) as (w' & Hturn & Hfs & Hcwd).
    exists w'. rewrite LoopFacts.main_unfold, Hturn.
    rewrite bool_decide_eq_false_2 by (by intros ?%elem_of_nil). repeat split; [done..|].
    unfold menu_turn, bind, print, input in Hturn. cbn in Hturn. rewrite Hin in Hturn.
    by injection Hturn as <-.
  - cbn [until_exit after_exit] in *. destruct (decide (c = "4")) as [->|Hc].
    + destruct (menu_turn_no_action w "4" l Hin) as (w' & Hturn & Hfs & Hcwd & Hrest);
        [done..|].
      exists w'. rewrite LoopFacts.main_unfold, Hturn.
      rewrite (bool_decide_eq_true_2 ("4" = "4")) by done. cbn [negb].
      by rewrite (bool_decide_eq_true_2 ("4" ∈ _)) by left.
    + rewrite bool_decide_eq_false_2 in * by done.
      apply Forall_cons in Hall as [(H1 & H2 & H3) Hall].
      destruct (menu_turn_no_action w c l Hin H1 H2 H3) as (w1 & Hturn & Hfs & Hcwd & Hrest).
      destruct (IH w1 Hrest Hall) as (w' & Hrun & Hfs' & Hcwd' & Hrest').
      exists w'. rewrite LoopFacts.main_unfold, Hturn.
      rewrite (bool_decide_eq_false_2 (c = "4")) by done. cbn [negb]. rewrite Hrun.
      split; [|by rewrite Hfs', Hcwd'].
      rewrite (bool_decide_ext ("4" ∈ c :: l) ("4" ∈ l)); [done|].
      rewrite elem_of_cons. naive_solver.
Qed.

End Menu.

End MenuFacts.

(** X6: the menu changes nothing unless an action is chosen.  When none of
    the lines read up to the first choice 4 is 1, 2 or 3, [main] neither
    changes the file system nor leaves the working directory; it ends
    normally when there is a choice 4, leaving the lines after it unread,
    and with [EOFError] when the input ends without one. *)
Theorem X6_menu_without_action
    (json_dumps : json → string)
    (shell : string → list string → gmap (list string) node → gmap (list string) node)
    (script_name script_text : string) (w : World) :
  Forall (λ c, c ≠ "1" ∧ c ≠ "2" ∧ c ≠ "3") (until_exit (stdin w)) →
  ∃ w', main json_dumps shell script_name script_text w
        = Some (if bool_decide ("4" ∈ stdin w) then Return tt else Raise EOFError, w') ∧
        fs w' = fs w ∧ cwd w' = cwd w ∧ stdin w' = after_exit (stdin w).
Proof. by apply MenuFacts.main_no_action. Qed.

Lemma X6_menu_without_action_witness :
  ∃ w', main no_json idle_shell "pg.py" EmptyString mistyped_then_exit = Some (Return tt, w') ∧
        fs w' = scaffolded_fs ∧ stdin w' = ["1"].
Proof.
  destruct (X6_menu_without_action no_json idle_shell "pg.py" EmptyString mistyped_then_exit)
    as (w' & Hrun & Hfs & _ & Hin).
  - by_evaluation.
  - exists w'. split; [exact Hrun|]. split; [exact Hfs|exact Hin].
Defined.

(** ** The generator object and the working directory *)

Module InitFacts.
Import Str StrFacts Path PathFacts FsFacts.

Lemma sapp_nil_r (s : string) : s +:+ EmptyString = s.
Proof. induction s as [|a s IH]; [done|]. by rewrite sapp_cons, IH. Qed.

Lemma to_string_absolute (k : list string) : startswith slash (to_string k) = true.
Proof. by destruct k. Qed.

Lemma join2_absolute (a b : string) :
  startswith slash a = true → startswith slash (join2 a b) = true.
Proof.
  intros Ha. unfold join2. destruct (startswith slash b) eqn:Hb; [done|].
  destruct a as [|x a]; [done|]. by case_match.
Qed.

(** An absolute path names the same node from every working directory. *)
Lemma resolve_absolute (c1 c2 : list string) (p : string) :
  startswith slash p = true → resolve c1 p = resolve c2 p.
Proof. unfold resolve. by intros ->. Qed.

Lemma fold_step_simple (k acc : list string) :
  Forall (λ d, simple d = true) k → fold_left step k acc = acc ++ k.
Proof.
  revert acc. induction k as [|d k IH]; intros acc Hk; cbn.
  - by rewrite List.app_nil_r.
  - apply Forall_cons in Hk as [Hd Hk]. rewrite (step_simple _ _ Hd), IH by done.
    by rewrite <- List.app_assoc.
Qed.

Lemma split_to_string (k : list string) :
  Forall (λ d, simple d = true) k → k ≠ [] →
  split slash (foldr (λ c acc, String slash c +:+ acc) EmptyString k) = EmptyString :: k.
Proof.
  induction k as [|d k IH]; [done|]. intros Hk _. apply Forall_cons in Hk as [Hd Hk].
  apply simple_inv in Hd as (Hfree & _). cbn [foldr]. rewrite sapp_cons.
  cbn [split]. rewrite bool_decide_eq_true_2 by done. f_equal.
  destruct k as [|d' k].
  - cbn [foldr]. rewrite sapp_nil_r. by rewrite (split_free _ _ Hfree).
  - specialize (IH Hk ltac:(done)). cbn [foldr] in *. rewrite sapp_cons in *.
    rewrite split_free_sep by done. f_equal.
    cbn [split] in IH. rewrite bool_decide_eq_true_2 in IH by done. by injection IH.
Qed.

(** The path string of a working directory names that directory. *)
Lemma resolve_to_string (c k : list string) :
  Forall (λ d, simple d = true) k → resolve c (to_string k) = k.
Proof.
  intros Hk. unfold resolve. rewrite to_string_absolute.
  destruct k as [|d k]; [done|]. unfold to_string.
  rewrite split_to_string by done. cbn [fold_left].
  change (step [] EmptyString) with (@nil string).
  apply Forall_cons in Hk as [Hd Hk].
  by rewrite (step_simple _ _ Hd), fold_step_simple.
Qed.

End InitFacts.

(** X7: the paths of a generator object are absolute.  [__init__] always
    returns, without any effect, an object whose project path starts
    with a separator, so that the path names the same directory from
    every working directory, and whose [src] path names the entry [src]
    of that directory.  For a plain project name, and a working directory
    made of plain components, the project directory is the entry of that
    name in the working directory; a project name that starts with a
    separator is taken as the project path itself. *)
Theorem X7_init_paths (name : string) (w : World) :
  ∃ self, __init__ name w = (Return self, w) ∧
          project_name self = name ∧ database_url self = EmptyString ∧
          Str.startswith Str.slash (project_path self) = true ∧
          (∀ c, Path.resolve c (project_path self) = Path.resolve [] (project_path self)) ∧
          (∀ c, Path.resolve c (src_path self) = Path.resolve [] (project_path self) ++ ["src"]) ∧
          (Forall (λ d, Path.simple d = true) (cwd w) → Path.simple name = true →
           Path.resolve [] (project_path self) = cwd w ++ [name]) ∧
          (Str.startswith Str.slash name = true → project_path self = name).
Proof.
  eexists. split; [reflexivity|]. cbn [project_name database_url project_path src_path].
  unfold Path.join. cbn [fold_left].
  assert (Str.startswith Str.slash (Path.join2 (Path.to_string (cwd w)) name) = true) as Habs.
  { apply InitFacts.join2_absolute, InitFacts.to_string_absolute. }
  do 3 (split; [done|]). split; [|split; [|split]].
  - intros c. by apply InitFacts.resolve_absolute.
  - intros c. rewrite PathFacts.resolve_join2 by done. f_equal.
    by apply InitFacts.resolve_absolute.
  - intros Hcwd Hname. rewrite PathFacts.resolve_join2 by done.
    by rewrite InitFacts.resolve_to_string.
  - intros Hname. unfold Path.join2. by rewrite Hname.
Qed.

(** ** What [create_project] leaves behind *)

Module SilentFacts.
Import Path FsFacts.

Lemma silent_ret {A} (a : A) : silent (ret a).
Proof. by intros w. Qed.

Lemma silent_bind {A B} (m : M A) (k : A → M B) :
  silent m → (∀ a, silent (k a)) → silent (bind m k).
Proof.
  intros Hm Hk w. unfold bind. specialize (Hm w).
  destruct (m w) as [[a|e] w1]; cbn [snd] in *; [|done].
  destruct (Hk a w1) as (-> & -> & ->). done.
Qed.

Lemma silent_makedirs (p : string) : silent (os_makedirs p).
Proof. intros w. unfold os_makedirs. by repeat case_match. Qed.

Lemma silent_write_file (p content : string) : silent (write_file p content).
Proof. intros w. unfold write_file. by repeat case_match. Qed.

Lemma silent_for_each {A} (l : list A) (body : A → M unit) :
  (∀ x, silent (body x)) → silent (for_each l body).
Proof.
  intros Hbody. induction l as [|x l IH]; cbn [for_each].
  - apply silent_ret.
  - apply silent_bind; [apply Hbody|by intros _].
Qed.

Lemma silent_create_file (self : ExpressProjectGenerator) (path content : string) :
  silent (_create_file self path content).
Proof.
  unfold _create_file. apply silent_bind; [apply silent_makedirs|intros _].
  apply silent_write_file.
Qed.

Lemma silent_create_base_files (self : ExpressProjectGenerator) :
  silent (_create_base_files self).
Proof.
  unfold _create_base_files.
  do 5 (apply silent_bind; [apply silent_create_file|intros _]).
  apply silent_create_file.
Qed.

(** What a silent call keeps, read off its result. *)
Lemma silent_keeps {A} (m : M A) (w w' : World) (r : outcome A) :
  silent m → m w = (r, w') → cwd w' = cwd w ∧ stdin w' = stdin w ∧ stdout w' = stdout w.
Proof. intros Hm Hw. specialize (Hm w). by rewrite Hw in Hm. Qed.

Lemma chdir_return (p : string) (w w' : World) :
  os_chdir p w = (Return tt, w') →
  cwd w' = resolve (cwd w) p ∧ stdin w' = stdin w ∧ stdout w' = stdout w.
Proof. unfold os_chdir. repeat case_match; try done. by intros [= <-]. Qed.

Lemma print_return (s : string) (w w' : World) (r : outcome unit) :
  print s w = (r, w') → cwd w' = cwd w ∧ stdin w' = stdin w ∧ stdout w' = stdout w ++ [s].
Proof. unfold print. by intros [= <- <-]. Qed.

Lemma input_return (prompt l : string) (w w' : World) :
  input prompt w = (Return l, w') →
  cwd w' = cwd w ∧ stdin w = l :: stdin w' ∧ stdout w' = stdout w ++ [prompt].
Proof. unfold input. destruct (stdin w) as [|l' rest] eqn:Hin; [done|]. by intros [= <- <-]. Qed.

Section Shell.
Variable json_dumps : json → string.
Variable shell : string → list string → gmap (list string) node → gmap (list string) node.
Variable script_name : string.
Variable script_text : string.

Lemma silent_os_system (cmd : string) : silent (os_system shell cmd).
Proof. by intros w. Qed.

Lemma silent_copy_script_to (dst : string) : silent (copy_script_to script_name script_text dst).
Proof. intros w. unfold copy_script_to. case_match; apply silent_write_file. Qed.

(** The two steps that run a shell command: into the project directory,
    then the command, then the message, whatever the command did. *)
Lemma shell_step_return (p cmd msg : string) (w w' : World) :
  (os_chdir p ;; os_system shell cmd ;; print msg) w = (Return tt, w') →
  cwd w' = resolve (cwd w) p ∧ stdin w' = stdin w ∧ stdout w' = stdout w ++ [msg].
Proof.
  intros ([] & w1 & H1 & H2)%BaseFacts.bind_return.
  apply BaseFacts.bind_return in H2 as ([] & w2 & H2 & H3).
  apply chdir_return in H1 as (<- & <- & <-).
  apply (silent_keeps _ _ _ _ (silent_os_system cmd)) in H2 as (<- & <- & <-).
  by apply print_return in H3 as (-> & -> & ->).
Qed.

(** Where a run of [create_project] that returns has left the program. *)
Lemma create_project_return (self : ExpressProjectGenerator) (w w' : World) :
  Str.startswith Str.slash (project_path self) = true →
  create_project json_dumps shell script_name script_text self w = (Return tt, w') →
  cwd w' = resolve [] (project_path self) ∧
  (∃ url, stdin w = url :: stdin w') ∧
  stdout w' = stdout w ++
    [ "database URL for Prisma: ";
      "Dependencies installed successfully!";
      "Prisma client generated successfully!";
      "Project '" +:+ project_name self +:+ "' created successfully!" ].
Proof.
  intros Habs Hrun. unfold create_project in Hrun.
  apply BaseFacts.bind_return in Hrun as ([] & w1 & H1 & Hrun).
  apply BaseFacts.bind_return in Hrun as ([] & w2 & H2 & Hrun).
  apply BaseFacts.bind_return in Hrun as ([] & w3 & H3 & Hrun).
  apply BaseFacts.bind_return in Hrun as (self' & w4 & H4 & Hrun).
  apply BaseFacts.bind_return in Hrun as ([] & w5 & H5 & Hrun).
  apply BaseFacts.bind_return in Hrun as ([] & w6 & H6 & Hrun).
  apply BaseFacts.bind_return in Hrun as ([] & w7 & H7 & Hrun).
  apply BaseFacts.bind_return in Hrun as ([] & w8 & H8 & H9).
  (* the directories *)
  apply silent_keeps in H1 as (Hc1 & Hi1 & Ho1);
    [|apply silent_for_each; intros; apply silent_makedirs].
  (* package.json *)
  apply BaseFacts.bind_return in H2 as ([] & w2' & H2 & H2').
  apply chdir_return in H2 as (Hc2 & Hi2 & Ho2).
  apply silent_keeps in H2' as (Hc2' & Hi2' & Ho2');
    [|apply silent_write_file].
  (* tsconfig.json *)
  apply silent_keeps in H3 as (Hc3 & Hi3 & Ho3);
    [|apply silent_write_file].
  (* the schema *)
  unfold _setup_prisma in H4.
  apply BaseFacts.bind_return in H4 as (url & w4a & H4a & H4).
  apply BaseFacts.bind_return in H4 as ([] & w4b & H4b & H4).
  apply BaseFacts.bind_return in H4 as ([] & w4c & H4c & H4d).
  apply input_return in H4a as (Hc4a & Hi4a & Ho4a).
  apply silent_keeps in H4b as (Hc4b & Hi4b & Ho4b);
    [|apply silent_makedirs].
  apply silent_keeps in H4c as (Hc4c & Hi4c & Ho4c);
    [|apply silent_write_file].
  injection H4d as <- <-. cbn [project_path project_name] in *.
  (* the base files *)
  apply silent_keeps in H5 as (Hc5 & Hi5 & Ho5);
    [|apply silent_create_base_files].
  (* the two shell commands *)
  apply shell_step_return in H6 as (Hc6 & Hi6 & Ho6).
  apply shell_step_return in H7 as (Hc7 & Hi7 & Ho7).
  (* the copy and the last message *)
  apply silent_keeps in H8 as (Hc8 & Hi8 & Ho8);
    [|apply silent_copy_script_to].
  apply print_return in H9 as (Hc9 & Hi9 & Ho9).
  split; [|split].
  - rewrite Hc9, Hc8, Hc7. by apply InitFacts.resolve_absolute.
  - exists url. rewrite Hi9, Hi8, Hi7, Hi6, Hi5, Hi4c, Hi4b. rewrite <- Hi4a.
    by rewrite Hi3, Hi2', Hi2, Hi1.
  - rewrite Ho9, Ho8, Ho7, Ho6, Ho5, Ho4c, Ho4b, Ho4a, Ho3, Ho2', Ho2, Ho1.
    by rewrite <- !List.app_assoc.
Qed.

End Shell.
End SilentFacts.

(** X8: where a run of [create_project] that returns has left the
    program.  For a generator whose project path is absolute (as
    [__init__] makes it): the working directory is the project
    directory, exactly one line of input was read (the database URL),
    and four lines were printed: the question for the URL and the three
    messages of success.  The messages do not depend on what the two
    shell commands did. *)
Theorem X8_create_project_on_return
  (json_dumps : json → string)
  (shell : string → list string → gmap (list string) node → gmap (list string) node)
  (script_name script_text : string)
  (self : ExpressProjectGenerator) (w w' : World) :
  Str.startswith Str.slash (project_path self) = true →
  create_project json_dumps shell script_name script_text self w = (Return tt, w') →
  cwd w' = Path.resolve [] (project_path self) ∧
  (∃ url, stdin w = url :: stdin w') ∧
  stdout w' = stdout w ++
    [ "database URL for Prisma: ";
      "Dependencies installed successfully!";
      "Prisma client generated successfully!";
      "Project '" +:+ project_name self +:+ "' created successfully!" ].
Proof. apply SilentFacts.create_project_return. Qed.

Lemma X8_create_project_on_return_witness :
  let w' := (create_project no_json idle_shell "pg.py" "# the script" demo_generator
               empty_home).2 in
  cwd w' = Path.resolve [] "/home/user/demo" ∧
  (∃ url, stdin empty_home = url :: stdin w') ∧
  stdout w' = stdout empty_home ++
    [ "database URL for Prisma: ";
      "Dependencies installed successfully!";
      "Prisma client generated successfully!";
      "Project 'demo' created successfully!" ].
Proof.
  apply (X8_create_project_on_return no_json idle_shell "pg.py" "# the script"
           demo_generator empty_home).
  - reflexivity.
  - by_evaluation.
Defined.

(** ** The manifest and the schema *)

Module ManifestFacts.
Import Str StrFacts Path PathFacts FsFacts.

Lemma resolve_plain (c : list string) (d : string) :
  simple d = true → resolve c d = c ++ [d].
Proof.
  intros Hd. pose proof (simple_inv _ Hd) as (Hfree & _).
  unfold resolve. rewrite (simple_not_absolute _ Hd), (split_free _ _ Hfree).
  cbn [fold_left]. by apply step_simple.
Qed.

Lemma join2_keeps_slash (a b : string) :
  free_of slash b = false → free_of slash (join2 a b) = false.
Proof.
  intros Hb. unfold join2. repeat case_match; [done|..]; rewrite free_of_app.
  - by rewrite Hb, andb_false_r.
  - cbn [free_of]. by rewrite Hb, !andb_false_r.
Qed.

(** The path of the schema, as a path string and as a node. *)
Lemma schema_path_spec (pp : string) (c : list string) :
  let p := join pp ["prisma"; "schema.prisma"] in
  free_of slash p = false ∧ basename p = "schema.prisma" ∧
  resolve c p = resolve c pp ++ ["prisma"; "schema.prisma"].
Proof.
  unfold join. cbn [fold_left]. split; [|split].
  - rewrite join2_join2 by done. by apply join2_keeps_slash.
  - by rewrite basename_join2.
  - rewrite !resolve_join2 by done. by rewrite <- List.app_assoc.
Qed.

End ManifestFacts.

(** X9: [_initialize_npm_project] moves into the project directory and
    writes the manifest there.  For a project path that is not empty and
    only goes down (no component is [..]): when it names a directory
    that holds no directory [package.json], the call returns, the
    working directory is the project directory and [package.json] in it
    holds the manifest, nothing else being changed; when [package.json]
    is a directory the call raises [IsADirectoryError] after the working
    directory was changed; when the path names no directory the call
    raises [FileNotFoundError] or [NotADirectoryError] and changes
    nothing, [NotADirectoryError] when the path names a regular file. *)
Theorem X9_manifest_in_project_directory
  (json_dumps : json → string) (self : ExpressProjectGenerator) (w : World) :
  project_path self ≠ EmptyString →
  Path.descends (project_path self) = true →
  let P := Path.resolve (cwd w) (project_path self) in
  let manifest := P ++ ["package.json"] in
  (is_dir (fs w) P = true → is_dir (fs w) manifest = false →
   _initialize_npm_project json_dumps self w =
     (Return tt,
      mkWorld (<[manifest := File (json_dumps (package_json self))]> (fs w))
              P (stdin w) (stdout w))) ∧
  (is_dir (fs w) P = true → is_dir (fs w) manifest = true →
   _initialize_npm_project json_dumps self w = (Raise IsADirectoryError, set_cwd P w)) ∧
  (is_dir (fs w) P = false →
   ∃ e, _initialize_npm_project json_dumps self w = (Raise e, w) ∧
        (e = FileNotFoundError ∨ e = NotADirectoryError) ∧
        (is_file (fs w) P = true → e = NotADirectoryError)).
Proof.
  intros Hpp _ P manifest.
  assert (_initialize_npm_project json_dumps self w =
          if is_dir (fs w) P then
            if is_dir (fs w) manifest then (Raise IsADirectoryError, set_cwd P w)
            else (Return tt,
                  mkWorld (<[manifest := File (json_dumps (package_json self))]> (fs w))
                          P (stdin w) (stdout w))
          else (Raise (if bool_decide (is_Some (fs w !! P))
                       then NotADirectoryError else FileNotFoundError), w)) as Hrun.
  { unfold _initialize_npm_project, bind, os_chdir.
    rewrite (bool_decide_eq_false_2 _ Hpp). fold P.
    destruct (is_dir (fs w) P) eqn:HP.
    - unfold write_file. cbn [cwd fs set_cwd].
      rewrite (bool_decide_eq_false_2 ("package.json" = EmptyString)) by done.
      rewrite (ManifestFacts.resolve_plain P "package.json" eq_refl). fold manifest.
      destruct (is_dir (fs w) manifest); [done|].
      unfold manifest. by rewrite removelast_last, HP.
    - destruct (fs w !! P) as [n|] eqn:E.
      + by rewrite bool_decide_eq_true_2.
      + rewrite bool_decide_eq_false_2; [done|]. by intros [? ?]. }
  rewrite Hrun. split; [|split].
  - by intros -> ->.
  - by intros -> ->.
  - intros ->. eexists. split; [done|]. split.
    + case_bool_decide; auto.
    + unfold is_file. intros Hfile. rewrite bool_decide_eq_true_2; [done|].
      by destruct (fs w !! P).
Qed.

Lemma X9_manifest_in_project_directory_witness :
  (_initialize_npm_project no_json demo_generator unscaffolded).1 = Return tt ∧
  cwd (_initialize_npm_project no_json demo_generator unscaffolded).2 = ["home"; "user"; "demo"].
Proof.
  destruct (X9_manifest_in_project_directory no_json demo_generator unscaffolded)
    as (Hok & _ & _).
  - discriminate.
  - reflexivity.
  - rewrite Hok; [split; reflexivity|reflexivity|reflexivity].
Defined.

(** X10: [_setup_prisma] reads the database URL and writes the schema.
    With a project path that only goes down (no component is [..]), a
    line of input waiting, no regular file on the way to the
    directory [prisma] of the project and no directory at
    [prisma/schema.prisma], the call returns the generator with the line
    read as its database URL; the question was printed, the line was
    taken from the input, the working directory is kept, the directories
    on the way to [prisma] exist, the project directory included, the
    schema file holds the schema, and every other node is what it was. *)
Theorem X10_setup_prisma_writes_schema
  (self : ExpressProjectGenerator) (w : World) (url : string) (rest : list string) :
  let P := Path.resolve (cwd w) (project_path self) in
  Path.descends (project_path self) = true →
  stdin w = url :: rest →
  Forall (λ q, is_file (fs w) q = false) (steps_down [] (P ++ ["prisma"])) →
  is_dir (fs w) (P ++ ["prisma"; "schema.prisma"]) = false →
  ∃ w', _setup_prisma self w =
          (Return (mkGenerator (project_name self) (project_path self) (src_path self) url), w') ∧
        cwd w' = cwd w ∧ stdin w' = rest ∧
        stdout w' = stdout w ++ ["database URL for Prisma: "] ∧
        ∀ q, fs w' !! q =
             if bool_decide (q = P ++ ["prisma"; "schema.prisma"])
             then Some (File (Str.strip (text schema_lines)))
             else if bool_decide (q ∈ steps_down [] (P ++ ["prisma"]))
                  then Some Dir else fs w !! q.
Proof.
  intros P _ Hin Hway Htarget.
  set (p := Path.join (project_path self) ["prisma"; "schema.prisma"]).
  destruct (ManifestFacts.schema_path_spec (project_path self) (cwd w)) as (Hslash & Hbase & Hres).
  fold p in Hslash, Hbase, Hres. fold P in Hres.
  set (w1 := mkWorld (fs w) (cwd w) rest (stdout w ++ ["database URL for Prisma: "])).
  assert (removelast (Path.resolve (cwd w1) p) = P ++ ["prisma"]) as Hparent.
  { cbn [cwd w1]. rewrite Hres.
    change (P ++ ["prisma"; "schema.prisma"]) with (P ++ ["prisma"] ++ ["schema.prisma"]).
    by rewrite List.app_assoc, removelast_last. }
  destruct (WriteFacts.write_with_parents_ok p (Str.strip (text schema_lines)) w1)
    as (m' & Hrun & Hm').
  - done.
  - by rewrite Hbase.
  - by rewrite Hparent.
  - cbn [cwd fs w1]. by rewrite Hres.
  - exists (set_fs m' w1). split; [|repeat split].
    + unfold _setup_prisma, bind at 1, input. rewrite Hin. fold w1. fold p.
      unfold bind in Hrun |- *.
      destruct (os_makedirs (Path.dirname p) w1) as [[[]|e] w2]; [|done].
      by rewrite Hrun.
    + intros q. rewrite Hparent in Hm'. cbn [cwd w1] in Hm'. rewrite Hres in Hm'.
      apply Hm'.
Qed.

Lemma X10_setup_prisma_writes_schema_witness :
  ∃ w', (_setup_prisma demo_generator empty_home).2 = w' ∧
        fs w' !! ["home"; "user"; "demo"; "prisma"] = Some Dir ∧
        fs w' !! ["home"; "user"; "demo"] = Some Dir.
Proof.
  destruct (X10_setup_prisma_writes_schema demo_generator empty_home
              "postgresql://localhost/demo" [])
    as (w' & Hrun & _ & _ & _ & Hfs).
  - reflexivity.
  - reflexivity.
  - by_evaluation.
  - reflexivity.
  - exists w'. split; [by rewrite Hrun|]. split; rewrite Hfs; reflexivity.
Defined.

(** ** The dump of the TypeScript files *)

Module DumpFacts.
Import Str StrFacts Path PathFacts FsFacts.

(** What [os.walk] reaches below [top]: the nodes strictly below it with
    directories all the way from [top]. *)
Lemma walk_reaches_spec m (top k : list string) :
  walk_reaches m top k = true ↔
  ∃ rel, rel ≠ [] ∧ k = top ++ rel ∧
         ∀ n, n < length rel → is_dir m (top ++ take n rel) = true.
Proof.
  unfold walk_reaches. rewrite !andb_true_iff, !bool_decide_eq_true, forallb_forall.
  split.
  - intros [[[rel ->] Hne] Hway]. exists rel. split; [|split; [done|]].
    + intros ->. by rewrite List.app_nil_r in Hne.
    + intros n Hn. rewrite <- (take_app_add' top rel (length top) n eq_refl).
      apply Hway, in_seq. rewrite length_app. lia.
  - intros (rel & Hne & -> & Hway). split; [split|].
    + by exists rel.
    + intros E. apply Hne. apply (f_equal length) in E. rewrite length_app in E.
      destruct rel; [done|cbn in E; lia].
    + intros n [Hlo Hhi]%in_seq. rewrite length_app in Hhi.
      replace n with (length top + (n - length top)) by lia.
      rewrite take_app_add' by done. apply Hway. lia.
Qed.

Lemma walk_files_spec m (top k : list string) (content : string) :
  (k, content) ∈ walk_files m top ↔
  m !! k = Some (File content) ∧ walk_reaches m top k = true.
Proof.
  unfold walk_files. rewrite list_elem_of_omap. split.
  - intros ([k' n] & Hin%elem_of_map_to_list & Hf). cbn [fst snd] in Hf.
    destruct n as [|c]; [done|]. destruct (walk_reaches m top k') eqn:Hw; [|done].
    by injection Hf as -> ->.
  - intros [Hk Hw]. exists (k, File content). split; [by apply elem_of_map_to_list|].
    cbn [fst snd]. by rewrite Hw.
Qed.

(** No directory at [top], nothing to walk. *)
Lemma walk_files_no_top m (top : list string) : is_dir m top = false → walk_files m top = [].
Proof.
  intros Htop. apply elem_of_nil_inv. intros [k content] Hin. apply walk_files_spec in Hin as [_ Hw].
  apply walk_reaches_spec in Hw as (rel & Hne & _ & Hway).
  specialize (Hway 0). rewrite take_0, List.app_nil_r in Hway.
  rewrite Hway in Htop; [done|]. destruct rel; [done|cbn; lia].
Qed.

Lemma last_below {A} (l1 l2 : list A) (d : A) :
  l2 ≠ [] → List.last (l1 ++ l2) d = List.last l2 d.
Proof.
  intros Hne. induction l1 as [|x l1 IH]; [done|]. cbn [app]. rewrite <- IH.
  cbn [List.last]. destruct (l1 ++ l2) eqn:E; [|done].
  by apply app_eq_nil in E as [_ ?].
Qed.

Lemma output_key (c : list string) (root : string) :
  resolve c (join root ["allcodebase.txt"]) = resolve c root ++ ["allcodebase.txt"].
Proof. unfold join. cbn [fold_left]. by apply resolve_join2. Qed.

Lemma src_key (c : list string) (root : string) :
  resolve c (join root ["src"]) = resolve c root ++ ["src"].
Proof. unfold join. cbn [fold_left]. by apply resolve_join2. Qed.

Lemma output_nonempty (root : string) : join root ["allcodebase.txt"] ≠ EmptyString.
Proof. unfold join. cbn [fold_left]. by apply join2_nonempty. Qed.

End DumpFacts.

(** X11: what [allcodebase.txt] holds.  When [save_ts_files_to_file]
    returns, the project path names a directory; [allcodebase.txt] in it
    holds sections joined by line feeds and nothing else of the file
    system has changed.  There is a section for a file exactly when the
    file lies below [src] of the project with directories all the way
    down from [src], and its name ends with [.ts]; the section gives the
    path of the file from the project directory, starting with [src], and
    the text of the file.  One line is printed, none is read. *)
Theorem X11_dump_sections (project_path : string) (w w' : World) :
  save_ts_files_to_file project_path w = (Return tt, w') →
  let P := Path.resolve (cwd w) project_path in
  is_dir (fs w) P = true ∧
  cwd w' = cwd w ∧ stdin w' = stdin w ∧ length (stdout w') = S (length (stdout w)) ∧
  ∃ sections,
    fs w' = <[P ++ ["allcodebase.txt"] := File (Str.join Str.newline sections)]> (fs w) ∧
    ∀ s, s ∈ sections ↔
         ∃ rel content,
           rel ≠ [] ∧
           fs w !! (P ++ "src" :: rel) = Some (File content) ∧
           (∀ n, n < length rel → is_dir (fs w) (P ++ "src" :: take n rel) = true) ∧
           Str.has_suffix ".ts" (List.last rel EmptyString) = true ∧
           s = ts_section ("src" :: rel) content.
Proof.
  intros Hrun P. unfold save_ts_files_to_file in Hrun.
  apply BaseFacts.bind_return in Hrun as ([] & w1 & Hwrite & Hprint).
  apply FsFacts.write_file_inv in Hwrite as [(_ & _ & [_ Hparent] & ->)|(e & ? & _)]; [|done].
  rewrite DumpFacts.output_key in Hparent, Hprint. rewrite DumpFacts.src_key in Hprint.
  fold P in Hparent, Hprint. rewrite removelast_last in Hparent.
  unfold print in Hprint. injection Hprint as <-. cbn [fs cwd stdin stdout set_fs].
  split; [done|]. do 2 (split; [done|]). split; [rewrite length_app; cbn; lia|].
  eexists. split; [reflexivity|].
  intros s. rewrite list_elem_of_omap. split.
  - intros ([k content] & Hin & Hs). cbn [fst snd] in Hs.
    apply DumpFacts.walk_files_spec in Hin as [Hk Hreach].
    apply DumpFacts.walk_reaches_spec in Hreach as (rel & Hne & -> & Hway).
    rewrite <- List.app_assoc in Hk, Hs. cbn [app] in Hk, Hs.
    rewrite (DumpFacts.last_below P ("src" :: rel)) in Hs by done.
    rewrite (DumpFacts.last_below ["src"] rel) in Hs by done.
    rewrite drop_app_length in Hs.
    destruct (Str.has_suffix ".ts" (List.last rel EmptyString)) eqn:Hts; [|done].
    injection Hs as <-.
    exists rel, content. split; [done|]. split; [done|]. split; [|done].
    intros n Hn. specialize (Hway n Hn). by rewrite <- List.app_assoc in Hway.
  - intros (rel & content & Hne & Hk & Hway & Hts & ->).
    exists (P ++ "src" :: rel, content). split.
    + apply DumpFacts.walk_files_spec. split; [done|].
      apply DumpFacts.walk_reaches_spec. exists rel. split; [done|].
      split; [by rewrite <- List.app_assoc|].
      intros n Hn. rewrite <- List.app_assoc. by apply Hway.
    + cbn [fst snd]. rewrite (DumpFacts.last_below P ("src" :: rel)) by done.
      rewrite (DumpFacts.last_below ["src"] rel) by done.
      by rewrite Hts, drop_app_length.
Qed.

Lemma X11_dump_sections_witness :
  ∃ sections,
    fs (save_ts_files_to_file "demo" half_made).2
    = <[ ["home"; "user"; "demo"; "allcodebase.txt"] :=
           File (Str.join Str.newline sections) ]> (fs half_made) ∧
    ts_section ["src"; "services"; "user-service.ts"] "export {};" ∈ sections.
Proof.
  destruct (X11_dump_sections "demo" half_made (save_ts_files_to_file "demo" half_made).2)
    as (_ & _ & _ & _ & sections & Hfs & Hin).
  - by_evaluation.
  - exists sections. split; [exact Hfs|]. apply Hin.
    exists ["services"; "user-service.ts"], "export {};".
    split; [done|]. split; [reflexivity|]. split; [|split; reflexivity].
    intros [|[|n]] Hn; [reflexivity|reflexivity|cbn in Hn; lia].
Defined.

(** X12: a project without sources is dumped as an empty file.  When the
    project path names a directory in which [allcodebase.txt] is no
    directory and [src] is no directory, [save_ts_files_to_file]
    returns: [allcodebase.txt] is written empty (replacing what it held)
    and the message that the files have been saved is printed. *)
Theorem X12_dump_without_sources (project_path : string) (w : World) :
  let P := Path.resolve (cwd w) project_path in
  is_dir (fs w) P = true →
  is_dir (fs w) (P ++ ["allcodebase.txt"]) = false →
  is_dir (fs w) (P ++ ["src"]) = false →
  save_ts_files_to_file project_path w =
    (Return tt,
     mkWorld (<[P ++ ["allcodebase.txt"] := File EmptyString]> (fs w)) (cwd w) (stdin w)
             (stdout w ++
              ["All TypeScript files from " +:+ Path.join project_path ["src"]
               +:+ " have been saved to " +:+ Path.join project_path ["allcodebase.txt"]
               +:+ "."])).
Proof.
  intros P HP Hout Hsrc. unfold save_ts_files_to_file.
  rewrite DumpFacts.src_key. fold P. rewrite (DumpFacts.walk_files_no_top _ _ Hsrc).
  cbn [omap list_omap]. unfold bind.
  rewrite FsFacts.write_file_ok; [|apply DumpFacts.output_nonempty|].
  - rewrite DumpFacts.output_key. fold P. reflexivity.
  - rewrite DumpFacts.output_key. fold P. split; [done|]. by rewrite removelast_last.
Qed.

Lemma X12_dump_without_sources_witness :
  fs (save_ts_files_to_file "demo" unscaffolded).2
    !! ["home"; "user"; "demo"; "allcodebase.txt"] = Some (File EmptyString).
Proof.
  rewrite (X12_dump_without_sources "demo" unscaffolded); reflexivity.
Defined.

(** ** A regular file where a directory belongs *)

Module BlockedFacts.
Import Str StrFacts Path PathFacts FsFacts.

Lemma makedirs_from_error (pre rest : list string) m (e : exn) m' :
  makedirs_from pre rest m = (Some e, m') → e = FileExistsError ∨ e = NotADirectoryError.
Proof.
  revert pre m. induction rest as [|c rest IH]; intros pre m; cbn [makedirs_from]; [done|].
  destruct (m !! (pre ++ [c])) as [[|content]|]; [apply IH| |apply IH].
  intros [= <- _]. destruct rest; auto.
Qed.

Lemma is_file_insert_dir m (k q : list string) :
  m !! k = None → is_file m q = true → is_file (<[k := Dir]> m) q = true.
Proof.
  intros Hk Hq. unfold is_file in *. rewrite lookup_insert_ne; [done|].
  intros <-. by rewrite Hk in Hq.
Qed.

(** A regular file on the way stops [os.makedirs]. *)
Lemma makedirs_from_stops (pre rest : list string) m (q : list string) :
  q ∈ steps_down pre rest → is_file m q = true →
  ∃ e, (makedirs_from pre rest m).1 = Some e.
Proof.
  revert pre m. induction rest as [|c rest IH]; intros pre m; cbn [steps_down makedirs_from].
  - by intros ?%elem_of_nil.
  - intros Hq Hfile. destruct (m !! (pre ++ [c])) as [[|content]|] eqn:E.
    + apply elem_of_cons in Hq as [->|Hq]; [|by apply IH].
      unfold is_file in Hfile. by rewrite E in Hfile.
    + eauto.
    + apply elem_of_cons in Hq as [->|Hq].
      * unfold is_file in Hfile. by rewrite E in Hfile.
      * apply IH; [done|]. by apply is_file_insert_dir.
Qed.

Lemma is_file_kept m m' (q : list string) :
  (∀ k n, m !! k = Some n → m' !! k = Some n) → is_file m q = true → is_file m' q = true.
Proof.
  intros Hkeep. unfold is_file. destruct (m !! q) as [[|c]|] eqn:E; try done.
  by rewrite (Hkeep _ _ E).
Qed.

(** A run of [os.makedirs] calls with a regular file on one of the ways. *)
Lemma makedirs_all_stops (ps : list string) (w : World) (q : list string) :
  Forall (λ p, p ≠ EmptyString) ps →
  q ∈ List.concat ((λ p, steps_down [] (resolve (cwd w) p)) <$> ps) →
  is_file (fs w) q = true →
  ∃ e w', for_each ps os_makedirs w = (Raise e, w') ∧
          (e = FileExistsError ∨ e = NotADirectoryError) ∧
          ∀ k n, fs w !! k = Some n → fs w' !! k = Some n.
Proof.
  revert w. induction ps as [|p ps IH]; intros w Hne Hq Hfile;
    cbn [for_each fmap list_fmap List.concat] in *.
  - by apply elem_of_nil in Hq.
  - apply Forall_cons in Hne as [Hp Hps].
    destruct (os_makedirs_frame p w) as (Hcwd & _ & Hkeep).
    unfold bind. unfold os_makedirs in *. rewrite (bool_decide_eq_false_2 _ Hp) in *.
    destruct (makedirs_from [] (resolve (cwd w) p) (fs w)) as [[e|] m1] eqn:Hrun;
      cbn [snd fs cwd set_fs] in *.
    + exists e, (set_fs m1 w). split; [done|]. split; [|done].
      by apply makedirs_from_error in Hrun.
    + apply elem_of_app in Hq as [Hq|Hq].
      * destruct (makedirs_from_stops _ _ _ _ Hq Hfile) as [e He]. by rewrite Hrun in He.
      * destruct (IH (set_fs m1 w) Hps) as (e & w' & Hrest & He & Hkeep').
        { done. }
        { cbn [fs set_fs]. by apply (is_file_kept (fs w)). }
        exists e, w'. split; [done|]. split; [done|].
        intros k n Hk. apply Hkeep'. cbn [fs set_fs]. by apply Hkeep.
Qed.

End BlockedFacts.

(** X13: a regular file where a directory of the project tree belongs
    stops the scaffolding at once.  [_create_directory_structure] then
    raises [FileExistsError] or [NotADirectoryError], and so does
    [create_project], before it has moved, read the database URL or
    printed anything; the nodes that existed before are kept. *)
Theorem X13_file_in_the_way
  (json_dumps : json → string)
  (shell : string → list string → gmap (list string) node → gmap (list string) node)
  (script_name script_text : string)
  (name path url : string) (w : World) (k : list string) :
  let self := mkGenerator name path (Path.join path ["src"]) url in
  let src := Path.resolve (cwd w) (src_path self) in
  k ∈ project_tree src → is_file (fs w) k = true →
  ∃ e w', _create_directory_structure self w = (Raise e, w') ∧
          create_project json_dumps shell script_name script_text self w = (Raise e, w') ∧
          (e = FileExistsError ∨ e = NotADirectoryError) ∧
          cwd w' = cwd w ∧ stdin w' = stdin w ∧ stdout w' = stdout w ∧
          ∀ q n, fs w !! q = Some n → fs w' !! q = Some n.
Proof.
  intros self src Hk Hfile.
  assert (src_path self ≠ EmptyString) as Hsrc.
  { cbn. by apply PathFacts.join2_nonempty. }
  destruct (BlockedFacts.makedirs_all_stops (directories self) w k)
    as (e & w' & Hrun & He & Hkeep).
  { by apply TreeFacts.directories_nonempty. }
  { by apply TreeFacts.directories_steps. }
  { done. }
  exists e, w'. split; [done|]. split.
  { unfold create_project, bind at 1. unfold _create_directory_structure. by rewrite Hrun. }
  split; [done|].
  destruct (SilentFacts.silent_keeps (for_each (directories self) os_makedirs) w w' (Raise e))
    as (? & ? & ?); [|done|done].
  apply SilentFacts.silent_for_each. intros. apply SilentFacts.silent_makedirs.
Qed.

Lemma X13_file_in_the_way_witness :
  ∃ e w', create_project no_json idle_shell "pg.py" "# the script"
            (mkGenerator "demo" "/home/user/demo" (Path.join "/home/user/demo" ["src"]) EmptyString)
            src_taken = (Raise e, w') ∧
          stdin w' = stdin src_taken.
Proof.
  destruct (X13_file_in_the_way no_json idle_shell "pg.py" "# the script"
              "demo" "/home/user/demo" EmptyString src_taken ["home"; "user"; "demo"; "src"])
    as (e & w' & _ & Hrun & _ & _ & Hin & _).
  - by_evaluation.
  - reflexivity.
  - exists e, w'. by split.
Defined.

(** ** A new project from the menu *)

(** X14: after a project was created from the menu, the program works in
    the directory of that project.  When the working directory is made of
    plain components, the user chooses [1] and gives a plain project
    name, and the turn of the menu returns, then the loop goes on, the
    working directory is the entry of that name in the former working
    directory, and exactly three lines of input were read: the choice,
    the name and the database URL.  A relative path given at a later
    choice is therefore taken from the directory of the new project. *)
Theorem X14_new_project_becomes_working_directory
  (json_dumps : json → string)
  (shell : string → list string → gmap (list string) node → gmap (list string) node)
  (script_name script_text : string)
  (name : string) (rest : list string) (w w' : World) (b : bool) :
  Forall (λ d, Path.simple d = true) (cwd w) →
  Path.simple name = true →
  stdin w = "1" :: name :: rest →
  menu_turn json_dumps shell script_name script_text w = (Return b, w') →
  b = true ∧ cwd w' = cwd w ++ [name] ∧ ∃ url, rest = url :: stdin w'.
Proof.
  intros Hcwd Hname Hin Hrun. unfold menu_turn in Hrun.
  apply BaseFacts.bind_return in Hrun as ([] & w1 & H1 & Hrun).
  apply BaseFacts.bind_return in Hrun as ([] & w2 & H2 & Hrun).
  apply BaseFacts.bind_return in Hrun as ([] & w3 & H3 & Hrun).
  apply BaseFacts.bind_return in Hrun as ([] & w4 & H4 & Hrun).
  apply BaseFacts.bind_return in Hrun as ([] & w5 & H5 & Hrun).
  apply BaseFacts.bind_return in Hrun as (choice & w6 & H6 & Hrun).
  apply SilentFacts.print_return in H1 as (Hc1 & Hi1 & _).
  apply SilentFacts.print_return in H2 as (Hc2 & Hi2 & _).
  apply SilentFacts.print_return in H3 as (Hc3 & Hi3 & _).
  apply SilentFacts.print_return in H4 as (Hc4 & Hi4 & _).
  apply SilentFacts.print_return in H5 as (Hc5 & Hi5 & _).
  apply SilentFacts.input_return in H6 as (Hc6 & Hi6 & _).
  rewrite Hi5, Hi4, Hi3, Hi2, Hi1, Hin in Hi6. injection Hi6 as <- Hi6.
  rewrite Hc5, Hc4, Hc3, Hc2, Hc1 in Hc6.
  unfold after_choice in Hrun. rewrite (bool_decide_eq_true_2 ("1" = "1") eq_refl) in Hrun.
  apply BaseFacts.bind_return in Hrun as (name' & w7 & H7 & Hrun).
  apply BaseFacts.bind_return in Hrun as (self & w8 & H8 & Hrun).
  apply BaseFacts.bind_return in Hrun as ([] & w9 & H9 & Hret).
  apply SilentFacts.input_return in H7 as (Hc7 & Hi7 & _).
  rewrite <- Hi6 in Hi7. injection Hi7 as <- Hi7.
  unfold __init__, bind, os_getcwd, ret in H8. injection H8 as <- <-.
  injection Hret as <- <-.
  apply SilentFacts.create_project_return in H9 as (Hc9 & (url & Hi9) & _).
  - cbn [project_path] in Hc9. unfold Path.join in Hc9. cbn [fold_left] in Hc9.
    rewrite PathFacts.resolve_join2 in Hc9 by done.
    rewrite InitFacts.resolve_to_string in Hc9 by (by rewrite Hc7, Hc6).
    split; [done|]. split; [by rewrite Hc9, Hc7, Hc6|].
    exists url. by rewrite Hi7.
  - cbn [project_path]. unfold Path.join. cbn [fold_left].
    apply InitFacts.join2_absolute, InitFacts.to_string_absolute.
Qed.

Lemma X14_new_project_becomes_working_directory_witness :
  let w := mkWorld (fs empty_home) (cwd empty_home)
             ["1"; "demo"; "postgresql://localhost/demo"; "2"] [] in
  let w' := (menu_turn no_json idle_shell "pg.py" "# the script" w).2 in
  true = true ∧ cwd w' = cwd w ++ ["demo"] ∧
  ∃ url, ["postgresql://localhost/demo"; "2"] = url :: stdin w'.
Proof.
  apply (X14_new_project_becomes_working_directory no_json idle_shell "pg.py" "# the script"
           "demo" ["postgresql://localhost/demo"; "2"]).
  - by_evaluation.
  - reflexivity.
  - reflexivity.
  - by_evaluation.
Defined.
